(** * Jblocker (NetGuard): traffic monitor, blocklist and decision policy

    A shallow embedding of the parts of
      - [backend/ml/gambling_detector.py]   (class [GamblingDetector]),
      - [backend/core/database_manager.py]  (class [DatabaseManager]),
      - [backend/monitoring/traffic_monitor.py]
          (classes [NetworkTrafficMonitor] and [ProxyAddon])
    that decide flagging, auto-blocking, the blocked set, the dedup cache and
    the throttled bandwidth log.

    Conventions of the embedding
      - Python [float] is the kernel's binary64 [float] (PrimFloat): literals
        such as [0.7] denote the same double as in Python, and [>] is [ltb]
        with its arguments swapped.
      - Python [str] is [string]; [str.lower] is the ASCII case mapping.
      - A [datetime] is an integer number of microseconds; a [timedelta] is
        the difference of two of them, and [.seconds] is its normalised
        seconds component, as in CPython.
      - [set] is [gset string]; [dict] used as a map is [gmap].  A set
        object that two holders may share (the blocked set, held by the
        monitor and possibly by the proxy addon) is one field of the
        state, and the addon records whether its attribute refers to it.
      - An exception is the [Raise] branch of [result]; stateful methods run
        in the monad [M], which keeps the state reached when an exception is
        raised, as Python does.
      - What the operating system, the clock, sklearn, [urlparse] and the
        builtin [float] return is an input of the method that asks for it. *)

From Stdlib Require Import ZArith Ascii String List Bool Lia Floats.
From stdpp Require Import gmap strings list pretty.
Import ListNotations.

Set Warnings "-inexact-float,-clear-no-such-hyp".
Open Scope string_scope.
Open Scope Z_scope.

(* ===================================================================== *)
(** ** Python values, exceptions and builtins *)
(* ===================================================================== *)

Module Py.

(** The exception classes that the modelled code can meet.  All of them
    derive from [Exception]; [PermissionError] and [FileNotFoundError]
    are the two [OSError]s the hosts file can produce. *)
Inductive exn : Type :=
| ValueError
| IndexError
| AttributeError
| PermissionError
| FileNotFoundError
| OperationalError      (* sqlite3 *)
| OtherException.

Inductive result (A : Type) : Type :=
| Ok (a : A)
| Raise (e : exn).
Arguments Ok {A} a.
Arguments Raise {A} e.

Definition rbind {A B} (r : result A) (k : A -> result B) : result B :=
  match r with
  | Ok a => k a
  | Raise e => Raise e
  end.

(** [try: body / except Exception: handler] on a pure computation. *)
Definition rtry {A} (body : result A) (handler : exn -> result A) : result A :=
  match body with
  | Ok a => Ok a
  | Raise e => handler e
  end.

(** [dict] with string keys and values, in insertion order. *)
Definition headers : Type := list (string * string).

(** Truthiness of [str], of [Optional[str]] and of [dict]. *)
Definition truthy_str (s : string) : bool :=
  match s with
  | EmptyString => false
  | String _ _ => true
  end.

Definition truthy_headers (h : option headers) : bool :=
  match h with
  | Some (_ :: _) => true
  | _ => false
  end.

(** [str.lower], on ASCII. *)
Definition lower_ascii (c : Ascii.ascii) : Ascii.ascii :=
  let n := Ascii.nat_of_ascii c in
  if (Nat.leb 65 n && Nat.leb n 90)%bool then Ascii.ascii_of_nat (n + 32) else c.

Fixpoint lower (s : string) : string :=
  match s with
  | EmptyString => EmptyString
  | String c s' => String (lower_ascii c) (lower s')
  end.

(** [s[:n]] *)
Definition take_str (n : nat) (s : string) : string := String.substring 0 n s.

(** [sep.join(parts)] *)
Fixpoint join (sep : string) (parts : list string) : string :=
  match parts with
  | [] => ""
  | [p] => p
  | p :: rest => p ++ sep ++ join sep rest
  end.

(** [s.split(c)] for a one-character separator: the fields between the
    occurrences of [c], empty fields included. *)
Fixpoint split_on (c : Ascii.ascii) (s : string) : list string :=
  match s with
  | EmptyString => [""]
  | String a s' =>
      if Ascii.eqb a c then "" :: split_on c s'
      else match split_on c s' with
           | [] => [String a ""]
           | f :: fs => String a f :: fs
           end
  end.

(** [sub in s] *)
Fixpoint contains (sub s : string) : bool :=
  if String.prefix sub s then true
  else match s with
       | EmptyString => false
       | String _ s' => contains sub s'
       end.

(** [f.readlines()]: the lines of a text, each with its newline. *)
Fixpoint readlines_aux (cur : string) (s : string) : list string :=
  match s with
  | EmptyString => if truthy_str cur then [cur] else []
  | String c s' =>
      if Ascii.eqb c "010"%char
      then (cur ++ String c "") :: readlines_aux "" s'
      else readlines_aux (cur ++ String c "") s'
  end.

Definition readlines (s : string) : list string := readlines_aux "" s.

(** [x in xs] for a list of strings. *)
Definition in_list (x : string) (xs : list string) : bool :=
  existsb (String.eqb x) xs.

(** A naive [datetime] and the [.seconds] attribute of the [timedelta]
    [now - earlier]: a timedelta is normalised to days, seconds in
    [0, 86400) and microseconds in [0, 10^6), and [.seconds] is the
    middle component only. *)
Abbreviation datetime := Z.

Definition timedelta_seconds (delta_us : Z) : Z :=
  (delta_us / 1000000) mod 86400.

(** [float(n)] for an [int] n with |n| < 2^63. *)
Definition float_of_int (n : Z) : float :=
  if n <? 0
  then PrimFloat.opp (PrimFloat.of_uint63 (Uint63.of_Z (- n)))
  else PrimFloat.of_uint63 (Uint63.of_Z n).

(** [a > b] on floats. *)
Definition gt (a b : float) : bool := PrimFloat.ltb b a.

End Py.
Export Py.

(* ===================================================================== *)
(** ** DatabaseManager *)
(* ===================================================================== *)

Module DatabaseManager.

Record DetectionLog : Type := {
  det_url : string;
  det_confidence : float;
  det_is_gambling : bool;
  det_headers : option headers;
  det_content_snippet : option string;
  det_blocked : bool;
  det_method : option string;
  det_status_code : option Z;
  det_response_size : option Z
}.

Record TrafficLog : Type := {
  tr_source_ip : string;
  tr_dest_ip : string;
  tr_source_port : Z;
  tr_dest_port : Z;
  tr_protocol : string;
  tr_url : string;
  tr_method : string;
  tr_headers : option headers;
  tr_request_body : option string;
  tr_response_headers : option headers;
  tr_response_body : option string;
  tr_status_code : Z;
  tr_response_size : Z;
  tr_duration_ms : float
}.

Record BandwidthRow : Type := {
  bw_bytes_sent : Z;
  bw_bytes_recv : Z;
  bw_bandwidth_mbps : float;
  bw_active_connections : Z
}.

(** The tables the monitor touches.  [db_up] tells whether
    [sqlite3.connect] and the statements after it succeed; when it is
    [false] they raise [OperationalError].  Tables are in insertion
    order. *)
Record t : Type := {
  db_up : bool;
  settings : gmap string string;
  blocked_sites : list (string * option string);
  detection_logs : list DetectionLog;
  traffic_logs : list TrafficLog;
  bandwidth_history : list BandwidthRow
}.

Definition with_blocked_sites (d : t) (bs : list (string * option string)) : t :=
  {| db_up := db_up d; settings := settings d; blocked_sites := bs;
     detection_logs := detection_logs d; traffic_logs := traffic_logs d;
     bandwidth_history := bandwidth_history d |}.

Definition with_detection_logs (d : t) (ls : list DetectionLog) : t :=
  {| db_up := db_up d; settings := settings d; blocked_sites := blocked_sites d;
     detection_logs := ls; traffic_logs := traffic_logs d;
     bandwidth_history := bandwidth_history d |}.

Definition with_traffic_logs (d : t) (ls : list TrafficLog) : t :=
  {| db_up := db_up d; settings := settings d; blocked_sites := blocked_sites d;
     detection_logs := detection_logs d; traffic_logs := ls;
     bandwidth_history := bandwidth_history d |}.

Definition with_bandwidth_history (d : t) (ls : list BandwidthRow) : t :=
  {| db_up := db_up d; settings := settings d; blocked_sites := blocked_sites d;
     detection_logs := detection_logs d; traffic_logs := traffic_logs d;
     bandwidth_history := ls |}.

(** [log_detection]: no [try] in the source, so a failing database
    raises.  Empty headers and empty content are stored as NULL, and the
    content is cut to its first 1000 characters. *)
Definition log_detection (url : string) (confidence : float) (is_gambling : bool)
    (hdrs : option headers) (content : option string) (blocked : bool)
    (method : option string) (status_code response_size : option Z)
    (d : t) : result nat * t :=
  if db_up d then
    let row := {| det_url := url; det_confidence := confidence;
                  det_is_gambling := is_gambling;
                  det_headers := if truthy_headers hdrs then hdrs else None;
                  det_content_snippet :=
                    match content with
                    | Some c => if truthy_str c then Some (take_str 1000 c) else None
                    | None => None
                    end;
                  det_blocked := blocked; det_method := method;
                  det_status_code := status_code;
                  det_response_size := response_size |} in
    (Ok (S (length (detection_logs d))),
     with_detection_logs d (detection_logs d ++ [row]))
  else (Raise OperationalError, d).

(** [json.dumps(h) if h else None] *)
Definition json_if_any (h : headers) : option headers :=
  match h with
  | [] => None
  | _ :: _ => Some h
  end.

(** [body[:5000] if body else None] *)
Definition cut_body (body : option string) : option string :=
  match body with
  | Some b => if truthy_str b then Some (take_str 5000 b) else None
  | None => None
  end.

(** [log_traffic], with the arguments its one caller passes: no [try] in
    the source, so a failing database raises.  Empty headers and empty
    bodies are stored as NULL, and each body is cut to its first 5000
    characters. *)
Definition log_traffic (source_ip dest_ip : string) (source_port dest_port : Z)
    (protocol url method : string) (hdrs : headers) (request_body : option string)
    (response_headers : headers) (response_body : option string)
    (status_code response_size : Z) (duration_ms : float)
    (d : t) : result nat * t :=
  if db_up d then
    let row := {| tr_source_ip := source_ip; tr_dest_ip := dest_ip;
                  tr_source_port := source_port; tr_dest_port := dest_port;
                  tr_protocol := protocol; tr_url := url; tr_method := method;
                  tr_headers := json_if_any hdrs;
                  tr_request_body := cut_body request_body;
                  tr_response_headers := json_if_any response_headers;
                  tr_response_body := cut_body response_body;
                  tr_status_code := status_code;
                  tr_response_size := response_size;
                  tr_duration_ms := duration_ms |} in
    (Ok (S (length (traffic_logs d))), with_traffic_logs d (traffic_logs d ++ [row]))
  else (Raise OperationalError, d).

Definition log_bandwidth (row : BandwidthRow) (d : t) : result nat * t :=
  if db_up d then
    (Ok (S (length (bandwidth_history d))),
     with_bandwidth_history d (bandwidth_history d ++ [row]))
  else (Raise OperationalError, d).

(** [get_statistics] and [get_connections] only read; what matters to
    their callers here is whether they raise. *)
Definition get_statistics (d : t) : result unit :=
  if db_up d then Ok tt else Raise OperationalError.

Definition get_connections (d : t) : result unit :=
  if db_up d then Ok tt else Raise OperationalError.

Definition get_setting (key : string) (d : t) : result (option string) :=
  if db_up d then Ok (settings d !! key) else Raise OperationalError.

(** [INSERT OR IGNORE] into a table whose [url] column is UNIQUE; any
    exception is swallowed and turned into [False]. *)
Definition add_blocked_site (url : string) (reason : option string) (d : t) : bool * t :=
  if db_up d then
    if in_list url (map fst (blocked_sites d)) then (true, d)
    else (true, with_blocked_sites d (blocked_sites d ++ [(url, reason)]))
  else (false, d).

(** [DELETE FROM blocked_sites WHERE url = ?] *)
Definition remove_blocked_site (url : string) (d : t) : bool * t :=
  if db_up d then
    (true, with_blocked_sites d
             (List.filter (fun r => negb (String.eqb (fst r) url)) (blocked_sites d)))
  else (false, d).

(** The rows of [blocked_sites]; the caller only builds a set from them. *)
Definition get_blocked_sites (d : t) : result (list (string * option string)) :=
  if db_up d then Ok (blocked_sites d) else Raise OperationalError.

End DatabaseManager.

(* ===================================================================== *)
(** ** GamblingDetector *)
(* ===================================================================== *)

Module GamblingDetector.

(** What [urlparse] returns, as far as the code reads it. *)
Record ParseResult : Type := {
  netloc : string;
  path : string;
  query : string
}.

(** The fitted sklearn pipeline, seen through [predict_proba([text])]:
    one row of class probabilities per input text, or an exception. *)
Definition Pipeline : Type := string -> result (list (list float)).

(** [db_manager] is a reference to the application's one
    [DatabaseManager] (or [None]); here it records whether
    [set_db_manager] attached it, and the methods take the current
    contents of that database. *)
Record t : Type := {
  model : option Pipeline;
  db_manager : bool
}.

Section Builtins.

(** [urllib.parse.urlparse] and the builtin [float] applied to a [str]. *)
Variable urlparse : string -> result ParseResult.
Variable float_of_str : string -> result float.

Definition header_text (hdrs : headers) : string :=
  join " "
    (map (fun kv => lower (fst kv) ++ ":" ++ lower (snd kv))
       (List.filter
          (fun kv => in_list (lower (fst kv))
                       ["content-type"; "server"; "title"; "description"])
          hdrs)).

Definition extract_features_from_url (url : string) (hdrs : option headers)
    (content : option string) : string :=
  match urlparse url with
  | Ok parsed_url =>
      let domain := lower (netloc parsed_url) in
      let path := lower (path parsed_url) in
      let query := lower (query parsed_url) in
      let text_content := domain ++ " " ++ path ++ " " ++ query in
      let domain_parts := split_on "."%char domain in
      let text_content := text_content ++ " " ++ join " " domain_parts in
      let text_content :=
        match hdrs with
        | Some h => if truthy_headers hdrs
                    then text_content ++ " " ++ header_text h
                    else text_content
        | None => text_content
        end in
      match content with
      | Some c => if truthy_str c
                  then text_content ++ " " ++ lower (take_str 3000 c)
                  else text_content
      | None => text_content
      end
  | Raise _ => lower url
  end.

(** [probabilities[0]] *)
Definition first_row (probabilities : list (list float)) : result (list float) :=
  match probabilities with
  | row :: _ => Ok row
  | [] => Raise IndexError
  end.

(** [row[1] if len(row) > 1 else 0.5] *)
Definition gambling_prob_of (row : list float) : float :=
  match row with
  | _ :: p1 :: _ => p1
  | _ => 0.5%float
  end.

(** The threshold read inside [predict_gambling]: 0.5 unless a database
    is attached and holds a non-empty [sensitivity] setting, in which
    case it is [float(setting) / 100.0]. *)
Definition read_sensitivity (self : t) (db : DatabaseManager.t) : result float :=
  if db_manager self then
      rbind (DatabaseManager.get_setting "sensitivity" db) (fun sensitivity_setting =>
      match sensitivity_setting with
      | Some s =>
          if truthy_str s
          then rbind (float_of_str s) (fun v => Ok (PrimFloat.div v 100%float))
          else Ok 0.5%float
      | None => Ok 0.5%float
      end)
  else Ok 0.5%float.

Definition predict_gambling (self : t) (db : DatabaseManager.t) (url : string)
    (hdrs : option headers) (content : option string) : result (float * bool) :=
  match model self with
  | None => Ok (0.5%float, false)
  | Some m =>
      rtry
        (let features := extract_features_from_url url hdrs content in
         rbind (m features) (fun probabilities =>
         rbind (first_row probabilities) (fun row =>
         let gambling_prob := gambling_prob_of row in
         rbind (read_sensitivity self db) (fun sensitivity =>
         let is_gambling := gt gambling_prob sensitivity in
         Ok (gambling_prob, is_gambling)))))
        (fun _ => Ok (0.5%float, false))
  end.

End Builtins.

End GamblingDetector.

(* ===================================================================== *)
(** ** The process state and the monad of its methods *)
(* ===================================================================== *)

Module Sys.

(** The hosts file: its text, and what [open] does on it for this
    process: succeed, raise [PermissionError], or raise another
    [OSError] (the directory of the path does not exist on the machine,
    as on any system but Windows).  [HostsWritable] is the case in which
    the file opens and the writes that follow succeed. *)
Inductive hosts_access : Type :=
| HostsWritable
| HostsPermissionDenied
| HostsMissing.

(** What the monitor and the addon [print]; the numbers formatted into
    the messages are kept as values. *)
Inductive message : Type :=
| MsgBlocked (hostname : string) (confidence : float)
| MsgAutoBlocked (domain : string) (confidence : float)
| MsgPermissionDenied (domain : string)
| MsgErrorBlocking (domain : string) (e : exn)
| MsgErrorUnblocking (domain : string) (e : exn)
| MsgErrorStats (e : exn)
| MsgErrorRequest (e : exn)
| MsgErrorResponse (e : exn)
| MsgErrorMLAnalysis (e : exn).

(** [self._last_net_check] *)
Record NetCheck : Type := {
  nc_time : float;
  nc_bytes_sent : Z;
  nc_bytes_recv : Z
}.

(** The attributes of [NetworkTrafficMonitor] that its methods read and
    write.  [_last_net_check] and [_last_bandwidth_log] do not exist
    until first assigned ([hasattr]): [None]. *)
Record Monitor : Type := {
  blocked_domains : gset string;
  connections_cache : gmap string datetime;
  _last_net_check : option NetCheck;
  _last_bandwidth_log : option float
}.

(** [ProxyAddon]: its attribute [blocked_domains] is a reference to a
    set object.  [_start_proxy] hands the constructor the monitor's set,
    and [blocked_domains or set()] keeps that very object when it is not
    empty and makes a new empty set otherwise.  So the attribute is either
    the monitor's own set ([shares_monitor_set]), which both objects then
    read and mutate, or a set that only the addon holds. *)
Record Addon : Type := {
  shares_monitor_set : bool;
  own_blocked_domains : gset string
}.

Record World : Type := {
  db : DatabaseManager.t;
  monitor : Monitor;
  addon : Addon;
  hosts_text : string;
  hosts_mode : hosts_access;
  stdout : list message
}.

Definition with_db (w : World) (d : DatabaseManager.t) : World :=
  {| db := d; monitor := monitor w; addon := addon w; hosts_text := hosts_text w;
     hosts_mode := hosts_mode w; stdout := stdout w |}.

Definition with_monitor (w : World) (m : Monitor) : World :=
  {| db := db w; monitor := m; addon := addon w; hosts_text := hosts_text w;
     hosts_mode := hosts_mode w; stdout := stdout w |}.

Definition with_addon (w : World) (a : Addon) : World :=
  {| db := db w; monitor := monitor w; addon := a; hosts_text := hosts_text w;
     hosts_mode := hosts_mode w; stdout := stdout w |}.

Definition with_hosts_text (w : World) (s : string) : World :=
  {| db := db w; monitor := monitor w; addon := addon w; hosts_text := s;
     hosts_mode := hosts_mode w; stdout := stdout w |}.


Definition with_stdout (w : World) (o : list message) : World :=
  {| db := db w; monitor := monitor w; addon := addon w; hosts_text := hosts_text w;
     hosts_mode := hosts_mode w; stdout := o |}.

(** The set that the addon's [self.blocked_domains] refers to. *)
Definition addon_blocked_domains (w : World) : gset string :=
  if shares_monitor_set (addon w)
  then blocked_domains (monitor w)
  else own_blocked_domains (addon w).

(** State and exceptions: the state is threaded through a raise. *)
Definition M (A : Type) : Type := World -> result A * World.

Definition ret {A} (a : A) : M A := fun w => (Ok a, w).

Definition raise {A} (e : exn) : M A := fun w => (Raise e, w).

Definition bind {A B} (m : M A) (k : A -> M B) : M B :=
  fun w => match m w with
           | (Ok a, w') => k a w'
           | (Raise e, w') => (Raise e, w')
           end.

(** [try: body / except <classes>: handler]; a handler re-raises what its
    [except] clause does not name. *)
Definition try_except {A} (body : M A) (handler : exn -> M A) : M A :=
  fun w => match body w with
           | (Ok a, w') => (Ok a, w')
           | (Raise e, w') => handler e w'
           end.

Definition get : M World := fun w => (Ok w, w).

Definition modify (f : World -> World) : M unit := fun w => (Ok tt, f w).

Definition lift {A} (r : result A) : M A := fun w => (r, w).

Definition print (m : message) : M unit :=
  modify (fun w => with_stdout w (stdout w ++ [m])).

(** A [DatabaseManager] method run on the shared database. *)
Definition on_db {A} (f : DatabaseManager.t -> result A * DatabaseManager.t) : M A :=
  fun w => let '(r, d) := f (db w) in (r, with_db w d).

(** A [DatabaseManager] method that only reads. *)
Definition read_db {A} (f : DatabaseManager.t -> result A) : M A :=
  fun w => (f (db w), w).

Definition on_db_total {A} (f : DatabaseManager.t -> A * DatabaseManager.t) : M A :=
  fun w => let '(a, d) := f (db w) in (Ok a, with_db w d).

Definition exec {A} (m : M A) (w : World) : World := snd (m w).
Definition eval {A} (m : M A) (w : World) : result A := fst (m w).

(** The callable handed to the monitor and the addon as [ml_predictor]:
    it may read the database and may raise.  What the callable prints
    itself is not recorded: [stdout] holds the lines that the monitor and
    the addon print. *)
Definition predictor : Type :=
  DatabaseManager.t -> string -> option headers -> option string -> result (float * bool).

End Sys.
Export Sys.

Declare Scope monad_scope.
Notation "'let*' x ':=' m 'in' k" := (Sys.bind m (fun x => k))
  (at level 10, x name, m at level 100, k at level 200) : monad_scope.
Notation "'run' m 'then' k" := (Sys.bind m (fun _ => k))
  (at level 10, m at level 100, k at level 200) : monad_scope.
Open Scope monad_scope.

(* ===================================================================== *)
(** ** NetworkTrafficMonitor *)
(* ===================================================================== *)

Module NetworkTrafficMonitor.

Definition with_blocked_domains (m : Monitor) (s : gset string) : Monitor :=
  {| blocked_domains := s; connections_cache := connections_cache m;
     _last_net_check := _last_net_check m;
     _last_bandwidth_log := _last_bandwidth_log m |}.

Definition with_connections_cache (m : Monitor) (c : gmap string datetime) : Monitor :=
  {| blocked_domains := blocked_domains m; connections_cache := c;
     _last_net_check := _last_net_check m;
     _last_bandwidth_log := _last_bandwidth_log m |}.

Definition with_last_net_check (m : Monitor) (c : option NetCheck) : Monitor :=
  {| blocked_domains := blocked_domains m; connections_cache := connections_cache m;
     _last_net_check := c;
     _last_bandwidth_log := _last_bandwidth_log m |}.

Definition with_last_bandwidth_log (m : Monitor) (t : option float) : Monitor :=
  {| blocked_domains := blocked_domains m; connections_cache := connections_cache m;
     _last_net_check := _last_net_check m;
     _last_bandwidth_log := t |}.

Definition nl : string := String (Ascii.ascii_of_nat 10) "".

(** [domain in self.blocked_domains] *)
Definition is_blocked (domain : string) (w : World) : bool :=
  bool_decide (domain ∈ blocked_domains (monitor w)).

(** [open(hosts_path, mode)] *)
Definition open_hosts : M unit :=
  fun w => match hosts_mode w with
           | HostsWritable => (Ok tt, w)
           | HostsPermissionDenied => (Raise PermissionError, w)
           | HostsMissing => (Raise FileNotFoundError, w)
           end.

(** [f.write(text)] on a file opened with ['a'] *)
Definition write_hosts (text : string) : M unit :=
  modify (fun w => with_hosts_text w (hosts_text w ++ text)).

(** [except PermissionError:] around the hosts-file block *)
Definition on_permission_error (domain : string) (e : exn) : M unit :=
  match e with
  | PermissionError => print (MsgPermissionDenied domain)
  | _ => raise e
  end.

Definition block_domain (domain : string) : M bool :=
  try_except
    (run on_db_total
           (DatabaseManager.add_blocked_site ("http://" ++ domain)
              (Some "Gambling detected")) then
     run modify (fun w =>
           with_monitor w
             (with_blocked_domains (monitor w)
                ({[domain]} ∪ blocked_domains (monitor w)))) then
     run try_except
           (run open_hosts then
            run write_hosts (nl ++ "127.0.0.1 " ++ domain) then
            write_hosts (nl ++ "127.0.0.1 www." ++ domain))
           (on_permission_error domain) then
     ret true)
    (fun e => run print (MsgErrorBlocking domain e) then ret false).

Definition unblock_domain (domain : string) : M bool :=
  try_except
    (run on_db_total
           (DatabaseManager.remove_blocked_site ("http://" ++ domain)) then
     run modify (fun w =>
           with_monitor w
             (with_blocked_domains (monitor w)
                (blocked_domains (monitor w) ∖ {[domain]}))) then
     run try_except
           (run open_hosts then
            let* w := get in
            let lines := readlines (hosts_text w) in
            run open_hosts then
            modify (fun w =>
              with_hosts_text w
                (String.concat ""
                   (List.filter (fun line => negb (contains domain line)) lines))))
           (on_permission_error domain) then
     ret true)
    (fun e => run print (MsgErrorUnblocking domain e) then ret false).

(** One connection as [psutil] reports it, and what the calls made while
    analysing it return: [socket.gethostbyaddr(ip)[0]] and the two reads
    of [datetime.now()]. *)
Record Conn : Type := {
  raddr_ip : string;
  raddr_port : Z
}.

Record Probe : Type := {
  gethostbyaddr : result string;
  now_check : datetime;
  now_store : datetime
}.

(** [ip.startswith('127.') or ip.startswith('192.168.')] *)
Definition is_local (ip : string) : bool :=
  (String.prefix "127." ip || String.prefix "192.168." ip)%bool.

(** [socket.gethostbyaddr(ip)[0]], or the address itself when the lookup
    raises. *)
Definition resolve_hostname (conn : Conn) (env : Probe) : string :=
  match gethostbyaddr env with
  | Ok h => h
  | Raise _ => raddr_ip conn
  end.

(** The dedup test: the key is cached and
    [(datetime.now() - last_check).seconds < 300]. *)
Definition recently_checked (cache : gmap string datetime) (cache_key : string)
    (now : datetime) : bool :=
  match cache !! cache_key with
  | Some last_check => timedelta_seconds (now - last_check) <? 300
  | None => false
  end.

(** What one call of [get_real_time_stats] reads from [psutil] and the
    clock. *)
Record NetReading : Type := {
  active_connections : Z;
  bytes_sent : Z;
  bytes_recv : Z
}.

Record StatsProbe : Type := {
  psutil_net : result NetReading;
  current_time : float
}.

Section Methods.

Variable urlparse : string -> result GamblingDetector.ParseResult.
Variable ml_predictor : option predictor.

(** [{urlparse(site['url']).netloc for site in blocked_sites}] *)
Fixpoint netlocs (sites : list (string * option string)) : result (list string) :=
  match sites with
  | [] => Ok []
  | site :: rest =>
      rbind (urlparse (fst site)) (fun p =>
      rbind (netlocs rest) (fun ds => Ok (GamblingDetector.netloc p :: ds)))
  end.

Definition load_blocked_sites : M unit :=
  let* blocked_sites := read_db DatabaseManager.get_blocked_sites in
  let* ds := lift (netlocs blocked_sites) in
  modify (fun w =>
    with_monitor w (with_blocked_domains (monitor w) (list_to_set ds))).

(** The prediction step of [_analyze_connection]: the defaults stay when
    there is no predictor or when it raises. *)
Definition predict_or_default (d : DatabaseManager.t) (url : string) : float * bool :=
  match ml_predictor with
  | Some f => match f d url None None with
              | Ok r => r
              | Raise _ => (0.5%float, false)
              end
  | None => (0.5%float, false)
  end.

Definition _analyze_connection (conn : Conn) (env : Probe) : M unit :=
  try_except
    (if is_local (raddr_ip conn)
     then ret tt
     else
       let hostname := resolve_hostname conn env in
       let url := "http://" ++ hostname in
       let cache_key := hostname ++ ":" ++ pretty (raddr_port conn) in
       let* w := get in
       if recently_checked (connections_cache (monitor w)) cache_key (now_check env)
       then ret tt
       else
         run modify (fun w =>
               with_monitor w
                 (with_connections_cache (monitor w)
                    (<[cache_key := now_store env]> (connections_cache (monitor w))))) then
         let* w := get in
         let r := predict_or_default (db w) url in
         let confidence := fst r in
         let is_gambling := snd r in
         let* detection_id :=
           on_db (DatabaseManager.log_detection url confidence is_gambling None None
                    (is_blocked hostname w) (Some "CONNECTION") None None) in
         let* w := get in
         if (is_gambling && gt confidence 0.7%float && negb (is_blocked hostname w))%bool
         then run block_domain hostname then
              print (MsgBlocked hostname confidence)
         else ret tt)
    (fun _ => ret tt).

(** The bandwidth computed inside [get_real_time_stats]: megabits per
    second over the interval since the previous call, 0 on the first call
    and when no time has passed. *)
Definition total_mbps_of (last : option NetCheck) (io : NetReading) (now : float) : float :=
  match last with
  | Some l =>
      let time_diff := PrimFloat.sub now (nc_time l) in
      let bytes_sent_diff := bytes_sent io - nc_bytes_sent l in
      let bytes_recv_diff := bytes_recv io - nc_bytes_recv l in
      if gt time_diff 0%float then
        let denom := PrimFloat.mul (PrimFloat.mul time_diff 1024%float) 1024%float in
        let send_mbps := PrimFloat.div (float_of_int (bytes_sent_diff * 8)) denom in
        let recv_mbps := PrimFloat.div (float_of_int (bytes_recv_diff * 8)) denom in
        PrimFloat.add send_mbps recv_mbps
      else 0%float
  | None => 0%float
  end.

(** [not hasattr(self, '_last_bandwidth_log') or
     (current_time - self._last_bandwidth_log) > 300] *)
Definition bandwidth_log_due (last : option float) (now : float) : bool :=
  match last with
  | None => true
  | Some l => gt (PrimFloat.sub now l) 300%float
  end.

(** [get_real_time_stats], for its effects on the monitor and the
    database: the dictionary it returns, and the counting of recent
    connections that only feeds that dictionary, are left out. *)
Definition get_real_time_stats (env : StatsProbe) : M unit :=
  run read_db DatabaseManager.get_statistics then
  try_except
    (let* net_io := lift (psutil_net env) in
     let* w := get in
     let total_mbps := total_mbps_of (_last_net_check (monitor w)) net_io (current_time env) in
     run modify (fun w =>
           with_monitor w
             (with_last_net_check (monitor w)
                (Some {| nc_time := current_time env;
                         nc_bytes_sent := bytes_sent net_io;
                         nc_bytes_recv := bytes_recv net_io |}))) then
     let* w := get in
     run (if bandwidth_log_due (_last_bandwidth_log (monitor w)) (current_time env)
          then
            run on_db (DatabaseManager.log_bandwidth
                         {| DatabaseManager.bw_bytes_sent := bytes_sent net_io;
                            DatabaseManager.bw_bytes_recv := bytes_recv net_io;
                            DatabaseManager.bw_bandwidth_mbps := total_mbps;
                            DatabaseManager.bw_active_connections :=
                              active_connections net_io |}) then
            modify (fun w =>
              with_monitor w
                (with_last_bandwidth_log (monitor w) (Some (current_time env))))
          else ret tt) then
     run read_db DatabaseManager.get_connections then
     ret tt)
    (fun e => print (MsgErrorStats e)).

(** Calling [get_real_time_stats] once per probe, in order; an exception
    that escapes a call ends that call only. *)
Fixpoint poll_stats (envs : list StatsProbe) (w : World) : World :=
  match envs with
  | [] => w
  | env :: rest => poll_stats rest (exec (get_real_time_stats env) w)
  end.

End Methods.

End NetworkTrafficMonitor.

(* ===================================================================== *)
(** ** ProxyAddon *)
(* ===================================================================== *)

Module ProxyAddon.

(** A request as the hooks read it.  [req_content] is what the attribute
    [content] gives (the body as bytes, or [None]) and [req_text] what
    [get_text()] gives; both decode strictly in mitmproxy, so each is the
    value or the [ValueError] of a body that does not decode. *)
Record Request : Type := {
  pretty_url : string;
  req_method : string;
  req_headers : headers;
  req_content : result (option string);
  req_text : result string;
  req_port : Z
}.

Record Response : Type := {
  status_code : Z;
  resp_content : result (option string);
  resp_text : result string;
  resp_headers : headers
}.

(** [flow.request_info] *)
Record RequestInfo : Type := {
  ri_url : string;
  ri_method : string;
  ri_headers : headers;
  ri_body : option string
}.

(** A mitmproxy flow with the two attributes the addon hangs on it;
    an attribute never assigned is [None]. *)
Record HTTPFlow : Type := {
  flow_request : Request;
  flow_response : option Response;
  request_start_time : option float;
  request_info : option RequestInfo
}.

Definition blocked_html : string :=
  "<html><body><h1>Site Blocked</h1><p>This site has been blocked by NetGuard.</p></body></html>".

(** [http.Response.make(200, b"<html>...", {"Content-Type": "text/html"})] *)
Definition blocked_page : Response :=
  {| status_code := 200;
     resp_content := Ok (Some blocked_html);
     resp_text := Ok blocked_html;
     resp_headers := [("Content-Type", "text/html")] |}.

(** [x.get_text() if x.content else None] *)
Definition text_if_content (content : result (option string)) (get_text : result string)
  : result (option string) :=
  rbind content (fun c =>
  match c with
  | Some s => if truthy_str s then rbind get_text (fun t => Ok (Some t)) else Ok None
  | None => Ok None
  end).

(** [len(x.content) if x.content else 0] *)
Definition size_if_content (content : result (option string)) : result Z :=
  rbind content (fun c =>
  match c with
  | Some s => if truthy_str s then Ok (Z.of_nat (String.length s)) else Ok 0
  | None => Ok 0
  end).

(** Reading an attribute that may not have been assigned. *)
Definition attr {A} (o : option A) : M A :=
  match o with
  | Some a => ret a
  | None => raise AttributeError
  end.

(** [ProxyAddon(self.db_manager, self.ml_predictor, self.blocked_domains)]
    as [_start_proxy] calls it: [blocked_domains or set()] keeps the
    monitor's set object when it is not empty, and otherwise the addon
    starts on a new empty set of its own. *)
Definition init : M unit :=
  modify (fun w =>
    with_addon w
      {| shares_monitor_set := negb (bool_decide (blocked_domains (monitor w) = ∅));
         own_blocked_domains := ∅ |}).

(** [self.blocked_domains.add(domain)] on the addon: the set object it
    refers to is extended, the monitor's own when the two share it. *)
Definition add_blocked_domain (domain : string) : M unit :=
  modify (fun w =>
    if shares_monitor_set (addon w)
    then with_monitor w
           (NetworkTrafficMonitor.with_blocked_domains (monitor w)
              ({[domain]} ∪ blocked_domains (monitor w)))
    else with_addon w
           {| shares_monitor_set := false;
              own_blocked_domains := {[domain]} ∪ own_blocked_domains (addon w) |}).

Section Hooks.

Variable urlparse : string -> result GamblingDetector.ParseResult.
Variable ml_predictor : option predictor.

(** The [request] hook; it returns the flow as it leaves it. *)
Definition request (flow : HTTPFlow) (now : float) : M HTTPFlow :=
  try_except
    (let url := pretty_url (flow_request flow) in
     let* parsed := lift (urlparse url) in
     let domain := GamblingDetector.netloc parsed in
     let* w := get in
     if bool_decide (domain ∈ addon_blocked_domains w)
     then ret {| flow_request := flow_request flow;
                 flow_response := Some blocked_page;
                 request_start_time := request_start_time flow;
                 request_info := request_info flow |}
     else
       let request_headers := req_headers (flow_request flow) in
       let* request_body :=
         lift (text_if_content (req_content (flow_request flow))
                 (req_text (flow_request flow))) in
       ret {| flow_request := flow_request flow;
              flow_response := flow_response flow;
              request_start_time := Some now;
              request_info :=
                Some {| ri_url := url;
                        ri_method := req_method (flow_request flow);
                        ri_headers := request_headers;
                        ri_body := request_body |} |})
    (fun e => run print (MsgErrorRequest e) then ret flow).

(** The classification part of the [response] hook, inside its own
    [try]. *)
Definition analyze_response (f : predictor) (url : string) (info : RequestInfo)
    (resp : Response) (response_body : option string) (response_size : Z) : M unit :=
  try_except
    (let* w := get in
     let* r := lift (f (db w) url (Some (resp_headers resp)) response_body) in
     let confidence := fst r in
     let is_gambling := snd r in
     run on_db (DatabaseManager.log_detection url confidence is_gambling
                  (Some (resp_headers resp)) response_body false
                  (Some (ri_method info)) (Some (status_code resp))
                  (Some response_size)) then
     if (is_gambling && gt confidence 0.8%float)%bool
     then
       let* parsed := lift (urlparse url) in
       let domain := GamblingDetector.netloc parsed in
       run add_blocked_domain domain then
       print (MsgAutoBlocked domain confidence)
     else ret tt)
    (fun e => print (MsgErrorMLAnalysis e)).

(** The [response] hook. *)
Definition response (flow : HTTPFlow) (now : float) : M unit :=
  try_except
    (match request_info flow with
     | None => ret tt
     | Some info =>
         let* start := attr (request_start_time flow) in
         let duration_ms := PrimFloat.mul (PrimFloat.sub now start) 1000%float in
         let* resp := attr (flow_response flow) in
         let response_headers := resp_headers resp in
         let* response_body := lift (text_if_content (resp_content resp) (resp_text resp)) in
         let* response_size := lift (size_if_content (resp_content resp)) in
         let url := ri_url info in
         let* parsed := lift (urlparse url) in
         run on_db (DatabaseManager.log_traffic
                      "127.0.0.1" (GamblingDetector.netloc parsed)
                      0 (req_port (flow_request flow))
                      "HTTP" url (ri_method info) (ri_headers info) (ri_body info)
                      response_headers response_body
                      (status_code resp) response_size duration_ms) then
         match ml_predictor with
         | Some f => analyze_response f url info resp response_body response_size
         | None => ret tt
         end
     end)
    (fun e => print (MsgErrorResponse e)).

End Hooks.

End ProxyAddon.

(* ===================================================================== *)
(** ** The vocabulary of the specification *)
(* ===================================================================== *)

Module SpecWords.

(** The sensitivity setting that [predict_gambling] can see: the stored
    [sensitivity] string when a database manager is attached. *)
Definition sensitivity_setting (self : GamblingDetector.t) (d : DatabaseManager.t)
  : option string :=
  if GamblingDetector.db_manager self
  then DatabaseManager.settings d !! "sensitivity"
  else None.

(** The threshold as the specification words it: the stored sensitivity
    divided by 100, and 0.5 when the setting is absent; an empty string
    counts as absent. *)
Inductive spec_threshold (float_of_str : string -> result float)
  : option string -> float -> Prop :=
| threshold_absent : spec_threshold float_of_str None 0.5%float
| threshold_empty : spec_threshold float_of_str (Some "") 0.5%float
| threshold_stored (s : string) (v : float) :
    s <> "" -> float_of_str s = Ok v ->
    spec_threshold float_of_str (Some s) (PrimFloat.div v 100%float).

(** How many of a run of [get_real_time_stats] calls, made at the given
    clock readings, meet the logging condition, each logged call
    becoming the reference for the next ones. *)
Fixpoint samples_due (last : option float) (times : list float) : nat :=
  match times with
  | [] => 0%nat
  | t :: ts =>
      if NetworkTrafficMonitor.bandwidth_log_due last t
      then S (samples_due (Some t) ts)
      else samples_due last ts
  end.

(** The clock reading [i] seconds after [t0]. *)
Definition seconds_after (t0 : float) (i : nat) : float :=
  PrimFloat.add t0 (float_of_int (Z.of_nat i)).

(** One call per second: the clock readings [t0], [t0 + 1], ...,
    [t0 + (n - 1)]. *)
Definition every_second (t0 : float) (n : nat) : list float :=
  map (seconds_after t0) (seq 0 n).

(** A clock ticks in seconds over its first [n] readings when the
    subtraction of two readings tells, as the logging condition needs it,
    whether more than 300 seconds lie between them. *)
Definition ticks_in_seconds (clock : nat -> float) (n : nat) : Prop :=
  forall i j : nat, (j <= i < n)%nat ->
    gt (PrimFloat.sub (clock i) (clock j)) 300%float = (300 <? i - j)%nat.

(** The same, as a check that can be run. *)
Definition ticks_in_secondsb (clock : nat -> float) (n : nat) : bool :=
  forallb (fun i =>
     forallb (fun j =>
        Bool.eqb (gt (PrimFloat.sub (clock i) (clock j)) 300%float) (300 <? i - j)%nat)
       (seq 0 (S i)))
    (seq 0 n).

(** [samples_due] on the index of each call in place of its clock
    reading. *)
Fixpoint samples_due_at (last : option nat) (calls : list nat) : nat :=
  match calls with
  | [] => 0%nat
  | i :: rest =>
      if match last with
         | None => true
         | Some j => (300 <? i - j)%nat
         end
      then S (samples_due_at (Some i) rest)
      else samples_due_at last rest
  end.

End SpecWords.
(* ===================================================================== *)
(** ** The records and states the methods produce *)
(* ===================================================================== *)

Module Rows.

(** The record that [_analyze_connection] logs for a host. *)
Definition connection_detection (hostname : string) (r : float * bool) (blocked : bool)
  : DatabaseManager.DetectionLog :=
  {| DatabaseManager.det_url := "http://" ++ hostname;
     DatabaseManager.det_confidence := fst r;
     DatabaseManager.det_is_gambling := snd r;
     DatabaseManager.det_headers := None;
     DatabaseManager.det_content_snippet := None;
     DatabaseManager.det_blocked := blocked;
     DatabaseManager.det_method := Some "CONNECTION";
     DatabaseManager.det_status_code := None;
     DatabaseManager.det_response_size := None |}.

(** The two records that [ProxyAddon.response] logs for a flow whose
    response body and size were read as [body] and [size]. *)
Definition proxy_traffic_row (flow : ProxyAddon.HTTPFlow) (info : ProxyAddon.RequestInfo)
    (resp : ProxyAddon.Response) (body : option string) (size : Z)
    (dest : string) (start now : float)
  : DatabaseManager.TrafficLog :=
  {| DatabaseManager.tr_source_ip := "127.0.0.1";
     DatabaseManager.tr_dest_ip := dest;
     DatabaseManager.tr_source_port := 0;
     DatabaseManager.tr_dest_port := ProxyAddon.req_port (ProxyAddon.flow_request flow);
     DatabaseManager.tr_protocol := "HTTP";
     DatabaseManager.tr_url := ProxyAddon.ri_url info;
     DatabaseManager.tr_method := ProxyAddon.ri_method info;
     DatabaseManager.tr_headers := DatabaseManager.json_if_any (ProxyAddon.ri_headers info);
     DatabaseManager.tr_request_body := DatabaseManager.cut_body (ProxyAddon.ri_body info);
     DatabaseManager.tr_response_headers :=
       DatabaseManager.json_if_any (ProxyAddon.resp_headers resp);
     DatabaseManager.tr_response_body := DatabaseManager.cut_body body;
     DatabaseManager.tr_status_code := ProxyAddon.status_code resp;
     DatabaseManager.tr_response_size := size;
     DatabaseManager.tr_duration_ms := PrimFloat.mul (PrimFloat.sub now start) 1000%float |}.

Definition proxy_detection (info : ProxyAddon.RequestInfo) (resp : ProxyAddon.Response)
    (body : option string) (size : Z) (r : float * bool) : DatabaseManager.DetectionLog :=
  {| DatabaseManager.det_url := ProxyAddon.ri_url info;
     DatabaseManager.det_confidence := fst r;
     DatabaseManager.det_is_gambling := snd r;
     DatabaseManager.det_headers :=
       if truthy_headers (Some (ProxyAddon.resp_headers resp))
       then Some (ProxyAddon.resp_headers resp) else None;
     DatabaseManager.det_content_snippet :=
       match body with
       | Some c => if truthy_str c then Some (take_str 1000 c) else None
       | None => None
       end;
     DatabaseManager.det_blocked := false;
     DatabaseManager.det_method := Some (ProxyAddon.ri_method info);
     DatabaseManager.det_status_code := Some (ProxyAddon.status_code resp);
     DatabaseManager.det_response_size := Some size |}.

(** The database as [response] leaves it after its traffic record. *)
Definition with_traffic_row (d : DatabaseManager.t) (row : DatabaseManager.TrafficLog)
  : DatabaseManager.t :=
  DatabaseManager.with_traffic_logs d (DatabaseManager.traffic_logs d ++ [row]).

(** The world after one more printed line. *)
Definition say (w : World) (m : message) : World := with_stdout w (stdout w ++ [m]).

(** The sample that a call of [get_real_time_stats] persists. *)
Definition bandwidth_row_of (w : World) (io : NetworkTrafficMonitor.NetReading)
    (now : float) : DatabaseManager.BandwidthRow :=
  {| DatabaseManager.bw_bytes_sent := NetworkTrafficMonitor.bytes_sent io;
     DatabaseManager.bw_bytes_recv := NetworkTrafficMonitor.bytes_recv io;
     DatabaseManager.bw_bandwidth_mbps :=
       NetworkTrafficMonitor.total_mbps_of (_last_net_check (monitor w)) io now;
     DatabaseManager.bw_active_connections :=
       NetworkTrafficMonitor.active_connections io |}.

End Rows.

(* ===================================================================== *)
(** ** Concrete inputs used by the examples *)
(* ===================================================================== *)

Module Examples.

Import GamblingDetector.

(** A reading of [urlparse] that is right on URLs of the shape
    [scheme://host/path?query] (no fragment): enough for the examples. *)
Fixpoint upto (stop : Ascii.ascii -> bool) (s : string) : string * string :=
  match s with
  | EmptyString => ("", "")
  | String c s' =>
      if stop c then ("", s)
      else let '(a, b) := upto stop s' in (String c a, b)
  end.

Fixpoint after_scheme (s : string) : string :=
  match s with
  | EmptyString => ""
  | String c s' => if String.prefix "://" s then String.substring 3 (String.length s) s
                   else after_scheme s'
  end.

Definition simple_urlparse (url : string) : result ParseResult :=
  let rest := after_scheme url in
  let '(host, tail) := upto (fun c => Ascii.eqb c "/" || Ascii.eqb c "?")%bool rest in
  let '(p, q) := upto (fun c => Ascii.eqb c "?") tail in
  Ok {| netloc := host; path := p;
        query := String.substring 1 (String.length q) q |}.

(** [float] on a string of decimal digits; anything else is a
    [ValueError] here. *)
Fixpoint digits_value (acc : Z) (s : string) : option Z :=
  match s with
  | EmptyString => Some acc
  | String c s' =>
      let n := Z.of_nat (Ascii.nat_of_ascii c) in
      if (48 <=? n) && (n <=? 57) then digits_value (10 * acc + (n - 48)) s'
      else None
  end.

Definition decimal_float (s : string) : result float :=
  match s with
  | EmptyString => Raise ValueError
  | _ => match digits_value 0 s with
         | Some n => Ok (float_of_int n)
         | None => Raise ValueError
         end
  end.

Definition empty_db : DatabaseManager.t :=
  {| DatabaseManager.db_up := true;
     DatabaseManager.settings := ∅;
     DatabaseManager.blocked_sites := [];
     DatabaseManager.detection_logs := [];
     DatabaseManager.traffic_logs := [];
     DatabaseManager.bandwidth_history := [] |}.

Definition db_with_sensitivity (s : string) : DatabaseManager.t :=
  {| DatabaseManager.db_up := true;
     DatabaseManager.settings := {[ "sensitivity" := s ]};
     DatabaseManager.blocked_sites := [];
     DatabaseManager.detection_logs := [];
     DatabaseManager.traffic_logs := [];
     DatabaseManager.bandwidth_history := [] |}.

Definition fresh_monitor : Monitor :=
  {| blocked_domains := ∅; connections_cache := ∅;
     _last_net_check := None; _last_bandwidth_log := None |}.

(** A freshly started process on a machine where the hosts file is in
    the given state. *)
Definition fresh_world (mode : hosts_access) : World :=
  {| db := empty_db; monitor := fresh_monitor;
     addon := {| shares_monitor_set := false; own_blocked_domains := ∅ |};
     hosts_text := ""; hosts_mode := mode; stdout := [] |}.

(** A pipeline that answers the same two class probabilities for every
    text, and the predictor built on it as [app.py] does. *)
Definition constant_pipeline (p : float) : Pipeline :=
  fun _ => Ok [[PrimFloat.sub 1%float p; p]].

Definition failing_pipeline : Pipeline := fun _ => Raise OtherException.

Definition detector_of (m : option Pipeline) : GamblingDetector.t :=
  {| model := m; db_manager := true |}.

Definition app_predictor (m : option Pipeline) : predictor :=
  fun d url hdrs content =>
    predict_gambling simple_urlparse decimal_float (detector_of m) d url hdrs content.

(** A clock reading, in seconds and in microseconds. *)
Definition epoch : float := 1762214400%float.
Definition epoch_us : datetime := 1762214400000000.

(** A remote endpoint that resolves to [casino.example], observed at the
    given time. *)
Definition casino_conn : NetworkTrafficMonitor.Conn :=
  {| NetworkTrafficMonitor.raddr_ip := "203.0.113.7";
     NetworkTrafficMonitor.raddr_port := 443 |}.

Definition probe_at (t : datetime) : NetworkTrafficMonitor.Probe :=
  {| NetworkTrafficMonitor.gethostbyaddr := Ok "casino.example";
     NetworkTrafficMonitor.now_check := t;
     NetworkTrafficMonitor.now_store := t |}.

(** The world in which that endpoint was last checked at [t]. *)
Definition world_checked_at (t : datetime) : World :=
  {| db := empty_db;
     monitor := {| blocked_domains := ∅;
                   connections_cache := {[ "casino.example:443" := t ]};
                   _last_net_check := None; _last_bandwidth_log := None |};
     addon := {| shares_monitor_set := false; own_blocked_domains := ∅ |};
     hosts_text := ""; hosts_mode := HostsWritable; stdout := [] |}.

(** A proxied request for a page of [casino.example], before the hooks
    ran and after the request hook ran and the server answered. *)
Definition casino_request : ProxyAddon.Request :=
  {| ProxyAddon.pretty_url := "http://casino.example/slots";
     ProxyAddon.req_method := "GET";
     ProxyAddon.req_headers := [("Host", "casino.example")];
     ProxyAddon.req_content := Ok None;
     ProxyAddon.req_text := Ok "";
     ProxyAddon.req_port := 80 |}.

Definition fresh_flow : ProxyAddon.HTTPFlow :=
  {| ProxyAddon.flow_request := casino_request;
     ProxyAddon.flow_response := None;
     ProxyAddon.request_start_time := None;
     ProxyAddon.request_info := None |}.

Definition casino_info : ProxyAddon.RequestInfo :=
  {| ProxyAddon.ri_url := "http://casino.example/slots";
     ProxyAddon.ri_method := "GET";
     ProxyAddon.ri_headers := [("Host", "casino.example")];
     ProxyAddon.ri_body := None |}.

Definition casino_response : ProxyAddon.Response :=
  {| ProxyAddon.status_code := 200;
     ProxyAddon.resp_content := Ok (Some "<html>slots and jackpots</html>");
     ProxyAddon.resp_text := Ok "<html>slots and jackpots</html>";
     ProxyAddon.resp_headers := [("Content-Type", "text/html")] |}.

Definition answered_flow : ProxyAddon.HTTPFlow :=
  {| ProxyAddon.flow_request := casino_request;
     ProxyAddon.flow_response := Some casino_response;
     ProxyAddon.request_start_time := Some epoch;
     ProxyAddon.request_info := Some casino_info |}.

(** A process that found the given domain in its table of blocked sites
    when it started, before the proxy is started. *)
Definition world_blocking (domain : string) : World :=
  {| db := {| DatabaseManager.db_up := true;
              DatabaseManager.settings := ∅;
              DatabaseManager.blocked_sites :=
                [("http://" ++ domain, Some "Gambling detected")];
              DatabaseManager.detection_logs := [];
              DatabaseManager.traffic_logs := [];
              DatabaseManager.bandwidth_history := [] |};
     monitor := {| blocked_domains := {[ domain ]}; connections_cache := ∅;
                   _last_net_check := None; _last_bandwidth_log := None |};
     addon := {| shares_monitor_set := false; own_blocked_domains := ∅ |};
     hosts_text := ""; hosts_mode := HostsWritable; stdout := [] |}.

(** A process started on a fresh database, whose proxy was started
    before [casino.example] was blocked. *)
Definition blocked_after_proxy_start : World :=
  exec (NetworkTrafficMonitor.block_domain "casino.example")
    (exec ProxyAddon.init (fresh_world HostsWritable)).

(** [n] successful readings of [psutil], one per second from [t0]. *)
Definition stats_probes (t0 : float) (n : nat) : list NetworkTrafficMonitor.StatsProbe :=
  map (fun t =>
         {| NetworkTrafficMonitor.psutil_net :=
              Ok {| NetworkTrafficMonitor.active_connections := 3;
                    NetworkTrafficMonitor.bytes_sent := 1048576;
                    NetworkTrafficMonitor.bytes_recv := 0 |};
            NetworkTrafficMonitor.current_time := t |})
      (SpecWords.every_second t0 n).

End Examples.

(* ===================================================================== *)
(** ** Settings: [DatabaseManager.set_setting] and the settings of [app.py] *)
(* ===================================================================== *)

Module Settings.

Definition with_settings (d : DatabaseManager.t) (s : gmap string string)
  : DatabaseManager.t :=
  {| DatabaseManager.db_up := DatabaseManager.db_up d;
     DatabaseManager.settings := s;
     DatabaseManager.blocked_sites := DatabaseManager.blocked_sites d;
     DatabaseManager.detection_logs := DatabaseManager.detection_logs d;
     DatabaseManager.traffic_logs := DatabaseManager.traffic_logs d;
     DatabaseManager.bandwidth_history := DatabaseManager.bandwidth_history d |}.

(** [INSERT OR REPLACE INTO settings (key, value)]; no [try] in the
    source, so a failing database raises. *)
Definition set_setting (key value : string) (d : DatabaseManager.t)
  : result unit * DatabaseManager.t :=
  if DatabaseManager.db_up d
  then (Ok tt, with_settings d (<[key := value]> (DatabaseManager.settings d)))
  else (Raise OperationalError, d).

(** [for x in xs: body(x)] *)
Fixpoint for_each {A : Type} (xs : list A) (body : A -> M unit) : M unit :=
  match xs with
  | [] => ret tt
  | x :: rest => run body x then for_each rest body
  end.

(** The [defaults] dictionary of [init_default_settings], in its order. *)
Definition defaults : list (string * string) :=
  [("sensitivity", "50"); ("language", "English"); ("theme", "Dark");
   ("monitoring_enabled", "true"); ("dev_mode", "false")].

(** [not db_manager.get_setting(key)] *)
Definition unset (o : option string) : bool :=
  match o with
  | Some s => negb (truthy_str s)
  | None => true
  end.

Definition init_default_settings : M unit :=
  for_each defaults (fun kv =>
    let* current := read_db (DatabaseManager.get_setting (fst kv)) in
    if unset current then on_db (set_setting (fst kv) (snd kv)) else ret tt).

(** The [POST] branch of the [settings] route, for its effect on the
    database; [form] is [request.form], read with [.get]. *)
Definition settings_post (form : gmap string string) : M unit :=
  run for_each ["sensitivity"; "language"; "theme"; "dev_mode"] (fun key =>
        match form !! key with
        | Some value => on_db (set_setting key value)
        | None => ret tt
        end) then
  let dev_mode := bool_decide (form !! "dev_mode" = Some "on") in
  on_db (set_setting "dev_mode" (if dev_mode then "true" else "false")).

End Settings.

(* ===================================================================== *)
(** ** The block and unblock routes of [app.py] *)
(* ===================================================================== *)

Module Routes.

(** What a route answers: [jsonify(...)] with its status code. *)
Inductive error_text : Type :=
| ErrText (s : string)
| ErrExn (e : exn).        (* [str(e)] *)

Inductive reply : Type :=
| ReplySuccess (message : string)
| ReplyError (status : Z) (error : error_text).

Section Routes.

Variable urlparse : string -> result GamblingDetector.ParseResult.

(** Whether the global [traffic_monitor] has been created. *)
Variable traffic_monitor : bool.


(** [unblock_site] *)
Definition unblock_site (url : option string) : M reply :=
  match url with
  | Some u =>
      if truthy_str u then
        try_except
          (let* parsed := lift (urlparse u) in
           let domain := GamblingDetector.netloc parsed in
           let* success :=
             if traffic_monitor
             then NetworkTrafficMonitor.unblock_domain domain
             else on_db_total (DatabaseManager.remove_blocked_site u) in
           if success
           then ret (ReplySuccess ("Unblocked " ++ u))
           else ret (ReplyError 500 (ErrText "Failed to unblock website")))
          (fun e => ret (ReplyError 500 (ErrExn e)))
      else ret (ReplyError 400 (ErrText "URL required"))
  | None => ret (ReplyError 400 (ErrText "URL required"))
  end.

End Routes.

End Routes.

(* ===================================================================== *)
(** ** Starting and stopping the monitor *)
(* ===================================================================== *)

Module Lifecycle.

(** The two kinds of thread [start_monitoring] creates. *)
Inductive worker : Type :=
| Poller       (* target [_monitor_connections] *)
| Proxy.       (* target [_start_proxy] *)

(** The attributes of [NetworkTrafficMonitor] that [start_monitoring] and
    [stop_monitoring] touch.  A thread object is the position of its
    creation in [started], the record of every [Thread(...).start()]. *)
Record t : Type := {
  monitoring_active : bool;
  dev_mode : bool;
  monitor_thread : option nat;
  proxy_thread : option nat;
  started : list worker
}.

(** The state [__init__] leaves. *)
Definition initial : t :=
  {| monitoring_active := false; dev_mode := false;
     monitor_thread := None; proxy_thread := None; started := [] |}.

Definition start_monitoring (dev : bool) (s : t) : bool * t :=
  if monitoring_active s then (false, s)
  else
    let s1 := {| monitoring_active := true; dev_mode := dev;
                 monitor_thread := Some (length (started s));
                 proxy_thread := proxy_thread s;
                 started := started s ++ [Poller] |} in
    if dev
    then (true,
          {| monitoring_active := true; dev_mode := dev;
             monitor_thread := monitor_thread s1;
             proxy_thread := Some (length (started s1));
             started := started s1 ++ [Proxy] |})
    else (true, s1).

(** [stop_monitoring]: the flag is cleared; the two [join(timeout=5)]
    wait and change nothing. *)
Definition stop_monitoring (s : t) : t :=
  {| monitoring_active := false; dev_mode := dev_mode s;
     monitor_thread := monitor_thread s; proxy_thread := proxy_thread s;
     started := started s |}.

(** The monitor object and the rest of the process, for
    [toggle_monitoring]. *)
Record App : Type := {
  world : World;
  life : t
}.

(** What [toggle_monitoring] answers: [{'success': True,
    'monitoring_active': ..}], with [dev_mode] when it started the monitor,
    or [{'success': False, 'error': 'Traffic monitor not available'}]. *)
Inductive toggled : Type :=
| Toggled (monitoring_active : bool) (dev_mode : option bool)
| NotAvailable.

(** [toggle_monitoring]; [enable] and [dev_mode_arg] are
    [data.get('enable', False)] and [data.get('dev_mode', False)], and
    [traffic_monitor] tells whether the global monitor exists. *)
Definition toggle_monitoring (traffic_monitor enable dev_mode_arg : bool) (a : App)
  : result toggled * App :=
  let d := db (world a) in
  match (if dev_mode_arg then Ok true
         else rbind (DatabaseManager.get_setting "dev_mode" d)
                (fun v => Ok (bool_decide (v = Some "true")))) with
  | Raise e => (Raise e, a)
  | Ok dev =>
      if (enable && traffic_monitor)%bool then
        let '(success, l) := start_monitoring dev (life a) in
        if success then
          let '(r, d') := Settings.set_setting "monitoring_enabled" "true" d in
          let a' := {| world := with_db (world a) d'; life := l |} in
          match r with
          | Ok _ => (Ok (Toggled true (Some dev)), a')
          | Raise e => (Raise e, a')
          end
        else (Ok NotAvailable, {| world := world a; life := l |})
      else if (negb enable && traffic_monitor)%bool then
        let l := stop_monitoring (life a) in
        let '(r, d') := Settings.set_setting "monitoring_enabled" "false" d in
        let a' := {| world := with_db (world a) d'; life := l |} in
        match r with
        | Ok _ => (Ok (Toggled false None), a')
        | Raise e => (Raise e, a')
        end
      else (Ok NotAvailable, a)
  end.

End Lifecycle.

(* ===================================================================== *)
(** ** The model file of [GamblingDetector] *)
(* ===================================================================== *)

Module ModelFiles.

(** What is at [model_path]: nothing, a pickled pipeline, or bytes that
    [joblib.load] rejects. *)
Inductive model_file : Type :=
| NoFile
| PickledModel (m : GamblingDetector.Pipeline)
| CorruptFile.

(** The disk: the file, and whether [joblib.dump] can open it for
    writing (when it cannot it raises before writing anything). *)
Record Disk : Type := {
  file : model_file;
  writable : bool
}.

(** What [model.fit(texts, labels)] does to the pipeline object: refit
    it, or raise and leave it in some state. *)
Inductive fit_outcome : Type :=
| Fitted (m : GamblingDetector.Pipeline)
| FitRaised (e : exn) (left_as : GamblingDetector.Pipeline).

Definition with_model (self : GamblingDetector.t) (m : option GamblingDetector.Pipeline)
  : GamblingDetector.t :=
  {| GamblingDetector.model := m;
     GamblingDetector.db_manager := GamblingDetector.db_manager self |}.

Section Sklearn.

Variable urlparse : string -> result GamblingDetector.ParseResult.

(** [create_basic_model()]: the pipeline fitted on the built-in keyword
    lists, or the exception sklearn raises. *)
Variable create_basic_model : result GamblingDetector.Pipeline.

(** [Pipeline.fit] *)
Variable fit : GamblingDetector.Pipeline -> list string -> list Z -> fit_outcome.

Definition save_model (self : GamblingDetector.t) (disk : Disk) : bool * Disk :=
  match GamblingDetector.model self with
  | Some m =>
      if writable disk
      then (true, {| file := PickledModel m; writable := writable disk |})
      else (false, disk)
  | None => (false, disk)
  end.

Definition load_or_create_model (self : GamblingDetector.t) (disk : Disk)
  : bool * GamblingDetector.t * Disk :=
  match file disk with
  | PickledModel m => (true, with_model self (Some m), disk)
  | CorruptFile => (false, self, disk)
  | NoFile =>
      match create_basic_model with
      | Ok m =>
          let self' := with_model self (Some m) in
          (true, self', snd (save_model self' disk))
      | Raise _ => (false, self, disk)
      end
  end.

Definition retrain_model (self : GamblingDetector.t)
    (training_data : list (string * bool)) (disk : Disk)
  : bool * GamblingDetector.t * Disk :=
  match training_data with
  | [] => (false, self, disk)
  | _ =>
      let texts :=
        map (fun d : string * bool =>
               GamblingDetector.extract_features_from_url urlparse (fst d) None None)
            training_data in
      let labels := map (fun d : string * bool => if snd d then 1 else 0) training_data in
      match GamblingDetector.model self with
      | None => (false, self, disk)          (* [AttributeError], caught *)
      | Some m =>
          match fit m texts labels with
          | Fitted m' =>
              let self' := with_model self (Some m') in
              let '(ok, disk') := save_model self' disk in
              (ok, self', disk')
          | FitRaised _ m' => (false, with_model self (Some m'), disk)
          end
      end
  end.

End Sklearn.

End ModelFiles.

(* ===================================================================== *)
(** ** Notions used to state what the code keeps *)
(* ===================================================================== *)

Module Notions.

(** A text without a line feed. *)
Fixpoint no_newline (s : string) : bool :=
  match s with
  | EmptyString => true
  | String c s' => (negb (Ascii.eqb c "010"%char) && no_newline s')%bool
  end.

(** What [readlines] returns: lines that end with their line feed, but
    for a last one that may lack it (and is then not empty). *)
Inductive well_split : list string -> Prop :=
| split_nil : well_split []
| split_last (l : string) :
    no_newline l = true -> l <> "" -> well_split [l]
| split_cons (b : string) (ls : list string) :
    no_newline b = true -> well_split ls ->
    well_split ((b ++ NetworkTrafficMonitor.nl) :: ls).

(** The persisted blocked sites and the in-memory set agree: the stored
    URLs are exactly ["http://" ++ d] for the domains [d] of the set. *)
Definition in_sync (w : World) : Prop :=
  forall u : string,
    In u (map fst (DatabaseManager.blocked_sites (db w)))
    <-> exists d : string, d ∈ blocked_domains (monitor w) /\ u = "http://" ++ d.

(** Opening the hosts file fails with an error other than a permission
    error. *)
Definition hosts_missing (w : World) : bool :=
  match hosts_mode w with
  | HostsMissing => true
  | _ => false
  end.

(** Header names and values in lower case. *)
Definition lower_headers (h : headers) : headers :=
  map (fun kv => (lower (fst kv), lower (snd kv))) h.

(** A text of ASCII characters only, and headers of such texts: on them
    [str.lower] is the ASCII case mapping and keeps the length. *)
Fixpoint ascii_only (s : string) : bool :=
  match s with
  | EmptyString => true
  | String c s' => (Nat.ltb (Ascii.nat_of_ascii c) 128 && ascii_only s')%bool
  end.

Definition ascii_headers (h : headers) : bool :=
  forallb (fun kv => (ascii_only (fst kv) && ascii_only (snd kv))%bool) h.

(** What the settings form holds for a key, or else what was stored. *)
Definition posted (form : gmap string string) (key : string)
    (stored : gmap string string) : gmap string string :=
  match form !! key with
  | Some value => <[key := value]> stored
  | None => stored
  end.

(** One step of [init_default_settings] on the settings table. *)
Definition defaulted (stored : gmap string string) (kv : string * string)
  : gmap string string :=
  if Settings.unset (stored !! fst kv) then <[fst kv := snd kv]> stored else stored.

(** [d.get(key)] on a list of pairs with distinct keys. *)
Fixpoint assoc (key : string) (kvs : list (string * string)) : option string :=
  match kvs with
  | [] => None
  | kv :: rest => if String.eqb (fst kv) key then Some (snd kv) else assoc key rest
  end.

(** A run of calls to [start_monitoring] and [stop_monitoring], with
    what each [start_monitoring] returned. *)
Inductive call : Type :=
| Start (dev : bool)
| Stop.

Fixpoint run_calls (cs : list call) (s : Lifecycle.t) : list bool * Lifecycle.t :=
  match cs with
  | [] => ([], s)
  | Start dev :: rest =>
      let '(ok, s1) := Lifecycle.start_monitoring dev s in
      let '(oks, s2) := run_calls rest s1 in
      (ok :: oks, s2)
  | Stop :: rest => run_calls rest (Lifecycle.stop_monitoring s)
  end.

Definition successes (oks : list bool) : nat := length (List.filter (fun ok => ok) oks).

Definition stops (cs : list call) : nat :=
  length (List.filter (fun c => match c with Stop => true | Start _ => false end) cs).

Definition pollers (s : Lifecycle.t) : nat :=
  length (List.filter (fun k => match k with Lifecycle.Poller => true | _ => false end)
            (Lifecycle.started s)).

Definition proxies (s : Lifecycle.t) : nat :=
  length (List.filter (fun k => match k with Lifecycle.Proxy => true | _ => false end)
            (Lifecycle.started s)).

(** The flow once the server has answered. *)
Definition answered (flow : ProxyAddon.HTTPFlow) (resp : ProxyAddon.Response)
  : ProxyAddon.HTTPFlow :=
  {| ProxyAddon.flow_request := ProxyAddon.flow_request flow;
     ProxyAddon.flow_response := Some resp;
     ProxyAddon.request_start_time := ProxyAddon.request_start_time flow;
     ProxyAddon.request_info := ProxyAddon.request_info flow |}.

End Notions.

(* ===================================================================== *)
(** ** More concrete inputs *)
(* ===================================================================== *)

Module MoreExamples.

(** A hosts file with three entries, on a machine where it is writable. *)
Definition sample_hosts_world : World :=
  with_hosts_text (Examples.fresh_world HostsWritable)
    ("127.0.0.1 sportsbet.com" ++ NetworkTrafficMonitor.nl
       ++ "127.0.0.1 bet.com" ++ NetworkTrafficMonitor.nl
       ++ "10.0.0.7 intranet" ++ NetworkTrafficMonitor.nl).

(** A process whose database cannot be reached. *)
Definition offline_world : World :=
  with_db (Examples.fresh_world HostsWritable)
    {| DatabaseManager.db_up := false;
       DatabaseManager.settings := ∅;
       DatabaseManager.blocked_sites := [];
       DatabaseManager.detection_logs := [];
       DatabaseManager.traffic_logs := [];
       DatabaseManager.bandwidth_history := [] |}.

(** The world after [casino.example] was blocked. *)
Definition blocked_world : World :=
  exec (NetworkTrafficMonitor.block_domain "casino.example")
       (Examples.fresh_world HostsWritable).

(** A page of 3200 characters. *)
Definition long_page : string :=
  String.concat "" (repeat "jackpot " 400).

(** The settings form with a sensitivity of 30 and developer mode
    ticked. *)
Definition sample_form : gmap string string :=
  {[ "sensitivity" := "30"; "dev_mode" := "on" ]}.

(** A running monitor over a fresh process. *)
Definition running_app : Lifecycle.App :=
  {| Lifecycle.world := Examples.fresh_world HostsWritable;
     Lifecycle.life := snd (Lifecycle.start_monitoring false Lifecycle.initial) |}.

(** A disk that cannot be written and holds no model file. *)
Definition readonly_disk : ModelFiles.Disk :=
  {| ModelFiles.file := ModelFiles.NoFile; ModelFiles.writable := false |}.

Definition empty_disk : ModelFiles.Disk :=
  {| ModelFiles.file := ModelFiles.NoFile; ModelFiles.writable := true |}.

(** A refit that always answers a given pipeline. *)
Definition refit_to (m : GamblingDetector.Pipeline)
  : GamblingDetector.Pipeline -> list string -> list Z -> ModelFiles.fit_outcome :=
  fun _ _ _ => ModelFiles.Fitted m.

Definition unloaded : GamblingDetector.t :=
  {| GamblingDetector.model := None; GamblingDetector.db_manager := true |}.

End MoreExamples.
(* ===================================================================== *)
(** ** Properties *)
(* ===================================================================== *)

Import GamblingDetector NetworkTrafficMonitor SpecWords Rows.

(** *** Order on floats *)

Lemma SFcompare_refl_not_Lt (s : SpecFloat.spec_float) :
  SpecFloat.SFcompare s s <> Some Lt.
Proof.
  destruct s as [sg| sg | | sg m e]; simpl; try congruence.
  - destruct sg; congruence.
  - rewrite Z.compare_refl.
    change (PosDef.Pos.compare_cont Eq m m) with (Pos.compare m m).
    rewrite Pos.compare_refl. destruct sg; simpl; congruence.
Qed.

Lemma gt_irrefl (p : float) : gt p p = false.
Proof.
  unfold gt. rewrite FloatAxioms.ltb_spec. unfold SpecFloat.SFltb.
  pose proof (SFcompare_refl_not_Lt (Prim2SF p)) as H.
  destruct (SpecFloat.SFcompare (Prim2SF p) (Prim2SF p)) as [[]|]; congruence.
Qed.

Lemma SFcompare_Eq_sym (a b : SpecFloat.spec_float) :
  SpecFloat.SFcompare a b = Some Eq -> SpecFloat.SFcompare b a = Some Eq.
Proof.
  destruct a as [sa| sa | | sa ma ea], b as [sb | sb | | sb mb eb]; simpl; try congruence;
    try (destruct sa; congruence); try (destruct sb; congruence);
    try (destruct sa, sb; congruence).
  change (PosDef.Pos.compare_cont Eq ma mb) with (Pos.compare ma mb).
  change (PosDef.Pos.compare_cont Eq mb ma) with (Pos.compare mb ma).
  destruct sa, sb; try congruence;
    (destruct (Z.compare_spec ea eb); try congruence; subst;
     rewrite Z.compare_refl;
     destruct (Pos.compare_spec ma mb); simpl; try congruence; subst;
     intros _; rewrite Pos.compare_refl; reflexivity).
Qed.

(** Python's [p == t] excludes [p > t]. *)
Lemma eqb_not_gt (p t : float) : PrimFloat.eqb p t = true -> gt p t = false.
Proof.
  unfold gt. rewrite FloatAxioms.eqb_spec, FloatAxioms.ltb_spec.
  unfold SpecFloat.SFeqb, SpecFloat.SFltb.
  destruct (SpecFloat.SFcompare (Prim2SF p) (Prim2SF t)) as [[]|] eqn:E; try discriminate.
  intros _. rewrite (SFcompare_Eq_sym _ _ E). reflexivity.
Qed.

(** *** The classifier decision *)

Lemma read_sensitivity_threshold float_of_str self d t :
  (db_manager self = true -> DatabaseManager.db_up d = true) ->
  spec_threshold float_of_str (sensitivity_setting self d) t ->
  read_sensitivity float_of_str self d = Ok t.
Proof.
  unfold read_sensitivity, sensitivity_setting, DatabaseManager.get_setting.
  intros Hup Ht.
  destruct (db_manager self); [rewrite Hup by reflexivity | inversion Ht; reflexivity].
  simpl. inversion Ht as [Heq | Heq | s v Hs Hv Heq]; subst; try reflexivity.
  destruct s; [congruence|]. simpl. rewrite Hv. reflexivity.
Qed.

(** A stored sensitivity that [float] rejects is not replaced by the
    default threshold: the [ValueError] is caught with every other error
    and the neutral verdict is returned. *)
Lemma predict_gambling_unparseable_setting
    (urlparse : string -> result ParseResult) (float_of_str : string -> result float)
    (self : GamblingDetector.t) (m : Pipeline) (d : DatabaseManager.t)
    (url : string) (hdrs : option headers) (content : option string)
    (s : string) (e : exn) :
  model self = Some m ->
  db_manager self = true ->
  DatabaseManager.db_up d = true ->
  DatabaseManager.settings d !! "sensitivity" = Some s ->
  truthy_str s = true ->
  float_of_str s = Raise e ->
  predict_gambling urlparse float_of_str self d url hdrs content = Ok (0.5%float, false).
Proof.
  intros Hm Hdb Hup Hs Ht He. unfold predict_gambling. rewrite Hm.
  destruct (m _) as [probabilities|]; [|reflexivity]. cbn [rbind].
  destruct (first_row probabilities) as [row|]; [|reflexivity]. cbn [rbind].
  unfold read_sensitivity, DatabaseManager.get_setting.
  rewrite Hdb, Hup. cbn [rbind]. rewrite Hs, Ht, He. reflexivity.
Qed.

(** C1.  Whenever the loaded model yields a probability row and the
    sensitivity can be read, [predict_gambling] returns that probability
    [p] together with a flag that is [true] exactly when [p] is strictly
    greater than the threshold (the stored sensitivity divided by 100, or
    0.5 when none is stored); a probability equal to the threshold is not
    flagged. *)
Theorem predict_gambling_flags_iff_above_threshold
    (urlparse : string -> result ParseResult) (float_of_str : string -> result float)
    (self : GamblingDetector.t) (m : Pipeline) (d : DatabaseManager.t)
    (url : string) (hdrs : option headers) (content : option string)
    (row : list float) (rest : list (list float)) (threshold : float) :
  model self = Some m ->
  m (extract_features_from_url urlparse url hdrs content) = Ok (row :: rest) ->
  (db_manager self = true -> DatabaseManager.db_up d = true) ->
  spec_threshold float_of_str (sensitivity_setting self d) threshold ->
  exists flagged : bool,
    predict_gambling urlparse float_of_str self d url hdrs content
      = Ok (gambling_prob_of row, flagged) /\
    (flagged = true <-> PrimFloat.ltb threshold (gambling_prob_of row) = true) /\
    (PrimFloat.eqb (gambling_prob_of row) threshold = true -> flagged = false) /\
    (gambling_prob_of row = threshold -> flagged = false).
Proof.
  intros Hm Hrow Hup Ht.
  exists (gt (gambling_prob_of row) threshold). split; [|split; [|split]].
  - unfold predict_gambling. rewrite Hm, Hrow. simpl.
    rewrite (read_sensitivity_threshold _ _ _ _ Hup Ht). reflexivity.
  - reflexivity.
  - apply eqb_not_gt.
  - intros ->. apply gt_irrefl.
Qed.

(** A stored sensitivity of 30 and a predicted probability equal to
    30/100: the boundary, not flagged. *)
Lemma predict_gambling_flags_iff_above_threshold_witness :
  exists flagged : bool,
    predict_gambling Examples.simple_urlparse Examples.decimal_float
      (Examples.detector_of (Some (Examples.constant_pipeline 0.3%float)))
      (Examples.db_with_sensitivity "30") "http://casino.example/slots" None None
      = Ok (gambling_prob_of [PrimFloat.sub 1 0.3; 0.3]%float, flagged) /\
    (flagged = true <->
       PrimFloat.ltb (PrimFloat.div 30 100)
         (gambling_prob_of [PrimFloat.sub 1 0.3; 0.3]%float) = true) /\
    (PrimFloat.eqb (gambling_prob_of [PrimFloat.sub 1 0.3; 0.3]%float)
       (PrimFloat.div 30 100) = true -> flagged = false) /\
    (gambling_prob_of [PrimFloat.sub 1 0.3; 0.3]%float = PrimFloat.div 30 100 ->
     flagged = false).
Proof.
  apply (predict_gambling_flags_iff_above_threshold
           Examples.simple_urlparse Examples.decimal_float
           (Examples.detector_of (Some (Examples.constant_pipeline 0.3%float)))
           (Examples.constant_pipeline 0.3%float)
           (Examples.db_with_sensitivity "30") "http://casino.example/slots" None None
           [PrimFloat.sub 1 0.3; 0.3]%float [] (PrimFloat.div 30 100)).
  - reflexivity.
  - reflexivity.
  - reflexivity.
  - apply (threshold_stored Examples.decimal_float "30" 30%float).
    + discriminate.
    + reflexivity.
Defined.

(** C2.  [predict_gambling] never raises; with no model loaded, or when
    the model's prediction raises, it returns probability 0.5 and a
    non-flagged verdict.  The monitor's own evaluation step does the same
    when it has no predictor or when the predictor raises, and
    [_analyze_connection] lets no exception out. *)
Theorem classifier_failure_gives_neutral_verdict
    (urlparse : string -> result ParseResult) (float_of_str : string -> result float)
    (self : GamblingDetector.t) (d : DatabaseManager.t)
    (url : string) (hdrs : option headers) (content : option string) :
  (exists r, predict_gambling urlparse float_of_str self d url hdrs content = Ok r) /\
  (model self = None ->
   predict_gambling urlparse float_of_str self d url hdrs content = Ok (0.5%float, false)) /\
  (forall m e, model self = Some m ->
     m (extract_features_from_url urlparse url hdrs content) = Raise e ->
     predict_gambling urlparse float_of_str self d url hdrs content = Ok (0.5%float, false)) /\
  (predict_or_default None d url = (0.5%float, false)) /\
  (forall f e, f d url None None = Raise e ->
     predict_or_default (Some f) d url = (0.5%float, false)) /\
  (forall ml_predictor conn env w,
     eval (_analyze_connection ml_predictor conn env) w = Ok tt).
Proof.
  repeat split.
  - unfold predict_gambling. destruct (model self) as [m|]; [|eauto].
    unfold rtry. destruct (rbind _ _) as [r|e]; eauto.
  - intros H. unfold predict_gambling. rewrite H. reflexivity.
  - intros m e Hm He. unfold predict_gambling. rewrite Hm, He. reflexivity.
  - intros f e He. unfold predict_or_default. rewrite He. reflexivity.
  - intros ml_predictor conn env w.
    unfold eval, _analyze_connection, try_except.
    match goal with
    | |- fst (match ?b with _ => _ end) = _ => destruct b as [[[]|e] w']
    end; reflexivity.
Qed.

(** No model loaded, and a model whose prediction raises. *)
Lemma classifier_failure_gives_neutral_verdict_witness :
  predict_gambling Examples.simple_urlparse Examples.decimal_float
    (Examples.detector_of None) (Examples.db_with_sensitivity "30")
    "http://casino.example/" None None = Ok (0.5%float, false) /\
  predict_gambling Examples.simple_urlparse Examples.decimal_float
    (Examples.detector_of (Some Examples.failing_pipeline)) (Examples.db_with_sensitivity "30")
    "http://casino.example/" None None = Ok (0.5%float, false).
Proof.
  split.
  - apply (proj1 (proj2 (classifier_failure_gives_neutral_verdict
             Examples.simple_urlparse Examples.decimal_float
             (Examples.detector_of None) (Examples.db_with_sensitivity "30")
             "http://casino.example/" None None))).
    reflexivity.
  - apply (proj1 (proj2 (proj2 (classifier_failure_gives_neutral_verdict
             Examples.simple_urlparse Examples.decimal_float
             (Examples.detector_of (Some Examples.failing_pipeline))
             (Examples.db_with_sensitivity "30")
             "http://casino.example/" None None)))
             Examples.failing_pipeline OtherException); reflexivity.
Defined.

(** *** The blocked set: [block_domain] and [unblock_domain] *)

Ltac unfold_m :=
  unfold ProxyAddon.attr, on_permission_error, open_hosts, write_hosts, print,
    exec, eval, try_except, bind, ret, raise, modify, get, lift, on_db, read_db,
    on_db_total in *.

(** What [block_domain] does, by the state of the hosts file. *)
Lemma block_domain_run (domain : string) (w : World) :
  let r := DatabaseManager.add_blocked_site ("http://" ++ domain)
             (Some "Gambling detected") (db w) in
  let w1 := with_monitor (with_db w (snd r))
              (with_blocked_domains (monitor w)
                 ({[domain]} ∪ blocked_domains (monitor w))) in
  block_domain domain w =
  match hosts_mode w with
  | HostsWritable =>
      (Ok true,
       with_hosts_text w1
         ((hosts_text w ++ nl ++ "127.0.0.1 " ++ domain)
            ++ nl ++ "127.0.0.1 www." ++ domain))
  | HostsPermissionDenied =>
      (Ok true, with_stdout w1 (stdout w ++ [MsgPermissionDenied domain])%list)
  | HostsMissing =>
      (Ok false,
       with_stdout w1 (stdout w ++ [MsgErrorBlocking domain FileNotFoundError])%list)
  end.
Proof.
  cbv zeta. unfold block_domain. unfold_m.
  destruct (DatabaseManager.add_blocked_site _ _ (db w)) as [b d'].
  destruct w as [wd wm wa wt [] wo]; reflexivity.
Qed.

(** What [unblock_domain] does, by the state of the hosts file. *)
Lemma unblock_domain_run (domain : string) (w : World) :
  let r := DatabaseManager.remove_blocked_site ("http://" ++ domain) (db w) in
  let w1 := with_monitor (with_db w (snd r))
              (with_blocked_domains (monitor w)
                 (blocked_domains (monitor w) ∖ {[domain]})) in
  unblock_domain domain w =
  match hosts_mode w with
  | HostsWritable =>
      (Ok true,
       with_hosts_text w1
         (String.concat ""
            (List.filter (fun line => negb (contains domain line))
               (readlines (hosts_text w)))))
  | HostsPermissionDenied =>
      (Ok true, with_stdout w1 (stdout w ++ [MsgPermissionDenied domain])%list)
  | HostsMissing =>
      (Ok false,
       with_stdout w1 (stdout w ++ [MsgErrorUnblocking domain FileNotFoundError])%list)
  end.
Proof.
  cbv zeta. unfold unblock_domain. unfold_m.
  destruct (DatabaseManager.remove_blocked_site _ (db w)) as [b d'].
  destruct w as [wd wm wa wt [] wo]; reflexivity.
Qed.

Lemma block_domain_monitor (d : string) (w : World) :
  monitor (exec (block_domain d) w)
  = with_blocked_domains (monitor w) ({[d]} ∪ blocked_domains (monitor w)).
Proof.
  unfold exec. rewrite block_domain_run. destruct (hosts_mode w); reflexivity.
Qed.

Lemma unblock_domain_monitor (d : string) (w : World) :
  monitor (exec (unblock_domain d) w)
  = with_blocked_domains (monitor w) (blocked_domains (monitor w) ∖ {[d]}).
Proof.
  unfold exec. rewrite unblock_domain_run. destruct (hosts_mode w); reflexivity.
Qed.

Lemma block_domain_db (d : string) (w : World) :
  db (exec (block_domain d) w)
  = snd (DatabaseManager.add_blocked_site ("http://" ++ d) (Some "Gambling detected") (db w)).
Proof.
  unfold exec. rewrite block_domain_run. destruct (hosts_mode w); reflexivity.
Qed.

Lemma in_list_In (x : string) (xs : list string) : in_list x xs = true <-> In x xs.
Proof.
  unfold in_list. rewrite existsb_exists. split.
  - intros [y [Hy He]]. apply String.eqb_eq in He. subst. exact Hy.
  - intros H. exists x. split; [exact H | apply String.eqb_refl].
Qed.

(** [INSERT OR IGNORE] keeps the [url] column free of duplicates. *)
Lemma add_blocked_site_NoDup (url : string) (reason : option string) (d : DatabaseManager.t) :
  List.NoDup (map fst (DatabaseManager.blocked_sites d)) ->
  List.NoDup (map fst (DatabaseManager.blocked_sites
                         (snd (DatabaseManager.add_blocked_site url reason d)))).
Proof.
  intros H. unfold DatabaseManager.add_blocked_site.
  destruct (DatabaseManager.db_up d); [|exact H].
  destruct (in_list url _) eqn:E; [exact H|]. simpl.
  rewrite map_app. simpl. apply NoDup_ListNoDup, NoDup_app. repeat split.
  - apply NoDup_ListNoDup. exact H.
  - intros x Hx Hx'. apply list_elem_of_In in Hx, Hx'. destruct Hx' as [<-|[]].
    apply in_list_In in Hx. congruence.
  - apply NoDup_singleton.
Qed.

Lemma add_blocked_site_In (url : string) (reason : option string) (d : DatabaseManager.t) :
  DatabaseManager.db_up d = true ->
  In url (map fst (DatabaseManager.blocked_sites
                     (snd (DatabaseManager.add_blocked_site url reason d)))).
Proof.
  intros Hup. unfold DatabaseManager.add_blocked_site. rewrite Hup.
  destruct (in_list url _) eqn:E; simpl.
  - apply in_list_In. exact E.
  - rewrite map_app. apply in_or_app. right. left. reflexivity.
Qed.

(** C5.  After [block_domain D] the membership test of [D] is true, and
    after a following [unblock_domain D] it is false again; the pair
    leaves the set as it was, less [D]. *)
Theorem block_then_unblock_round_trip (d : string) (w : World) :
  is_blocked d (exec (block_domain d) w) = true /\
  d ∈ blocked_domains (monitor (exec (block_domain d) w)) /\
  is_blocked d (exec (unblock_domain d) (exec (block_domain d) w)) = false /\
  (d ∉ blocked_domains (monitor (exec (unblock_domain d) (exec (block_domain d) w)))) /\
  (blocked_domains (monitor (exec (unblock_domain d) (exec (block_domain d) w)))
    = blocked_domains (monitor w) ∖ {[d]}).
Proof.
  unfold is_blocked.
  rewrite unblock_domain_monitor, block_domain_monitor. simpl.
  split; [|split; [|split; [|split]]].
  - apply bool_decide_eq_true_2. set_solver.
  - set_solver.
  - apply bool_decide_eq_false_2. set_solver.
  - set_solver.
  - set_solver.
Qed.




(** C9, as the code has it.  The blocked set holds the strings it is given,
    unchanged, and matches by string equality: after [block_domain d] a
    string is in the set exactly when it is [d] or was there before, and
    after [unblock_domain d] exactly when it differs from [d] and was there
    before; [load_blocked_sites] stores the [netloc] of each persisted URL
    as [urlparse] returns it.  The set has no duplicates, blocking
    twice changes nothing more, and the persisted [url] column stays free of
    duplicates. *)
Theorem blocked_set_exact_match_no_duplicates
    (urlparse : string -> result ParseResult) (d d' : string) (w : World) :
  (d' ∈ blocked_domains (monitor (exec (block_domain d) w))
     <-> d' = d \/ d' ∈ blocked_domains (monitor w)) /\
  (d' ∈ blocked_domains (monitor (exec (unblock_domain d) w))
     <-> d' <> d /\ d' ∈ blocked_domains (monitor w)) /\
  (is_blocked d' w = true <-> d' ∈ blocked_domains (monitor w)) /\
  (forall ds, DatabaseManager.db_up (db w) = true ->
     netlocs urlparse (DatabaseManager.blocked_sites (db w)) = Ok ds ->
     (d' ∈ blocked_domains (monitor (exec (load_blocked_sites urlparse) w)) <-> In d' ds)) /\
  NoDup (elements (blocked_domains (monitor (exec (block_domain d) w)))) /\
  (blocked_domains (monitor (exec (block_domain d) (exec (block_domain d) w)))
     = blocked_domains (monitor (exec (block_domain d) w))) /\
  (List.NoDup (map fst (DatabaseManager.blocked_sites (db w))) ->
   List.NoDup (map fst (DatabaseManager.blocked_sites (db (exec (block_domain d) w))))).
Proof.
  split; [|split; [|split; [|split; [|split; [|split]]]]].
  - rewrite block_domain_monitor. simpl. set_solver.
  - rewrite unblock_domain_monitor. simpl. set_solver.
  - unfold is_blocked. apply bool_decide_eq_true.
  - intros ds Hup Hds. unfold load_blocked_sites. unfold_m.
    unfold DatabaseManager.get_blocked_sites. rewrite Hup. simpl. rewrite Hds. simpl.
    rewrite elem_of_list_to_set. apply list_elem_of_In.
  - apply NoDup_elements.
  - rewrite !block_domain_monitor. simpl. set_solver.
  - intros H. rewrite block_domain_db. apply add_blocked_site_NoDup. exact H.
Qed.

Lemma blocked_set_exact_match_no_duplicates_witness :
  List.NoDup (map fst (DatabaseManager.blocked_sites
     (db (exec (block_domain "casino.example")
            (exec (block_domain "casino.example") (Examples.fresh_world HostsWritable)))))).
Proof.
  apply (proj2 (proj2 (proj2 (proj2 (proj2 (proj2
           (blocked_set_exact_match_no_duplicates Examples.simple_urlparse
              "casino.example" "casino.example"
              (exec (block_domain "casino.example") (Examples.fresh_world HostsWritable))))))))).
  vm_compute. repeat constructor; simpl; tauto.
Defined.

(** C9, counterexample: neither letter case nor a leading [www.] is
    normalised away, at storage or at matching. *)
Lemma blocked_set_not_normalised :
  is_blocked "example.com"
    (exec (block_domain "Example.com") (Examples.fresh_world HostsWritable)) = false /\
  is_blocked "example.com"
    (exec (block_domain "www.example.com") (Examples.fresh_world HostsWritable)) = false /\
  is_blocked "www.example.com"
    (exec (block_domain "example.com") (Examples.fresh_world HostsWritable)) = false /\
  is_blocked "Example.com"
    (exec (block_domain "Example.com") (Examples.fresh_world HostsWritable)) = true.
Proof.
  unfold is_blocked. rewrite !block_domain_monitor. simpl.
  repeat split;
    first [ apply bool_decide_eq_false_2; set_solver | apply bool_decide_eq_true_2; set_solver ].
Qed.

(** *** The connection path: [_analyze_connection] *)

Lemma is_blocked_ext (h : string) (w w' : World) :
  blocked_domains (monitor w) = blocked_domains (monitor w') ->
  is_blocked h w = is_blocked h w'.
Proof. unfold is_blocked. intros ->. reflexivity. Qed.

(** [_analyze_connection], case by case. *)
Lemma analyze_connection_run (ml_predictor : option predictor) (conn : Conn) (env : Probe)
    (w : World) :
  let hostname := resolve_hostname conn env in
  let cache_key := hostname ++ ":" ++ pretty (raddr_port conn) in
  let w1 := with_monitor w
              (with_connections_cache (monitor w)
                 (<[cache_key := now_store env]> (connections_cache (monitor w)))) in
  let r := predict_or_default ml_predictor (db w) ("http://" ++ hostname) in
  let w2 := with_db w1
              (DatabaseManager.with_detection_logs (db w)
                 (DatabaseManager.detection_logs (db w)
                    ++ [connection_detection hostname r (is_blocked hostname w)])) in
  _analyze_connection ml_predictor conn env w =
  if is_local (raddr_ip conn) then (Ok tt, w)
  else if recently_checked (connections_cache (monitor w)) cache_key (now_check env)
  then (Ok tt, w)
  else if DatabaseManager.db_up (db w)
  then if (snd r && gt (fst r) 0.7%float && negb (is_blocked hostname w))%bool
       then (Ok tt,
             with_stdout (exec (block_domain hostname) w2)
               (stdout (exec (block_domain hostname) w2) ++ [MsgBlocked hostname (fst r)])%list)
       else (Ok tt, w2)
  else (Ok tt, w1).
Proof.
  cbv zeta. unfold _analyze_connection.
  destruct (is_local (raddr_ip conn)) eqn:Hloc; [reflexivity|].
  unfold try_except at 1. unfold bind at 1. unfold get at 1.
  destruct (recently_checked _ _ _) eqn:Hrec; [reflexivity|].
  unfold bind at 1. unfold modify at 1. unfold bind at 1. unfold get at 1.
  unfold bind at 1. unfold on_db at 1. unfold DatabaseManager.log_detection.
  cbn [db with_monitor].
  destruct (DatabaseManager.db_up (db w)) eqn:Hup; [|reflexivity].
  unfold bind at 1. unfold get at 1. cbn [truthy_headers].
  rewrite (is_blocked_ext _ (with_db _ _) w) by reflexivity.
  rewrite (is_blocked_ext _ (with_monitor _ _) w) by reflexivity.
  destruct (_ && _ && _)%bool eqn:Hauto; [|reflexivity].
  unfold bind at 1.
  unfold exec.
  repeat match goal with
         | |- context [block_domain ?h ?x] => rewrite (block_domain_run h x)
         end.
  cbn [hosts_mode with_db with_monitor].
  destruct (hosts_mode w); reflexivity.
Qed.

(** *** The proxy path: [ProxyAddon.request] and [ProxyAddon.response] *)

Lemma block_domain_addon (d : string) (w : World) :
  addon (exec (block_domain d) w) = addon w.
Proof.
  unfold exec. rewrite block_domain_run. destruct (hosts_mode w); reflexivity.
Qed.

(** The addon's [add], on the set the addon refers to and on the rest of
    the state. *)
Lemma add_blocked_domain_set (d : string) (w : World) :
  addon_blocked_domains (exec (ProxyAddon.add_blocked_domain d) w)
  = {[d]} ∪ addon_blocked_domains w.
Proof.
  unfold exec, ProxyAddon.add_blocked_domain, modify, addon_blocked_domains.
  cbn [snd]. destruct (shares_monitor_set (addon w)) eqn:E.
  - cbn [addon with_monitor monitor]. rewrite E. reflexivity.
  - reflexivity.
Qed.

Lemma add_blocked_domain_monitor (d : string) (w : World) :
  blocked_domains (monitor (exec (ProxyAddon.add_blocked_domain d) w))
  = if shares_monitor_set (addon w)
    then {[d]} ∪ blocked_domains (monitor w)
    else blocked_domains (monitor w).
Proof.
  unfold exec, ProxyAddon.add_blocked_domain, modify. cbn [snd].
  destruct (shares_monitor_set (addon w)); reflexivity.
Qed.

Lemma add_blocked_domain_rest (d : string) (w : World) :
  db (exec (ProxyAddon.add_blocked_domain d) w) = db w /\
  hosts_text (exec (ProxyAddon.add_blocked_domain d) w) = hosts_text w /\
  hosts_mode (exec (ProxyAddon.add_blocked_domain d) w) = hosts_mode w /\
  stdout (exec (ProxyAddon.add_blocked_domain d) w) = stdout w /\
  shares_monitor_set (addon (exec (ProxyAddon.add_blocked_domain d) w))
    = shares_monitor_set (addon w).
Proof.
  unfold exec, ProxyAddon.add_blocked_domain, modify. cbn [snd].
  destruct (shares_monitor_set (addon w)) eqn:E; repeat split; try reflexivity.
  exact E.
Qed.

(** The set the addon starts on. *)
Lemma init_shares (w : World) :
  shares_monitor_set (addon (exec ProxyAddon.init w))
    = negb (bool_decide (blocked_domains (monitor w) = ∅)) /\
  own_blocked_domains (addon (exec ProxyAddon.init w)) = ∅ /\
  monitor (exec ProxyAddon.init w) = monitor w /\
  db (exec ProxyAddon.init w) = db w.
Proof. repeat split. Qed.

(** [response], case by case. *)
Lemma response_run (urlparse : string -> result ParseResult) (ml_predictor : option predictor)
    (flow : ProxyAddon.HTTPFlow) (now : float) (w : World) :
  ProxyAddon.response urlparse ml_predictor flow now w =
  match ProxyAddon.request_info flow with
  | None => (Ok tt, w)
  | Some info =>
    match ProxyAddon.request_start_time flow, ProxyAddon.flow_response flow with
    | None, _ | _, None => (Ok tt, say w (MsgErrorResponse AttributeError))
    | Some start, Some resp =>
      match ProxyAddon.text_if_content (ProxyAddon.resp_content resp)
              (ProxyAddon.resp_text resp) with
      | Raise e => (Ok tt, say w (MsgErrorResponse e))
      | Ok body =>
      match ProxyAddon.size_if_content (ProxyAddon.resp_content resp) with
      | Raise e => (Ok tt, say w (MsgErrorResponse e))
      | Ok size =>
      match urlparse (ProxyAddon.ri_url info) with
      | Raise e => (Ok tt, say w (MsgErrorResponse e))
      | Ok parsed =>
        if DatabaseManager.db_up (db w) then
          let d1 := with_traffic_row (db w)
                      (proxy_traffic_row flow info resp body size (netloc parsed) start now) in
          let w1 := with_db w d1 in
          match ml_predictor with
          | None => (Ok tt, w1)
          | Some f =>
            match f d1 (ProxyAddon.ri_url info) (Some (ProxyAddon.resp_headers resp)) body with
            | Raise e => (Ok tt, say w1 (MsgErrorMLAnalysis e))
            | Ok r =>
              let w2 := with_db w1
                          (DatabaseManager.with_detection_logs d1
                             (DatabaseManager.detection_logs d1
                                ++ [proxy_detection info resp body size r])) in
              if (snd r && gt (fst r) 0.8%float)%bool
              then (Ok tt,
                    say (exec (ProxyAddon.add_blocked_domain (netloc parsed)) w2)
                        (MsgAutoBlocked (netloc parsed) (fst r)))
              else (Ok tt, w2)
            end
          end
        else (Ok tt, say w (MsgErrorResponse OperationalError))
      end
      end
      end
    end
  end.
Proof.
  unfold ProxyAddon.response, ProxyAddon.analyze_response, say, with_traffic_row,
    proxy_traffic_row, proxy_detection.
  destruct (ProxyAddon.request_info flow) as [info|]; [|reflexivity].
  destruct (ProxyAddon.request_start_time flow) as [start|]; [|reflexivity].
  destruct (ProxyAddon.flow_response flow) as [resp|]; [|reflexivity].
  unfold_m. cbn [ProxyAddon.attr].
  destruct (ProxyAddon.text_if_content _ _) as [body|e]; [|reflexivity].
  destruct (ProxyAddon.size_if_content _) as [size|e]; [|reflexivity].
  destruct (urlparse (ProxyAddon.ri_url info)) as [parsed|e] eqn:Hparse; [|reflexivity].
  unfold DatabaseManager.log_traffic.
  destruct (DatabaseManager.db_up (db w)) eqn:Hup; [|reflexivity].
  destruct ml_predictor as [f|]; [|reflexivity].
  cbn [db with_db].
  match goal with |- context [f ?a ?b ?c ?d] => destruct (f a b c d) as [r|e] end;
    [|reflexivity].
  unfold DatabaseManager.log_detection.
  cbn [db with_db DatabaseManager.db_up DatabaseManager.with_traffic_logs].
  rewrite Hup.
  destruct (snd r && gt (fst r) 0.8%float)%bool; [|reflexivity].
  reflexivity.
Qed.

(** A request whose domain is in the set the addon refers to is answered
    with the fixed blocked page and records no request context; the
    [response] hook then does nothing for that flow, so no traffic record
    (and no other change) is persisted. *)
Lemma request_answers_blocked_page
    (urlparse : string -> result ParseResult) (ml_predictor : option predictor)
    (flow : ProxyAddon.HTTPFlow) (now now' : float) (w : World) (parsed : ParseResult) :
  urlparse (ProxyAddon.pretty_url (ProxyAddon.flow_request flow)) = Ok parsed ->
  netloc parsed ∈ addon_blocked_domains w ->
  ProxyAddon.request_info flow = None ->
  exists flow' : ProxyAddon.HTTPFlow,
    ProxyAddon.request urlparse flow now w = (Ok flow', w) /\
    ProxyAddon.flow_response flow' = Some ProxyAddon.blocked_page /\
    ProxyAddon.request_info flow' = None /\
    ProxyAddon.response urlparse ml_predictor flow' now' w = (Ok tt, w).
Proof.
  intros Hparse Hin Hinfo.
  eexists. split; [|split; [|split]].
  - unfold ProxyAddon.request. unfold_m. rewrite Hparse.
    rewrite (bool_decide_eq_true_2 _ Hin). reflexivity.
  - reflexivity.
  - exact Hinfo.
  - rewrite response_run. cbn [ProxyAddon.request_info]. rewrite Hinfo. reflexivity.
Qed.

(** A request whose domain is not in that set goes through: the hook sets
    no response, and records the request context when the body can be
    read. *)
Lemma request_goes_through
    (urlparse : string -> result ParseResult)
    (flow : ProxyAddon.HTTPFlow) (now : float) (w : World) (parsed : ParseResult) :
  urlparse (ProxyAddon.pretty_url (ProxyAddon.flow_request flow)) = Ok parsed ->
  netloc parsed ∉ addon_blocked_domains w ->
  ProxyAddon.request urlparse flow now w =
  match ProxyAddon.text_if_content (ProxyAddon.req_content (ProxyAddon.flow_request flow))
          (ProxyAddon.req_text (ProxyAddon.flow_request flow)) with
  | Ok body =>
      (Ok {| ProxyAddon.flow_request := ProxyAddon.flow_request flow;
             ProxyAddon.flow_response := ProxyAddon.flow_response flow;
             ProxyAddon.request_start_time := Some now;
             ProxyAddon.request_info :=
               Some {| ProxyAddon.ri_url := ProxyAddon.pretty_url (ProxyAddon.flow_request flow);
                       ProxyAddon.ri_method := ProxyAddon.req_method (ProxyAddon.flow_request flow);
                       ProxyAddon.ri_headers :=
                         ProxyAddon.req_headers (ProxyAddon.flow_request flow);
                       ProxyAddon.ri_body := body |} |}, w)
  | Raise e => (Ok flow, say w (MsgErrorRequest e))
  end.
Proof.
  intros Hparse Hout. unfold ProxyAddon.request, say. unfold_m. rewrite Hparse.
  rewrite (bool_decide_eq_false_2 _ Hout).
  destruct (ProxyAddon.text_if_content _ _); reflexivity.
Qed.

(** C4 (defect of the addon's constructor).  The addon tests its own
    [blocked_domains], which is the monitor's blocked set only when that
    set was not empty when the proxy was started.  In that case a request
    to a domain blocked afterwards is answered with the fixed blocked
    page, records no request context, and the [response] hook does nothing
    for the flow.  But when the proxy was started on an empty blocked set,
    a domain blocked afterwards by [block_domain] is in the blocked set
    and yet a request to it is not answered by the addon: the hook sets no
    response and, when the request body can be read, records the request
    context from which the [response] hook logs the traffic. *)
Theorem blocked_request_not_short_circuited
    (urlparse : string -> result ParseResult) (ml_predictor : option predictor)
    (flow : ProxyAddon.HTTPFlow) (now now' : float) (w : World) (parsed : ParseResult) :
  urlparse (ProxyAddon.pretty_url (ProxyAddon.flow_request flow)) = Ok parsed ->
  ProxyAddon.request_info flow = None ->
  is_blocked (netloc parsed)
    (exec (block_domain (netloc parsed)) (exec ProxyAddon.init w)) = true /\
  (blocked_domains (monitor w) <> ∅ ->
   exists flow' : ProxyAddon.HTTPFlow,
     ProxyAddon.request urlparse flow now
       (exec (block_domain (netloc parsed)) (exec ProxyAddon.init w))
     = (Ok flow', exec (block_domain (netloc parsed)) (exec ProxyAddon.init w)) /\
     ProxyAddon.flow_response flow' = Some ProxyAddon.blocked_page /\
     ProxyAddon.request_info flow' = None /\
     ProxyAddon.response urlparse ml_predictor flow' now'
       (exec (block_domain (netloc parsed)) (exec ProxyAddon.init w))
     = (Ok tt, exec (block_domain (netloc parsed)) (exec ProxyAddon.init w))) /\
  (blocked_domains (monitor w) = ∅ ->
   exists flow' : ProxyAddon.HTTPFlow,
     eval (ProxyAddon.request urlparse flow now)
       (exec (block_domain (netloc parsed)) (exec ProxyAddon.init w)) = Ok flow' /\
     ProxyAddon.flow_response flow' = ProxyAddon.flow_response flow /\
     forall body,
       ProxyAddon.text_if_content (ProxyAddon.req_content (ProxyAddon.flow_request flow))
         (ProxyAddon.req_text (ProxyAddon.flow_request flow)) = Ok body ->
       ProxyAddon.request_start_time flow' = Some now /\
       ProxyAddon.request_info flow'
       = Some {| ProxyAddon.ri_url := ProxyAddon.pretty_url (ProxyAddon.flow_request flow);
                 ProxyAddon.ri_method := ProxyAddon.req_method (ProxyAddon.flow_request flow);
                 ProxyAddon.ri_headers := ProxyAddon.req_headers (ProxyAddon.flow_request flow);
                 ProxyAddon.ri_body := body |}).
Proof.
  intros Hparse Hinfo.
  set (w1 := exec (block_domain (netloc parsed)) (exec ProxyAddon.init w)).
  assert (Hmon : blocked_domains (monitor w1)
                 = {[netloc parsed]} ∪ blocked_domains (monitor w)).
  { unfold w1. rewrite block_domain_monitor. reflexivity. }
  assert (Hshare : shares_monitor_set (addon w1)
                   = negb (bool_decide (blocked_domains (monitor w) = ∅))).
  { unfold w1. rewrite block_domain_addon. reflexivity. }
  assert (Hown : own_blocked_domains (addon w1) = ∅).
  { unfold w1. rewrite block_domain_addon. reflexivity. }
  split; [|split].
  - unfold is_blocked. apply bool_decide_eq_true_2. rewrite Hmon. set_solver.
  - intros Hne.
    apply (request_answers_blocked_page urlparse ml_predictor flow now now' w1 parsed
             Hparse); [|exact Hinfo].
    unfold addon_blocked_domains. rewrite Hshare, (bool_decide_eq_false_2 _ Hne).
    cbn [negb]. rewrite Hmon. set_solver.
  - intros Hempty.
    assert (Hout : netloc parsed ∉ addon_blocked_domains w1).
    { unfold addon_blocked_domains. rewrite Hshare, (bool_decide_eq_true_2 _ Hempty).
      cbn [negb]. rewrite Hown. set_solver. }
    unfold eval. rewrite (request_goes_through urlparse flow now w1 parsed Hparse Hout).
    destruct (ProxyAddon.text_if_content _ _) as [body|e].
    + eexists. split; [reflexivity|]. split; [reflexivity|].
      intros body' Hb. injection Hb as <-. split; reflexivity.
    + eexists. split; [reflexivity|]. split; [reflexivity|]. intros body' Hb. discriminate.
Qed.

(** The failing input: the proxy is started on a fresh database, so on an
    empty blocked set; [casino.example] is blocked afterwards.  A request
    for it is not answered by the addon, and the [response] hook logs the
    traffic.  Had the blocked set held a domain when the proxy was
    started, the same request would get the blocked page. *)
Lemma blocked_request_not_short_circuited_witness :
  (is_blocked "casino.example" Examples.blocked_after_proxy_start = true /\
   (exists flow' : ProxyAddon.HTTPFlow,
      eval (ProxyAddon.request Examples.simple_urlparse Examples.fresh_flow Examples.epoch)
        Examples.blocked_after_proxy_start = Ok flow' /\
      ProxyAddon.flow_response flow' = None /\
      ProxyAddon.request_info flow' = Some Examples.casino_info) /\
   length (DatabaseManager.traffic_logs
             (db (exec (ProxyAddon.response Examples.simple_urlparse None
                          Examples.answered_flow (PrimFloat.add Examples.epoch 1))
                    Examples.blocked_after_proxy_start))) = 1%nat) /\
  (exists flow' : ProxyAddon.HTTPFlow,
     eval (ProxyAddon.request Examples.simple_urlparse Examples.fresh_flow Examples.epoch)
       (exec (block_domain "casino.example")
          (exec ProxyAddon.init (Examples.world_blocking "bet.example"))) = Ok flow' /\
     ProxyAddon.flow_response flow' = Some ProxyAddon.blocked_page).
Proof.
  split.
  - pose proof (blocked_request_not_short_circuited Examples.simple_urlparse None
                  Examples.fresh_flow Examples.epoch (PrimFloat.add Examples.epoch 1)
                  (Examples.fresh_world HostsWritable)
                  {| netloc := "casino.example"; path := "/slots"; query := "" |}
                  eq_refl eq_refl) as [Hblocked [_ Hmiss]].
    split; [exact Hblocked|]. split.
    + destruct (Hmiss eq_refl) as [flow' [Hreq [Hresp Hctx]]].
      exists flow'. split; [exact Hreq|]. split; [exact Hresp|].
      exact (proj2 (Hctx None eq_refl)).
    + vm_compute. reflexivity.
  - pose proof (blocked_request_not_short_circuited Examples.simple_urlparse None
                  Examples.fresh_flow Examples.epoch (PrimFloat.add Examples.epoch 1)
                  (Examples.world_blocking "bet.example")
                  {| netloc := "casino.example"; path := "/slots"; query := "" |}
                  eq_refl eq_refl) as [_ [Hhit _]].
    destruct Hhit as [flow' [Hreq [Hresp _]]].
    + cbn. apply non_empty_singleton_L.
    + exists flow'. split; [|exact Hresp].
      unfold eval. cbn [netloc] in Hreq. rewrite Hreq. reflexivity.
Defined.

(** C3 (defect of the proxy path).  When the [response] hook auto-blocks
    (a flagged verdict with confidence above 0.8), all it does is add the
    domain to the set object the addon holds and log the detection: the
    persisted blocked sites and the hosts file are left as they were, so
    the block operation of [block_domain] (persisted entry and hosts-file
    override) does not run, unlike on the connection path.  The monitor's
    in-memory set gains the domain only when the addon shares that set
    object, that is, when it was not empty when the proxy was started. *)
Theorem proxy_auto_block_bypasses_block_domain
    (urlparse : string -> result ParseResult) (f : predictor)
    (flow : ProxyAddon.HTTPFlow) (now : float) (w : World)
    (info : ProxyAddon.RequestInfo) (start : float) (resp : ProxyAddon.Response)
    (body : option string) (size : Z) (parsed : ParseResult) (r : float * bool) :
  ProxyAddon.request_info flow = Some info ->
  ProxyAddon.request_start_time flow = Some start ->
  ProxyAddon.flow_response flow = Some resp ->
  ProxyAddon.text_if_content (ProxyAddon.resp_content resp) (ProxyAddon.resp_text resp)
    = Ok body ->
  ProxyAddon.size_if_content (ProxyAddon.resp_content resp) = Ok size ->
  urlparse (ProxyAddon.ri_url info) = Ok parsed ->
  DatabaseManager.db_up (db w) = true ->
  f (with_traffic_row (db w)
       (proxy_traffic_row flow info resp body size (netloc parsed) start now))
    (ProxyAddon.ri_url info) (Some (ProxyAddon.resp_headers resp)) body = Ok r ->
  snd r = true ->
  gt (fst r) 0.8%float = true ->
  netloc parsed ∈ addon_blocked_domains
                    (exec (ProxyAddon.response urlparse (Some f) flow now) w) /\
  DatabaseManager.blocked_sites (db (exec (ProxyAddon.response urlparse (Some f) flow now) w))
    = DatabaseManager.blocked_sites (db w) /\
  hosts_text (exec (ProxyAddon.response urlparse (Some f) flow now) w) = hosts_text w /\
  blocked_domains (monitor (exec (ProxyAddon.response urlparse (Some f) flow now) w))
    = (if shares_monitor_set (addon w)
       then {[netloc parsed]} ∪ blocked_domains (monitor w)
       else blocked_domains (monitor w)).
Proof.
  intros Hinfo Hstart Hresp Hbody Hsize Hparse Hup Hf Hflag Hconf.
  unfold exec at 1 2 3 4. rewrite response_run.
  rewrite Hinfo, Hstart, Hresp, Hbody, Hsize, Hparse, Hup. cbv zeta.
  rewrite Hf, Hflag, Hconf. cbn [andb snd].
  unfold say. cbn [addon_blocked_domains with_stdout addon monitor db hosts_text].
  split; [|split; [|split]].
  - change (netloc parsed ∈ addon_blocked_domains
              (exec (ProxyAddon.add_blocked_domain (netloc parsed))
                 (with_db (with_db w
                    (with_traffic_row (db w)
                       (proxy_traffic_row flow info resp body size (netloc parsed) start now)))
                    (DatabaseManager.with_detection_logs
                       (with_traffic_row (db w)
                          (proxy_traffic_row flow info resp body size (netloc parsed)
                             start now))
                       (DatabaseManager.detection_logs
                          (with_traffic_row (db w)
                             (proxy_traffic_row flow info resp body size (netloc parsed)
                                start now))
                          ++ [proxy_detection info resp body size r]))))).
    rewrite add_blocked_domain_set. set_solver.
  - rewrite (proj1 (add_blocked_domain_rest _ _)). reflexivity.
  - rewrite (proj1 (proj2 (add_blocked_domain_rest _ _))). reflexivity.
  - rewrite add_blocked_domain_monitor. reflexivity.
Qed.

(** The failing input: a proxied page of [casino.example] scored 0.9 with
    the default threshold, on a machine whose hosts file is writable.
    Nothing is persisted and the hosts file is not written, whether the
    addon holds a set of its own (proxy started on an empty blocked set)
    or the monitor's.  The same verdict on the connection path persists
    the entry and rewrites the hosts file. *)
Lemma proxy_auto_block_bypasses_block_domain_witness :
  ("casino.example" ∈ addon_blocked_domains
     (exec (ProxyAddon.response Examples.simple_urlparse
              (Some (Examples.app_predictor (Some (Examples.constant_pipeline 0.9%float))))
              Examples.answered_flow (PrimFloat.add Examples.epoch 1))
        (Examples.fresh_world HostsWritable)) /\
   DatabaseManager.blocked_sites
     (db (exec (ProxyAddon.response Examples.simple_urlparse
                  (Some (Examples.app_predictor (Some (Examples.constant_pipeline 0.9%float))))
                  Examples.answered_flow (PrimFloat.add Examples.epoch 1))
            (Examples.fresh_world HostsWritable))) = [] /\
   hosts_text
     (exec (ProxyAddon.response Examples.simple_urlparse
              (Some (Examples.app_predictor (Some (Examples.constant_pipeline 0.9%float))))
              Examples.answered_flow (PrimFloat.add Examples.epoch 1))
        (Examples.fresh_world HostsWritable)) = "" /\
   is_blocked "casino.example"
     (exec (ProxyAddon.response Examples.simple_urlparse
              (Some (Examples.app_predictor (Some (Examples.constant_pipeline 0.9%float))))
              Examples.answered_flow (PrimFloat.add Examples.epoch 1))
        (Examples.fresh_world HostsWritable)) = false) /\
  (is_blocked "casino.example"
     (exec (ProxyAddon.response Examples.simple_urlparse
              (Some (Examples.app_predictor (Some (Examples.constant_pipeline 0.9%float))))
              Examples.answered_flow (PrimFloat.add Examples.epoch 1))
        (exec ProxyAddon.init (Examples.world_blocking "bet.example"))) = true /\
   DatabaseManager.blocked_sites
     (db (exec (ProxyAddon.response Examples.simple_urlparse
                  (Some (Examples.app_predictor (Some (Examples.constant_pipeline 0.9%float))))
                  Examples.answered_flow (PrimFloat.add Examples.epoch 1))
            (exec ProxyAddon.init (Examples.world_blocking "bet.example"))))
   = [("http://bet.example", Some "Gambling detected")] /\
   hosts_text
     (exec (ProxyAddon.response Examples.simple_urlparse
              (Some (Examples.app_predictor (Some (Examples.constant_pipeline 0.9%float))))
              Examples.answered_flow (PrimFloat.add Examples.epoch 1))
        (exec ProxyAddon.init (Examples.world_blocking "bet.example"))) = "") /\
  (DatabaseManager.blocked_sites
     (db (exec (_analyze_connection
                  (Some (Examples.app_predictor (Some (Examples.constant_pipeline 0.9%float))))
                  Examples.casino_conn (Examples.probe_at Examples.epoch_us))
            (Examples.fresh_world HostsWritable)))
   = [("http://casino.example", Some "Gambling detected")] /\
   hosts_text
     (exec (_analyze_connection
              (Some (Examples.app_predictor (Some (Examples.constant_pipeline 0.9%float))))
              Examples.casino_conn (Examples.probe_at Examples.epoch_us))
        (Examples.fresh_world HostsWritable))
   = nl ++ "127.0.0.1 casino.example" ++ nl ++ "127.0.0.1 www.casino.example").
Proof.
  split; [|split].
  - pose proof (proxy_auto_block_bypasses_block_domain Examples.simple_urlparse
                  (Examples.app_predictor (Some (Examples.constant_pipeline 0.9%float)))
                  Examples.answered_flow (PrimFloat.add Examples.epoch 1)
                  (Examples.fresh_world HostsWritable)
                  Examples.casino_info Examples.epoch Examples.casino_response
                  (Some "<html>slots and jackpots</html>") 31
                  {| netloc := "casino.example"; path := "/slots"; query := "" |}
                  (0.9%float, true)
                  eq_refl eq_refl eq_refl eq_refl eq_refl eq_refl eq_refl eq_refl
                  eq_refl eq_refl) as [H1 [H2 [H3 H4]]].
    split; [exact H1|]. split; [exact H2|]. split; [exact H3|].
    unfold is_blocked. apply bool_decide_eq_false_2. rewrite H4. cbn. set_solver.
  - pose proof (proxy_auto_block_bypasses_block_domain Examples.simple_urlparse
                  (Examples.app_predictor (Some (Examples.constant_pipeline 0.9%float)))
                  Examples.answered_flow (PrimFloat.add Examples.epoch 1)
                  (exec ProxyAddon.init (Examples.world_blocking "bet.example"))
                  Examples.casino_info Examples.epoch Examples.casino_response
                  (Some "<html>slots and jackpots</html>") 31
                  {| netloc := "casino.example"; path := "/slots"; query := "" |}
                  (0.9%float, true)
                  eq_refl eq_refl eq_refl eq_refl eq_refl eq_refl eq_refl eq_refl
                  eq_refl eq_refl) as [H1 [H2 [H3 H4]]].
    split; [|split; [exact H2 | exact H3]].
    assert (Hs : shares_monitor_set
                   (addon (exec ProxyAddon.init (Examples.world_blocking "bet.example")))
                 = true).
    { rewrite (proj1 (init_shares _)). apply negb_true_iff, bool_decide_eq_false_2.
      cbn. apply non_empty_singleton_L. }
    unfold is_blocked. apply bool_decide_eq_true_2. rewrite H4, Hs.
    cbn [netloc]. set_solver.
  - split; vm_compute; reflexivity.
Defined.

(** On the connection path the auto-block is a call of [block_domain],
    made exactly when the verdict is flagged, the confidence is above 0.7
    and the host is not yet in the blocked set. *)
Lemma connection_auto_block (ml_predictor : option predictor) (conn : Conn) (env : Probe)
    (w : World) :
  let hostname := resolve_hostname conn env in
  let cache_key := hostname ++ ":" ++ pretty (raddr_port conn) in
  let r := predict_or_default ml_predictor (db w) ("http://" ++ hostname) in
  is_local (raddr_ip conn) = false ->
  recently_checked (connections_cache (monitor w)) cache_key (now_check env) = false ->
  DatabaseManager.db_up (db w) = true ->
  if (snd r && gt (fst r) 0.7%float && negb (is_blocked hostname w))%bool
  then is_blocked hostname (exec (_analyze_connection ml_predictor conn env) w) = true /\
       In ("http://" ++ hostname)
          (map fst (DatabaseManager.blocked_sites
                      (db (exec (_analyze_connection ml_predictor conn env) w))))
  else blocked_domains (monitor (exec (_analyze_connection ml_predictor conn env) w))
         = blocked_domains (monitor w) /\
       DatabaseManager.blocked_sites (db (exec (_analyze_connection ml_predictor conn env) w))
         = DatabaseManager.blocked_sites (db w) /\
       hosts_text (exec (_analyze_connection ml_predictor conn env) w) = hosts_text w.
Proof.
  cbv zeta. intros Hloc Hrec Hup.
  unfold exec at 1 2 3 4 5. rewrite analyze_connection_run. cbv zeta.
  rewrite Hloc, Hrec, Hup.
  destruct (_ && _ && _)%bool; cbn [snd].
  - unfold is_blocked. cbn [monitor with_stdout db].
    rewrite block_domain_monitor, block_domain_db. cbn.
    split; [apply bool_decide_eq_true_2; set_solver|].
    apply add_blocked_site_In. exact Hup.
  - repeat split.
Qed.

(** On the proxy path nothing is added to the addon's set unless the
    verdict is flagged with confidence above 0.8. *)
Lemma proxy_no_auto_block_at_or_below (urlparse : string -> result ParseResult)
    (ml_predictor : option predictor) (flow : ProxyAddon.HTTPFlow) (now : float) (w : World) :
  addon_blocked_domains (exec (ProxyAddon.response urlparse ml_predictor flow now) w)
    <> addon_blocked_domains w ->
  exists d r, snd r = true /\ gt (fst r) 0.8%float = true /\
    In (d, fst r, snd r, false)
       (map (fun l => (DatabaseManager.det_url l, DatabaseManager.det_confidence l,
                       DatabaseManager.det_is_gambling l, DatabaseManager.det_blocked l))
          (DatabaseManager.detection_logs
             (db (exec (ProxyAddon.response urlparse ml_predictor flow now) w)))).
Proof.
  unfold exec. rewrite response_run.
  destruct (ProxyAddon.request_info flow) as [info|]; [|unfold addon_blocked_domains, say; simpl; congruence].
  destruct (ProxyAddon.request_start_time flow) as [start|]; [|unfold addon_blocked_domains, say; simpl; congruence].
  destruct (ProxyAddon.flow_response flow) as [resp|]; [|unfold addon_blocked_domains, say; simpl; congruence].
  destruct (ProxyAddon.text_if_content _ _) as [body|e]; [|unfold addon_blocked_domains, say; simpl; congruence].
  destruct (ProxyAddon.size_if_content _) as [size|e]; [|unfold addon_blocked_domains, say; simpl; congruence].
  destruct (urlparse _) as [parsed|e]; [|unfold addon_blocked_domains, say; simpl; congruence].
  destruct (DatabaseManager.db_up (db w)); [|unfold addon_blocked_domains, say; simpl; congruence].
  cbv zeta. destruct ml_predictor as [f|]; [|unfold addon_blocked_domains, say; simpl; congruence].
  destruct (f _ _ _ _) as [r|e]; [|unfold addon_blocked_domains, say; simpl; congruence].
  destruct (snd r && gt (fst r) 0.8%float)%bool eqn:E; [|unfold addon_blocked_domains, say; simpl; congruence].
  apply andb_true_iff in E. destruct E as [E1 E2].
  intros _. exists (ProxyAddon.ri_url info), r. split; [exact E1|]. split; [exact E2|].
  cbn [snd]. unfold say. cbn [db with_stdout].
  rewrite (proj1 (add_blocked_domain_rest _ _)). cbn.
  rewrite map_app. apply in_or_app. right. left. reflexivity.
Qed.

(** *** The dedup cache *)

Lemma timedelta_seconds_split (days secs us : Z) :
  0 <= secs < 86400 -> 0 <= us < 1000000 ->
  timedelta_seconds ((days * 86400 + secs) * 1000000 + us) = secs.
Proof.
  intros Hs Hu. unfold timedelta_seconds.
  replace (((days * 86400 + secs) * 1000000 + us) / 1000000) with (days * 86400 + secs)
    by (apply Z.div_unique with us; lia).
  rewrite Z.add_comm, Z.mod_add by lia. apply Z.mod_small. lia.
Qed.

(** Within the window the second sighting is dropped: nothing is
    evaluated, logged or changed. *)
Lemma dedup_suppresses_within_window (ml_predictor : option predictor) (conn : Conn)
    (env : Probe) (w : World) (last_check : datetime) :
  connections_cache (monitor w)
    !! (resolve_hostname conn env ++ ":" ++ pretty (raddr_port conn)) = Some last_check ->
  0 <= now_check env - last_check < 300 * 1000000 ->
  _analyze_connection ml_predictor conn env w = (Ok tt, w).
Proof.
  intros Hc Hw. rewrite analyze_connection_run. cbv zeta.
  destruct (is_local _); [reflexivity|].
  unfold recently_checked. rewrite Hc.
  replace (timedelta_seconds (now_check env - last_check) <? 300) with true; [reflexivity|].
  symmetry. apply Z.ltb_lt. unfold timedelta_seconds.
  assert (0 <= (now_check env - last_check) / 1000000 < 300) as H.
  { split; [apply Z.div_pos; lia | apply Z.div_lt_upper_bound; lia]. }
  rewrite Z.mod_small by lia. lia.
Qed.

(** From 300 seconds up to one day after the last check the sighting is
    processed again: the cache entry is refreshed and a detection is
    logged. *)
Lemma dedup_allows_after_window (ml_predictor : option predictor) (conn : Conn)
    (env : Probe) (w : World) (last_check : datetime) :
  connections_cache (monitor w)
    !! (resolve_hostname conn env ++ ":" ++ pretty (raddr_port conn)) = Some last_check ->
  300 * 1000000 <= now_check env - last_check < 86400 * 1000000 ->
  recently_checked (connections_cache (monitor w))
    (resolve_hostname conn env ++ ":" ++ pretty (raddr_port conn)) (now_check env) = false.
Proof.
  intros Hc Hw. unfold recently_checked. rewrite Hc.
  apply Z.ltb_ge. unfold timedelta_seconds.
  assert (300 <= (now_check env - last_check) / 1000000 < 86400) as H.
  { split; [apply Z.div_le_lower_bound; lia | apply Z.div_lt_upper_bound; lia]. }
  rewrite Z.mod_small by lia. lia.
Qed.

(** C7 (defect of the dedup test).  The test reads the [seconds]
    component of the elapsed time, so whole days do not count: a sighting
    [days] days and fewer than 300 seconds after the last check is dropped,
    for [days = 0] (within the five minutes) and just as well for
    [days >= 1] (long after them), when it should be processed again. *)
Theorem dedup_window_ignores_whole_days (ml_predictor : option predictor) (conn : Conn)
    (env : Probe) (w : World) (last_check : datetime) (days secs us : Z) :
  connections_cache (monitor w)
    !! (resolve_hostname conn env ++ ":" ++ pretty (raddr_port conn)) = Some last_check ->
  0 <= days -> 0 <= secs < 300 -> 0 <= us < 1000000 ->
  now_check env - last_check = (days * 86400 + secs) * 1000000 + us ->
  _analyze_connection ml_predictor conn env w = (Ok tt, w).
Proof.
  intros Hc Hd Hs Hu He. rewrite analyze_connection_run. cbv zeta.
  destruct (is_local _); [reflexivity|].
  unfold recently_checked. rewrite Hc, He.
  rewrite timedelta_seconds_split by lia.
  replace (secs <? 300) with true by (symmetry; apply Z.ltb_lt; lia).
  reflexivity.
Qed.

(** The failing input: the same endpoint seen again one day and ten
    seconds (86410 s) after it was last checked. *)
Lemma dedup_window_ignores_whole_days_witness :
  _analyze_connection
    (Some (Examples.app_predictor (Some (Examples.constant_pipeline 0.9%float))))
    Examples.casino_conn (Examples.probe_at (Examples.epoch_us + 86410 * 1000000))
    (Examples.world_checked_at Examples.epoch_us)
  = (Ok tt, Examples.world_checked_at Examples.epoch_us).
Proof.
  apply (dedup_window_ignores_whole_days
           (Some (Examples.app_predictor (Some (Examples.constant_pipeline 0.9%float))))
           Examples.casino_conn (Examples.probe_at (Examples.epoch_us + 86410 * 1000000))
           (Examples.world_checked_at Examples.epoch_us) Examples.epoch_us 1 10 0).
  - vm_compute. reflexivity.
  - lia.
  - lia.
  - lia.
  - vm_compute. reflexivity.
Defined.

(** *** The blocked field of detection records *)

Lemma add_blocked_site_detection_logs (url : string) (reason : option string)
    (d : DatabaseManager.t) :
  DatabaseManager.detection_logs (snd (DatabaseManager.add_blocked_site url reason d))
  = DatabaseManager.detection_logs d.
Proof.
  unfold DatabaseManager.add_blocked_site.
  destruct (DatabaseManager.db_up d); [|reflexivity].
  destruct (in_list _ _); reflexivity.
Qed.

(** C10.  Every detection record that the [response] hook persists has
    [blocked = False], whatever the verdict (so also when the hook
    auto-blocks the domain right after); and every detection record that
    [_analyze_connection] persists carries the membership of the host in
    the blocked set as it was when the call began, before any auto-block
    of that call. *)
Theorem detection_blocked_field
    (urlparse : string -> result ParseResult) (ml_predictor : option predictor)
    (flow : ProxyAddon.HTTPFlow) (now : float) (conn : Conn) (env : Probe) (w : World) :
  (exists new,
     DatabaseManager.detection_logs
       (db (exec (ProxyAddon.response urlparse ml_predictor flow now) w))
     = (DatabaseManager.detection_logs (db w) ++ new)%list /\
     Forall (fun l => DatabaseManager.det_blocked l = false) new) /\
  (exists new,
     DatabaseManager.detection_logs
       (db (exec (_analyze_connection ml_predictor conn env) w))
     = (DatabaseManager.detection_logs (db w) ++ new)%list /\
     Forall (fun l => DatabaseManager.det_blocked l
                      = is_blocked (resolve_hostname conn env) w) new).
Proof.
  split.
  - unfold exec. rewrite response_run.
    destruct (ProxyAddon.request_info flow) as [info|];
      [|exists []; split; [symmetry; apply app_nil_r | constructor]].
    destruct (ProxyAddon.request_start_time flow) as [start|];
      [|exists []; split; [symmetry; apply app_nil_r | constructor]].
    destruct (ProxyAddon.flow_response flow) as [resp|];
      [|exists []; split; [symmetry; apply app_nil_r | constructor]].
    destruct (ProxyAddon.text_if_content _ _) as [body|e];
      [|exists []; split; [symmetry; apply app_nil_r | constructor]].
    destruct (ProxyAddon.size_if_content _) as [size|e];
      [|exists []; split; [symmetry; apply app_nil_r | constructor]].
    destruct (urlparse _) as [parsed|e];
      [|exists []; split; [symmetry; apply app_nil_r | constructor]].
    destruct (DatabaseManager.db_up (db w));
      [|exists []; split; [symmetry; apply app_nil_r | constructor]].
    cbv zeta. destruct ml_predictor as [f|];
      [|exists []; split; [symmetry; apply app_nil_r | constructor]].
    destruct (f _ _ _ _) as [r|e];
      [|exists []; split; [symmetry; apply app_nil_r | constructor]].
    exists [proxy_detection info resp body size r].
    destruct (snd r && gt (fst r) 0.8%float)%bool;
      [|split; [reflexivity | repeat constructor]].
    cbn [snd]. unfold say. cbn [db with_stdout].
    rewrite (proj1 (add_blocked_domain_rest _ _)).
    split; [reflexivity | repeat constructor].
  - unfold exec. rewrite analyze_connection_run. cbv zeta.
    destruct (is_local _);
      [exists []; split; [symmetry; apply app_nil_r | constructor]|].
    destruct (recently_checked _ _ _);
      [exists []; split; [symmetry; apply app_nil_r | constructor]|].
    destruct (DatabaseManager.db_up (db w));
      [|exists []; split; [symmetry; apply app_nil_r | constructor]].
    eexists [_].
    destruct (_ && _ && _)%bool.
    + cbn [snd db with_stdout]. rewrite block_domain_db, add_blocked_site_detection_logs.
      split; [reflexivity | repeat constructor].
    + split; [reflexivity | repeat constructor].
Qed.

(** *** The throttled bandwidth log *)

(** [get_real_time_stats], case by case. *)
Lemma get_real_time_stats_run (env : StatsProbe) (w : World) :
  get_real_time_stats env w =
  if DatabaseManager.db_up (db w) then
    match psutil_net env with
    | Raise e => (Ok tt, say w (MsgErrorStats e))
    | Ok io =>
        let m1 := with_last_net_check (monitor w)
                    (Some {| nc_time := current_time env;
                             nc_bytes_sent := bytes_sent io;
                             nc_bytes_recv := bytes_recv io |}) in
        if bandwidth_log_due (_last_bandwidth_log (monitor w)) (current_time env)
        then (Ok tt,
              with_monitor
                (with_db w
                   (DatabaseManager.with_bandwidth_history (db w)
                      (DatabaseManager.bandwidth_history (db w)
                         ++ [bandwidth_row_of w io (current_time env)])))
                (with_last_bandwidth_log m1 (Some (current_time env))))
        else (Ok tt, with_monitor w m1)
    end
  else (Raise OperationalError, w).
Proof.
  unfold get_real_time_stats, bandwidth_row_of, say,
    DatabaseManager.get_statistics, DatabaseManager.get_connections,
    DatabaseManager.log_bandwidth.
  unfold_m.
  destruct (DatabaseManager.db_up (db w)) eqn:Hup; [|reflexivity].
  destruct (psutil_net env) as [io|e]; [|reflexivity].
  cbn [monitor with_monitor _last_bandwidth_log with_last_net_check db].
  destruct (bandwidth_log_due _ _);
    repeat (progress (cbn [db with_db with_monitor DatabaseManager.db_up
                          DatabaseManager.with_bandwidth_history];
                      rewrite ?Hup));
    reflexivity.
Qed.

(** Over a run of calls that all reach the database and [psutil], the
    number of samples added is the number of calls that meet the logging
    condition. *)
Lemma poll_stats_samples (envs : list StatsProbe) (w : World) :
  DatabaseManager.db_up (db w) = true ->
  Forall (fun env => exists io, psutil_net env = Ok io) envs ->
  length (DatabaseManager.bandwidth_history (db (poll_stats envs w)))
  = (length (DatabaseManager.bandwidth_history (db w))
     + samples_due (_last_bandwidth_log (monitor w)) (map current_time envs))%nat.
Proof.
  revert w. induction envs as [|env envs IH]; intros w Hup Hall.
  - simpl. lia.
  - inversion Hall as [|? ? [io Hio] Hrest]; subst.
    cbn [poll_stats map samples_due]. unfold exec.
    rewrite get_real_time_stats_run, Hup, Hio. cbv zeta.
    destruct (bandwidth_log_due _ _); cbn [snd].
    + rewrite IH by (assumption || exact Hup). cbn. rewrite length_app. simpl. lia.
    + rewrite IH by (assumption || exact Hup). reflexivity.
Qed.

Lemma ticks_in_secondsb_sound (clock : nat -> float) (n : nat) :
  ticks_in_secondsb clock n = true -> ticks_in_seconds clock n.
Proof.
  unfold ticks_in_secondsb, ticks_in_seconds. intros H i j [Hji Hin].
  rewrite forallb_forall in H.
  assert (In i (seq 0 n)) as Hi by (apply in_seq; lia).
  specialize (H i Hi). rewrite forallb_forall in H.
  assert (In j (seq 0 (S i))) as Hj by (apply in_seq; lia).
  specialize (H j Hj). apply Bool.eqb_prop in H. exact H.
Qed.

(** On a clock that ticks in seconds, the calls that meet the logging
    condition are those more than 300 indices after the last logged one. *)
Lemma samples_due_ticks (clock : nat -> float) (bound n a : nat) (last : option nat) :
  ticks_in_seconds clock bound ->
  (a + n <= bound)%nat ->
  match last with Some j => (j <= a)%nat | None => True end ->
  samples_due (option_map clock last) (map clock (seq a n))
  = samples_due_at last (seq a n).
Proof.
  intros Hticks. revert a last. induction n as [|n IH]; intros a last Hb Hl.
  - reflexivity.
  - cbn [seq map samples_due samples_due_at].
    assert (bandwidth_log_due (option_map clock last) (clock a)
            = match last with None => true | Some j => (300 <? a - j)%nat end) as ->.
    { destruct last as [j|]; [|reflexivity]. cbn. apply Hticks. lia. }
    destruct (match last with None => true | Some j => (300 <? a - j)%nat end).
    + f_equal. apply (IH (S a) (Some a)); [lia | cbn; lia].
    + apply IH; [lia | destruct last; [lia | exact I]].
Qed.

(** C8.  A call of [get_real_time_stats] either persists nothing and
    keeps the time of the last persisted sample, or persists one sample,
    records the current time as that of the last persisted sample, and
    then either no sample had been persisted before or more than 300
    seconds have elapsed since the last one; the first call persists.
    Called once per second for ten minutes (600 calls) on a fresh monitor,
    it persists exactly 2 samples. *)
Theorem bandwidth_log_throttled :
  (forall (env : StatsProbe) (w : World),
     (DatabaseManager.bandwidth_history (db (exec (get_real_time_stats env) w))
        = DatabaseManager.bandwidth_history (db w) /\
      _last_bandwidth_log (monitor (exec (get_real_time_stats env) w))
        = _last_bandwidth_log (monitor w)) \/
     (exists row,
        DatabaseManager.bandwidth_history (db (exec (get_real_time_stats env) w))
          = (DatabaseManager.bandwidth_history (db w) ++ [row])%list /\
        _last_bandwidth_log (monitor (exec (get_real_time_stats env) w))
          = Some (current_time env) /\
        match _last_bandwidth_log (monitor w) with
        | None => True
        | Some last =>
            PrimFloat.ltb 300%float (PrimFloat.sub (current_time env) last) = true
        end)) /\
  (forall (env : StatsProbe) (w : World) (io : NetReading),
     DatabaseManager.db_up (db w) = true ->
     psutil_net env = Ok io ->
     _last_bandwidth_log (monitor w) = None ->
     DatabaseManager.bandwidth_history (db (exec (get_real_time_stats env) w))
       = (DatabaseManager.bandwidth_history (db w)
            ++ [bandwidth_row_of w io (current_time env)])%list) /\
  (forall (clock : nat -> float) (envs : list StatsProbe) (w : World),
     ticks_in_seconds clock 600 ->
     DatabaseManager.db_up (db w) = true ->
     _last_bandwidth_log (monitor w) = None ->
     Forall (fun env => exists io, psutil_net env = Ok io) envs ->
     map current_time envs = map clock (seq 0 600) ->
     length (DatabaseManager.bandwidth_history (db (poll_stats envs w)))
     = (length (DatabaseManager.bandwidth_history (db w)) + 2)%nat).
Proof.
  split; [|split].
  - intros env w. unfold exec. rewrite get_real_time_stats_run.
    destruct (DatabaseManager.db_up (db w)); [|left; split; reflexivity].
    destruct (psutil_net env) as [io|e]; [|left; split; reflexivity].
    cbv zeta. destruct (bandwidth_log_due _ _) eqn:Hdue.
    + right. eexists. split; [reflexivity|]. split; [reflexivity|].
      cbn. destruct (_last_bandwidth_log (monitor w)); [exact Hdue | exact I].
    + left. split; reflexivity.
  - intros env w io Hup Hio Hlast. unfold exec.
    rewrite get_real_time_stats_run, Hup, Hio, Hlast. reflexivity.
  - intros clock envs w Hticks Hup Hlast Hall Htimes.
    rewrite poll_stats_samples by assumption.
    rewrite Hlast, Htimes.
    pose proof (samples_due_ticks clock 600 600 0 None Hticks (Nat.le_refl 600) I) as Hs.
    cbn [option_map] in Hs. rewrite Hs.
    replace (samples_due_at None (seq 0 600)) with 2%nat by (vm_compute; reflexivity).
    reflexivity.
Qed.

(** Six hundred calls, one per second, on a freshly started process. *)
Lemma bandwidth_log_throttled_witness :
  length (DatabaseManager.bandwidth_history
            (db (poll_stats (Examples.stats_probes Examples.epoch 600)
                   (Examples.fresh_world HostsWritable))))
  = (length (DatabaseManager.bandwidth_history (db (Examples.fresh_world HostsWritable))) + 2)%nat.
Proof.
  apply (proj2 (proj2 bandwidth_log_throttled) (seconds_after Examples.epoch)).
  - apply ticks_in_secondsb_sound. vm_compute. reflexivity.
  - reflexivity.
  - reflexivity.
  - unfold Examples.stats_probes. apply List.Forall_forall. intros env Hin.
    apply in_map_iff in Hin. destruct Hin as [t [<- _]]. eexists. reflexivity.
  - unfold Examples.stats_probes. rewrite List.map_map. apply List.map_id.
Defined.

(* ===================================================================== *)
(** ** Further properties of the code *)
(* ===================================================================== *)

Import Notions.

(** *** Strings and lines *)

Lemma str_app_cons (x : ascii) (a b : string) : String x a ++ b = String x (a ++ b).
Proof. reflexivity. Qed.

Lemma str_app_nil_l (a : string) : "" ++ a = a.
Proof. reflexivity. Qed.

Lemma str_app_assoc (a b c : string) : (a ++ b) ++ c = a ++ (b ++ c).
Proof.
  induction a as [|x a IH]; [reflexivity|].
  rewrite !str_app_cons, IH. reflexivity.
Qed.

Lemma str_app_nil_r (a : string) : a ++ "" = a.
Proof.
  induction a as [|x a IH]; [reflexivity|].
  rewrite str_app_cons, IH. reflexivity.
Qed.

Lemma no_newline_app (a b : string) :
  no_newline (a ++ b) = (no_newline a && no_newline b)%bool.
Proof.
  induction a as [|x a IH]; [reflexivity|].
  rewrite str_app_cons. simpl. rewrite IH. apply andb_assoc.
Qed.

Lemma truthy_str_app_l (a b : string) : truthy_str a = true -> truthy_str (a ++ b) = true.
Proof. destruct a; [discriminate | reflexivity]. Qed.

(** A text without line feed is read as one line, joined to what was
    pending. *)
Lemma readlines_aux_no_newline (b cur : string) :
  no_newline b = true ->
  readlines_aux cur b = if truthy_str (cur ++ b) then [cur ++ b] else [].
Proof.
  revert cur. induction b as [|c b IH]; intros cur Hb; simpl in *.
  - rewrite str_app_nil_r. reflexivity.
  - apply andb_true_iff in Hb. destruct Hb as [Hc Hb].
    apply negb_true_iff in Hc. rewrite Hc. rewrite IH by exact Hb.
    rewrite str_app_assoc. reflexivity.
Qed.

(** A line feed ends the pending line. *)
Lemma readlines_aux_line (b cur rest : string) :
  no_newline b = true ->
  readlines_aux cur ((b ++ nl) ++ rest) = (cur ++ b ++ nl) :: readlines_aux "" rest.
Proof.
  revert cur. induction b as [|c b IH]; intros cur Hb; simpl in *.
  - reflexivity.
  - apply andb_true_iff in Hb. destruct Hb as [Hc Hb].
    apply negb_true_iff in Hc. rewrite Hc. rewrite IH by exact Hb.
    rewrite str_app_assoc. reflexivity.
Qed.

Lemma readlines_aux_well_split (s cur : string) :
  no_newline cur = true -> well_split (readlines_aux cur s).
Proof.
  revert cur. induction s as [|c s IH]; intros cur Hcur; simpl.
  - destruct cur; simpl; [constructor|].
    apply split_last; [exact Hcur | discriminate].
  - destruct (Ascii.eqb c "010") eqn:Hc.
    + apply Ascii.eqb_eq in Hc. subst c.
      apply (split_cons cur); [exact Hcur | apply IH; reflexivity].
    + apply IH. rewrite no_newline_app, Hcur. simpl. rewrite Hc. reflexivity.
Qed.

Lemma well_split_filter (P : string -> bool) (ls : list string) :
  well_split ls -> well_split (List.filter P ls).
Proof.
  induction 1 as [|l Hl Hne|b ls Hb Hls IH]; simpl.
  - constructor.
  - destruct (P l); constructor; assumption.
  - destruct (P (b ++ nl)); [constructor; assumption | exact IH].
Qed.

(** Writing well-split lines back and reading them again gives the same
    lines. *)
Lemma readlines_concat (ls : list string) :
  well_split ls -> readlines (String.concat "" ls) = ls.
Proof.
  unfold readlines. induction 1 as [|l Hl Hne|b ls Hb Hls IH].
  - reflexivity.
  - simpl. rewrite readlines_aux_no_newline by exact Hl. simpl.
    destruct l; [congruence | reflexivity].
  - destruct ls as [|l' ls'].
    + simpl. rewrite <- (str_app_nil_r (b ++ nl)) at 1.
      rewrite readlines_aux_line by exact Hb. reflexivity.
    + change (String.concat "" ((b ++ nl) :: l' :: ls'))
        with ((b ++ nl) ++ "" ++ String.concat "" (l' :: ls')).
      change ("" ++ String.concat "" (l' :: ls')) with (String.concat "" (l' :: ls')).
      rewrite readlines_aux_line by exact Hb. rewrite IH. reflexivity.
Qed.

(** The text is the concatenation of its lines. *)
Lemma concat_readlines_aux (s cur : string) :
  String.concat "" (readlines_aux cur s) = cur ++ s.
Proof.
  revert cur. induction s as [|c s IH]; intros cur; simpl.
  - rewrite str_app_nil_r. destruct cur; reflexivity.
  - assert ((cur ++ String c "") ++ s = cur ++ String c s) as Hjoin
      by (rewrite str_app_assoc; reflexivity).
    destruct (Ascii.eqb c "010") eqn:Hc.
    + pose proof (IH "") as IH0. rewrite str_app_nil_l in IH0.
      destruct (readlines_aux "" s) as [|l ls] eqn:E.
      * simpl in IH0. subst s. simpl. reflexivity.
      * change (String.concat "" ((cur ++ String c "") :: l :: ls))
          with ((cur ++ String c "") ++ "" ++ String.concat "" (l :: ls)).
        rewrite str_app_nil_l, IH0. exact Hjoin.
    + rewrite IH. exact Hjoin.
Qed.

Lemma concat_readlines (s : string) : String.concat "" (readlines s) = s.
Proof. apply (concat_readlines_aux s ""). Qed.

(** *** The hosts file under [block_domain] and [unblock_domain] *)

Lemma prefix_empty (s : string) : String.prefix "" s = true.
Proof. destruct s; reflexivity. Qed.

Lemma contains_empty (s : string) : contains "" s = true.
Proof. destruct s; reflexivity. Qed.

Lemma prefix_refl (d : string) : String.prefix d d = true.
Proof.
  induction d as [|x d IH]; [reflexivity|].
  simpl. destruct (ascii_dec x x); [exact IH | congruence].
Qed.

Lemma prefix_app (d a b : string) :
  String.prefix d a = true -> String.prefix d (a ++ b) = true.
Proof.
  revert a. induction d as [|x d IH]; intros a H; [apply prefix_empty|].
  destruct a as [|y a]; [discriminate|].
  rewrite str_app_cons. simpl in *.
  destruct (ascii_dec x y); [apply IH; exact H | discriminate].
Qed.

Lemma contains_unfold (d s : string) :
  contains d s = if String.prefix d s then true
                 else match s with
                      | EmptyString => false
                      | String _ s' => contains d s'
                      end.
Proof. destruct s; reflexivity. Qed.

Lemma contains_app_l (d a b : string) :
  contains d a = true -> contains d (a ++ b) = true.
Proof.
  induction a as [|y a IH]; intros H.
  - rewrite contains_unfold in H. destruct d; [apply contains_empty | discriminate].
  - rewrite contains_unfold in H. rewrite str_app_cons, contains_unfold.
    destruct (String.prefix d (String y a)) eqn:Hp.
    + change (String y (a ++ b)) with (String y a ++ b).
      rewrite (prefix_app _ _ b Hp). reflexivity.
    + destruct (String.prefix d (String y (a ++ b))); [reflexivity | apply IH; exact H].
Qed.

Lemma contains_app_r (d a b : string) :
  contains d b = true -> contains d (a ++ b) = true.
Proof.
  intros H. induction a as [|y a IH]; [exact H|].
  rewrite str_app_cons, contains_unfold.
  destruct (String.prefix d (String y (a ++ b))); [reflexivity | exact IH].
Qed.

Lemma contains_self (d : string) : contains d d = true.
Proof. rewrite contains_unfold, prefix_refl. reflexivity. Qed.

(** A text that does not start with a line feed, and has none, is no
    prefix of more text once a line feed follows. *)
Lemma prefix_app_nl (d p : string) :
  no_newline d = true -> d <> "" ->
  String.prefix d (p ++ nl) = String.prefix d p.
Proof.
  revert d. induction p as [|c p IH]; intros d Hd Hne.
  - destruct d as [|x d]; [congruence|]. simpl in Hd.
    apply andb_true_iff in Hd. destruct Hd as [Hx _]. apply negb_true_iff in Hx.
    simpl. destruct (ascii_dec x _) as [->|]; [|reflexivity].
    rewrite Ascii.eqb_refl in Hx. discriminate.
  - destruct d as [|x d]; [congruence|]. rewrite str_app_cons. simpl.
    destruct (ascii_dec x c); [|reflexivity].
    destruct d as [|x' d']; [rewrite !prefix_empty; reflexivity|].
    apply IH; [|discriminate].
    simpl in Hd. apply andb_true_iff in Hd. apply Hd.
Qed.

Lemma contains_app_nl (d p : string) :
  no_newline d = true -> d <> "" -> contains d (p ++ nl) = contains d p.
Proof.
  intros Hd Hne. induction p as [|c p IH].
  - rewrite str_app_nil_l. destruct d as [|x d]; [congruence|].
    simpl in Hd. apply andb_true_iff in Hd. destruct Hd as [Hx _].
    apply negb_true_iff in Hx.
    unfold nl. simpl. destruct (ascii_dec x _) as [->|]; [|reflexivity].
    rewrite Ascii.eqb_refl in Hx. discriminate.
  - rewrite str_app_cons.
    rewrite (contains_unfold d (String c (p ++ nl))), (contains_unfold d (String c p)).
    change (String c (p ++ nl)) with (String c p ++ nl).
    rewrite prefix_app_nl by assumption. rewrite IH. reflexivity.
Qed.

(** A member of a list of strings is part of their concatenation. *)
Lemma contains_concat (d l : string) (ls : list string) :
  In l ls -> contains d l = true -> contains d (String.concat "" ls) = true.
Proof.
  induction ls as [|x ls IH]; intros Hin Hc; [destruct Hin|].
  destruct ls as [|y ls'].
  - destruct Hin as [->|[]]. exact Hc.
  - change (String.concat "" (x :: y :: ls'))
      with (x ++ "" ++ String.concat "" (y :: ls')).
    rewrite str_app_nil_l. destruct Hin as [->|Hin].
    + apply contains_app_l. exact Hc.
    + apply contains_app_r. apply IH; assumption.
Qed.

(** A text that does not mention [d] has no line that mentions it. *)
Lemma lines_do_not_mention (d s : string) :
  contains d s = false ->
  Forall (fun l => contains d l = false) (readlines s).
Proof.
  intros H. apply List.Forall_forall. intros l Hin.
  destruct (contains d l) eqn:E; [|reflexivity].
  pose proof (contains_concat d l (readlines s) Hin E) as Hc.
  rewrite concat_readlines in Hc. congruence.
Qed.

Lemma filter_all (P : string -> bool) (ls : list string) :
  Forall (fun l => P l = true) ls -> List.filter P ls = ls.
Proof.
  induction 1 as [|l ls Hl Hls IH]; simpl; [reflexivity|].
  rewrite Hl, IH. reflexivity.
Qed.

(** Text after a line feed is split on its own. *)
Lemma readlines_aux_after_nl (t cur rest : string) :
  readlines_aux cur ((t ++ nl) ++ rest)
  = (readlines_aux cur (t ++ nl) ++ readlines_aux "" rest)%list.
Proof.
  revert cur. induction t as [|c t IH]; intros cur.
  - reflexivity.
  - rewrite !str_app_cons. simpl. destruct (Ascii.eqb c "010").
    + rewrite IH. reflexivity.
    + apply IH.
Qed.

Lemma block_domain_hosts_mode (d : string) (w : World) :
  hosts_mode (exec (block_domain d) w) = hosts_mode w.
Proof.
  unfold exec. rewrite block_domain_run. destruct (hosts_mode w) eqn:E; cbn; exact E.
Qed.

Lemma block_domain_hosts_text (d : string) (w : World) :
  hosts_mode w = HostsWritable ->
  hosts_text (exec (block_domain d) w)
  = (hosts_text w ++ nl ++ "127.0.0.1 " ++ d) ++ nl ++ "127.0.0.1 www." ++ d.
Proof. intros H. unfold exec. rewrite block_domain_run, H. reflexivity. Qed.

Lemma unblock_domain_hosts_text (d : string) (w : World) :
  hosts_mode w = HostsWritable ->
  hosts_text (exec (unblock_domain d) w)
  = String.concat ""
      (List.filter (fun line => negb (contains d line)) (readlines (hosts_text w))).
Proof. intros H. unfold exec. rewrite unblock_domain_run, H. reflexivity. Qed.

(** X1.  After [unblock_domain d] on a writable hosts file, the lines of
    the file are exactly the former lines that do not contain [d] as a
    substring, in their order: every line mentioning [d] anywhere is gone,
    whichever host it was for. *)
Theorem unblock_domain_keeps_exactly_other_lines (d : string) (w : World) :
  hosts_mode w = HostsWritable ->
  readlines (hosts_text (exec (unblock_domain d) w))
  = List.filter (fun line => negb (contains d line)) (readlines (hosts_text w)).
Proof.
  intros Hmode. rewrite unblock_domain_hosts_text by exact Hmode.
  apply readlines_concat, well_split_filter.
  apply (readlines_aux_well_split (hosts_text w) ""). reflexivity.
Qed.

(** Unblocking [bet.com] also drops the entry of [sportsbet.com]. *)
Lemma unblock_domain_keeps_exactly_other_lines_witness :
  readlines (hosts_text (exec (unblock_domain "bet.com") MoreExamples.sample_hosts_world))
  = ["10.0.0.7 intranet" ++ nl].
Proof.
  rewrite (unblock_domain_keeps_exactly_other_lines "bet.com" MoreExamples.sample_hosts_world eq_refl).
  reflexivity.
Defined.

Lemma unblock_domain_db (d : string) (w : World) :
  db (exec (unblock_domain d) w)
  = snd (DatabaseManager.remove_blocked_site ("http://" ++ d) (db w)).
Proof.
  unfold exec. rewrite unblock_domain_run. destruct (hosts_mode w); reflexivity.
Qed.

Lemma remove_after_add (u : string) (r : option string) (d : DatabaseManager.t) :
  DatabaseManager.db_up d = true ->
  ~ In u (map fst (DatabaseManager.blocked_sites d)) ->
  DatabaseManager.blocked_sites
    (snd (DatabaseManager.remove_blocked_site u
            (snd (DatabaseManager.add_blocked_site u r d))))
  = DatabaseManager.blocked_sites d.
Proof.
  intros Hup Hnot.
  unfold DatabaseManager.add_blocked_site. rewrite Hup.
  destruct (in_list u _) eqn:E; [apply in_list_In in E; contradiction|].
  unfold DatabaseManager.remove_blocked_site. cbn. rewrite Hup. cbn.
  rewrite List.filter_app. cbn. rewrite String.eqb_refl. cbn. rewrite app_nil_r.
  clear E. induction (DatabaseManager.blocked_sites d) as [|x xs IH]; [reflexivity|].
  cbn in *. destruct (String.eqb (fst x) u) eqn:Ex.
  - apply String.eqb_eq in Ex. tauto.
  - cbn. f_equal. apply IH. tauto.
Qed.

(** X2.  On a machine where everything works, [block_domain d] followed
    by [unblock_domain d], for a domain that was not blocked and that the
    hosts file did not mention, restores the in-memory set and the
    persisted table, and leaves the hosts file with one more line feed
    than it had. *)
Theorem block_then_unblock_restores_all_but_newline (d : string) (w : World) :
  hosts_mode w = HostsWritable ->
  DatabaseManager.db_up (db w) = true ->
  d ∉ blocked_domains (monitor w) ->
  ~ In ("http://" ++ d) (map fst (DatabaseManager.blocked_sites (db w))) ->
  contains d (hosts_text w) = false ->
  no_newline d = true ->
  d <> "" ->
  blocked_domains (monitor (exec (unblock_domain d) (exec (block_domain d) w)))
    = blocked_domains (monitor w) /\
  DatabaseManager.blocked_sites (db (exec (unblock_domain d) (exec (block_domain d) w)))
    = DatabaseManager.blocked_sites (db w) /\
  hosts_text (exec (unblock_domain d) (exec (block_domain d) w)) = hosts_text w ++ nl.
Proof.
  intros Hmode Hup Hset Hsite Hhosts Hd Hne.
  split; [|split].
  - rewrite unblock_domain_monitor, block_domain_monitor. cbn. set_solver.
  - rewrite unblock_domain_db, block_domain_db.
    apply remove_after_add; assumption.
  - rewrite unblock_domain_hosts_text
      by (rewrite block_domain_hosts_mode; exact Hmode).
    rewrite block_domain_hosts_text by exact Hmode.
    set (A := "127.0.0.1 " ++ d). set (B := "127.0.0.1 www." ++ d).
    assert (((hosts_text w ++ nl ++ A) ++ nl ++ B)
            = (hosts_text w ++ nl) ++ ((A ++ nl) ++ B)) as ->
      by (rewrite !str_app_assoc; reflexivity).
    unfold readlines. rewrite readlines_aux_after_nl.
    assert (no_newline A = true) as HA by (unfold A; rewrite no_newline_app, Hd; reflexivity).
    assert (no_newline B = true) as HB by (unfold B; rewrite no_newline_app, Hd; reflexivity).
    rewrite (readlines_aux_line A "" B HA), (readlines_aux_no_newline B "" HB).
    rewrite !str_app_nil_l.
    assert (truthy_str B = true) as -> by reflexivity.
    rewrite List.filter_app.
    assert (contains d (A ++ nl) = true) as HcA
      by (apply contains_app_l, contains_app_r, contains_self).
    assert (contains d B = true) as HcB by (apply contains_app_r, contains_self).
    cbn [List.filter]. rewrite HcA, HcB. cbn [negb]. rewrite app_nil_r.
    rewrite filter_all.
    + apply (concat_readlines (hosts_text w ++ nl)).
    + pose proof (lines_do_not_mention d (hosts_text w ++ nl)) as Hl.
      rewrite contains_app_nl in Hl by assumption. specialize (Hl Hhosts).
      unfold readlines in Hl. eapply List.Forall_impl; [|exact Hl].
      intros l Hc. cbn in Hc. rewrite Hc. reflexivity.
Qed.

Lemma block_then_unblock_restores_all_but_newline_witness :
  blocked_domains (monitor (exec (unblock_domain "casino.example")
                              (exec (block_domain "casino.example") MoreExamples.sample_hosts_world)))
    = blocked_domains (monitor MoreExamples.sample_hosts_world) /\
  DatabaseManager.blocked_sites
    (db (exec (unblock_domain "casino.example")
           (exec (block_domain "casino.example") MoreExamples.sample_hosts_world)))
    = DatabaseManager.blocked_sites (db MoreExamples.sample_hosts_world) /\
  hosts_text (exec (unblock_domain "casino.example")
                (exec (block_domain "casino.example") MoreExamples.sample_hosts_world))
    = hosts_text MoreExamples.sample_hosts_world ++ nl.
Proof.
  apply (block_then_unblock_restores_all_but_newline "casino.example" MoreExamples.sample_hosts_world).
  - reflexivity.
  - reflexivity.
  - apply not_elem_of_empty.
  - intros [].
  - reflexivity.
  - reflexivity.
  - discriminate.
Defined.

Lemma filter_none (P : string -> bool) (ls : list string) :
  (forall l, P l = false) -> List.filter P ls = [].
Proof.
  intros H. induction ls as [|l ls IH]; simpl; [reflexivity|]. rewrite H. exact IH.
Qed.


Lemma unblock_site_run (urlparse : string -> result ParseResult) (u : string)
    (parsed : ParseResult) (w : World) :
  truthy_str u = true ->
  urlparse u = Ok parsed ->
  Routes.unblock_site urlparse true (Some u) w
  = (Ok (if hosts_missing w
         then Routes.ReplyError 500 (Routes.ErrText "Failed to unblock website")
         else Routes.ReplySuccess ("Unblocked " ++ u)),
     exec (unblock_domain (netloc parsed)) w).
Proof.
  intros Hu Hparse. unfold Routes.unblock_site. rewrite Hu. unfold_m. rewrite Hparse.
  rewrite unblock_domain_run. unfold hosts_missing. destruct (hosts_mode w); reflexivity.
Qed.

(** X3.  The [unblock_site] route, for a posted URL whose [netloc] is
    empty (as [urlparse] gives for a URL without [//]), answers success
    and leaves a writable hosts file empty: the empty domain is a
    substring of every line. *)
Theorem unblock_site_empty_netloc_empties_hosts
    (urlparse : string -> result ParseResult) (u : string) (parsed : ParseResult)
    (w : World) :
  truthy_str u = true ->
  urlparse u = Ok parsed ->
  netloc parsed = "" ->
  hosts_mode w = HostsWritable ->
  eval (Routes.unblock_site urlparse true (Some u)) w
    = Ok (Routes.ReplySuccess ("Unblocked " ++ u)) /\
  hosts_text (exec (Routes.unblock_site urlparse true (Some u)) w) = "".
Proof.
  intros Hu Hparse Hnet Hmode.
  unfold eval, exec at 1. rewrite (unblock_site_run urlparse u parsed w Hu Hparse).
  unfold hosts_missing. rewrite Hmode, Hnet. cbn [fst snd]. split; [reflexivity|].
  rewrite unblock_domain_hosts_text by exact Hmode.
  rewrite filter_none; [reflexivity|].
  intros l. rewrite contains_empty. reflexivity.
Qed.

Lemma unblock_site_empty_netloc_empties_hosts_witness :
  eval (Routes.unblock_site Examples.simple_urlparse true (Some "?"))
       MoreExamples.sample_hosts_world
    = Ok (Routes.ReplySuccess ("Unblocked " ++ "?")) /\
  hosts_text (exec (Routes.unblock_site Examples.simple_urlparse true (Some "?"))
                MoreExamples.sample_hosts_world) = "".
Proof.
  apply (unblock_site_empty_netloc_empties_hosts Examples.simple_urlparse "?"
           {| netloc := ""; path := ""; query := "" |} MoreExamples.sample_hosts_world);
    reflexivity.
Defined.

Lemma add_blocked_site_twice (u : string) (r : option string) (d : DatabaseManager.t) :
  snd (DatabaseManager.add_blocked_site u r (snd (DatabaseManager.add_blocked_site u r d)))
  = snd (DatabaseManager.add_blocked_site u r d).
Proof.
  unfold DatabaseManager.add_blocked_site.
  destruct (DatabaseManager.db_up d) eqn:Hup; cbn; rewrite ?Hup; [|reflexivity].
  destruct (in_list u (map fst (DatabaseManager.blocked_sites d))) eqn:E; cbn.
  - rewrite Hup, E. reflexivity.
  - rewrite Hup. cbn.
    assert (existsb (String.eqb u)
              (map fst (DatabaseManager.blocked_sites d ++ [(u, r)])) = true) as ->;
      [|reflexivity].
    apply (proj2 (in_list_In u _)).
    rewrite map_app. apply in_or_app. right. left. reflexivity.
Qed.

(** X4.  Blocking a domain a second time changes neither the in-memory
    set nor the persisted table and returns what the first call returned;
    but on a writable hosts file the two redirect lines are appended once
    more. *)
Theorem block_domain_twice (d : string) (w : World) :
  blocked_domains (monitor (exec (block_domain d) (exec (block_domain d) w)))
    = blocked_domains (monitor (exec (block_domain d) w)) /\
  db (exec (block_domain d) (exec (block_domain d) w)) = db (exec (block_domain d) w) /\
  eval (block_domain d) (exec (block_domain d) w) = eval (block_domain d) w /\
  (hosts_mode w = HostsWritable ->
   hosts_text (exec (block_domain d) (exec (block_domain d) w))
   = (hosts_text (exec (block_domain d) w) ++ nl ++ "127.0.0.1 " ++ d)
       ++ nl ++ "127.0.0.1 www." ++ d) /\
  (hosts_mode w <> HostsWritable ->
   hosts_text (exec (block_domain d) (exec (block_domain d) w)) = hosts_text w).
Proof.
  split; [|split; [|split; [|split]]].
  - rewrite !block_domain_monitor. cbn. set_solver.
  - rewrite !block_domain_db. apply add_blocked_site_twice.
  - unfold eval. rewrite !block_domain_run. rewrite block_domain_hosts_mode.
    destruct (hosts_mode w); reflexivity.
  - intros Hmode. apply block_domain_hosts_text.
    rewrite block_domain_hosts_mode. exact Hmode.
  - intros Hmode. unfold exec. rewrite !block_domain_run.
    destruct (hosts_mode w) eqn:E; [congruence| |]; cbn; rewrite E; reflexivity.
Qed.

Lemma block_domain_twice_witness :
  hosts_text (exec (block_domain "casino.example")
                (exec (block_domain "casino.example") (Examples.fresh_world HostsWritable)))
  = (hosts_text (exec (block_domain "casino.example") (Examples.fresh_world HostsWritable))
       ++ nl ++ "127.0.0.1 " ++ "casino.example")
      ++ nl ++ "127.0.0.1 www." ++ "casino.example".
Proof.
  apply (proj1 (proj2 (proj2 (proj2
           (block_domain_twice "casino.example" (Examples.fresh_world HostsWritable)))))).
  reflexivity.
Defined.




(** *** The in-memory set and the persisted table *)

Lemma add_blocked_site_urls (x : string) (r : option string) (d : DatabaseManager.t)
    (u : string) :
  DatabaseManager.db_up d = true ->
  In u (map fst (DatabaseManager.blocked_sites (snd (DatabaseManager.add_blocked_site x r d))))
  <-> u = x \/ In u (map fst (DatabaseManager.blocked_sites d)).
Proof.
  intros Hup. unfold DatabaseManager.add_blocked_site. rewrite Hup.
  destruct (in_list _ _) eqn:E; cbn.
  - apply in_list_In in E. split; [tauto | intros [->|]; assumption].
  - rewrite map_app, in_app_iff. cbn. split; [intros [|[|[]]]; auto | intros [|]; auto].
Qed.




Lemma in_sync_block (d : string) (w : World) :
  DatabaseManager.db_up (db w) = true -> in_sync w -> in_sync (exec (block_domain d) w).
Proof.
  intros Hup Hs u. rewrite block_domain_db, block_domain_monitor.
  rewrite add_blocked_site_urls by exact Hup. cbn. rewrite (Hs u). split.
  - intros [->|[x [Hx ->]]]; [exists d | exists x]; split; try reflexivity; set_solver.
  - intros [x [Hx ->]]. apply elem_of_union in Hx. destruct Hx as [Hx|Hx].
    + apply elem_of_singleton in Hx. subst. left. reflexivity.
    + right. exists x. split; [exact Hx | reflexivity].
Qed.



Lemma in_sync_fresh (mode : hosts_access) : in_sync (Examples.fresh_world mode).
Proof.
  intros u. split; [intros [] | intros [d [Hd _]]].
  exact (not_elem_of_empty (C := gset string) d Hd).
Qed.


(** What [netlocs] returns when every stored URL parses. *)
Lemma netlocs_ok (urlparse : string -> result ParseResult)
    (sites : list (string * option string)) :
  (forall u, In u (map fst sites) -> exists p, urlparse u = Ok p) ->
  exists ds, netlocs urlparse sites = Ok ds /\
    forall x, In x ds <-> exists u p, In u (map fst sites) /\ urlparse u = Ok p /\ netloc p = x.
Proof.
  induction sites as [|site sites IH]; intros H.
  - exists []. split; [reflexivity|]. intros x. split; [intros [] | intros [u [p [[] _]]]].
  - destruct (H (fst site)) as [p Hp]; [left; reflexivity|].
    destruct IH as [ds [Hds Hin]]; [intros u Hu; apply H; right; exact Hu|].
    exists (netloc p :: ds). split.
    + cbn. rewrite Hp. cbn. rewrite Hds. reflexivity.
    + intros x. cbn. rewrite Hin. split.
      * intros [<-|[u [q [Hu [Hq Hn]]]]].
        -- exists (fst site), p. auto.
        -- exists u, q. auto.
      * intros [u [q [[<-|Hu] [Hq Hn]]]].
        -- left. congruence.
        -- right. exists u, q. auto.
Qed.

(** X8.  A restart recovers the blocked set: when the persisted table
    agrees with the in-memory set and [urlparse] gives back the domain of
    each stored URL, [load_blocked_sites] run on any monitor state over the
    same database rebuilds exactly that set. *)
Theorem load_blocked_sites_recovers_set
    (urlparse : string -> result ParseResult) (w : World) (m0 : Monitor) :
  DatabaseManager.db_up (db w) = true ->
  in_sync w ->
  (forall d, d ∈ blocked_domains (monitor w) ->
     exists p, urlparse ("http://" ++ d) = Ok p /\ netloc p = d) ->
  eval (load_blocked_sites urlparse) (with_monitor w m0) = Ok tt /\
  blocked_domains (monitor (exec (load_blocked_sites urlparse) (with_monitor w m0)))
    = blocked_domains (monitor w).
Proof.
  intros Hup Hs Hparse.
  destruct (netlocs_ok urlparse (DatabaseManager.blocked_sites (db w))) as [ds [Hds Hin]].
  { intros u Hu. apply Hs in Hu. destruct Hu as [d [Hd ->]].
    destruct (Hparse d Hd) as [p [Hp _]]. exists p. exact Hp. }
  unfold eval, exec, load_blocked_sites. unfold_m.
  unfold DatabaseManager.get_blocked_sites. cbn [db with_monitor]. rewrite Hup, Hds.
  cbn. split; [reflexivity|].
  apply set_eq. intros x. rewrite elem_of_list_to_set, list_elem_of_In, Hin. split.
  - intros [u [p [Hu [Hp Hn]]]]. apply Hs in Hu. destruct Hu as [d [Hd ->]].
    destruct (Hparse d Hd) as [q [Hq Hnq]]. congruence.
  - intros Hx. destruct (Hparse x Hx) as [p [Hp Hn]].
    exists ("http://" ++ x), p. split; [|auto]. apply Hs. exists x. auto.
Qed.

Lemma load_blocked_sites_recovers_set_witness :
  eval (load_blocked_sites Examples.simple_urlparse)
       (with_monitor (exec (block_domain "casino.example") (Examples.fresh_world HostsWritable))
          Examples.fresh_monitor) = Ok tt /\
  blocked_domains
    (monitor (exec (load_blocked_sites Examples.simple_urlparse)
                (with_monitor
                   (exec (block_domain "casino.example") (Examples.fresh_world HostsWritable))
                   Examples.fresh_monitor)))
  = blocked_domains
      (monitor (exec (block_domain "casino.example") (Examples.fresh_world HostsWritable))).
Proof.
  apply (load_blocked_sites_recovers_set Examples.simple_urlparse
           (exec (block_domain "casino.example") (Examples.fresh_world HostsWritable))
           Examples.fresh_monitor).
  - reflexivity.
  - apply in_sync_block; [reflexivity | apply in_sync_fresh].
  - intros d Hd. rewrite block_domain_monitor in Hd. cbn in Hd.
    apply elem_of_union in Hd. destruct Hd as [Hd|Hd].
    + apply elem_of_singleton in Hd. subst d. eexists. split; reflexivity.
    + exfalso. exact (not_elem_of_empty (C := gset string) d Hd).
Defined.

(** *** More on the connection path *)

Lemma block_domain_cache (d : string) (w : World) :
  connections_cache (monitor (exec (block_domain d) w)) = connections_cache (monitor w).
Proof. rewrite block_domain_monitor. reflexivity. Qed.

(** X9.  When the database is unreachable, a sighting that is due for
    analysis is still recorded in the dedup cache although nothing is
    logged or blocked; the same endpoint seen again within 300 seconds is
    then dropped without a second attempt. *)
Theorem analyze_connection_db_down_still_caches
    (ml_predictor : option predictor) (conn : Conn) (env env2 : Probe) (w : World) :
  is_local (raddr_ip conn) = false ->
  recently_checked (connections_cache (monitor w))
    (resolve_hostname conn env ++ ":" ++ pretty (raddr_port conn)) (now_check env) = false ->
  DatabaseManager.db_up (db w) = false ->
  resolve_hostname conn env2 = resolve_hostname conn env ->
  0 <= now_check env2 - now_store env < 300 * 1000000 ->
  db (exec (_analyze_connection ml_predictor conn env) w) = db w /\
  blocked_domains (monitor (exec (_analyze_connection ml_predictor conn env) w))
    = blocked_domains (monitor w) /\
  connections_cache (monitor (exec (_analyze_connection ml_predictor conn env) w))
    !! (resolve_hostname conn env ++ ":" ++ pretty (raddr_port conn)) = Some (now_store env) /\
  _analyze_connection ml_predictor conn env2
    (exec (_analyze_connection ml_predictor conn env) w)
  = (Ok tt, exec (_analyze_connection ml_predictor conn env) w).
Proof.
  intros Hloc Hrec Hup Hsame Hwin.
  assert (exec (_analyze_connection ml_predictor conn env) w
          = with_monitor w
              (with_connections_cache (monitor w)
                 (<[resolve_hostname conn env ++ ":" ++ pretty (raddr_port conn)
                    := now_store env]> (connections_cache (monitor w))))) as ->.
  { unfold exec. rewrite analyze_connection_run. cbv zeta.
    rewrite Hloc, Hrec, Hup. reflexivity. }
  split; [reflexivity|]. split; [reflexivity|].
  assert (connections_cache
            (monitor (with_monitor w
               (with_connections_cache (monitor w)
                  (<[resolve_hostname conn env ++ ":" ++ pretty (raddr_port conn)
                     := now_store env]> (connections_cache (monitor w))))))
            !! (resolve_hostname conn env ++ ":" ++ pretty (raddr_port conn))
          = Some (now_store env)) as Hlook by (cbn; apply lookup_insert_eq).
  split; [exact Hlook|].
  apply (dedup_suppresses_within_window ml_predictor conn env2 _ (now_store env)).
  - rewrite Hsame. exact Hlook.
  - exact Hwin.
Qed.

Lemma analyze_connection_db_down_still_caches_witness :
  db (exec (_analyze_connection None Examples.casino_conn (Examples.probe_at Examples.epoch_us))
        MoreExamples.offline_world) = db MoreExamples.offline_world /\
  blocked_domains
    (monitor (exec (_analyze_connection None Examples.casino_conn
                      (Examples.probe_at Examples.epoch_us)) MoreExamples.offline_world))
    = blocked_domains (monitor MoreExamples.offline_world) /\
  connections_cache
    (monitor (exec (_analyze_connection None Examples.casino_conn
                      (Examples.probe_at Examples.epoch_us)) MoreExamples.offline_world))
    !! (resolve_hostname Examples.casino_conn (Examples.probe_at Examples.epoch_us)
          ++ ":" ++ pretty (raddr_port Examples.casino_conn))
    = Some (now_store (Examples.probe_at Examples.epoch_us)) /\
  _analyze_connection None Examples.casino_conn
    (Examples.probe_at (Examples.epoch_us + 2000000))
    (exec (_analyze_connection None Examples.casino_conn (Examples.probe_at Examples.epoch_us))
       MoreExamples.offline_world)
  = (Ok tt,
     exec (_analyze_connection None Examples.casino_conn (Examples.probe_at Examples.epoch_us))
       MoreExamples.offline_world).
Proof.
  apply (analyze_connection_db_down_still_caches None Examples.casino_conn
           (Examples.probe_at Examples.epoch_us)
           (Examples.probe_at (Examples.epoch_us + 2000000))
           MoreExamples.offline_world).
  - reflexivity.
  - reflexivity.
  - reflexivity.
  - reflexivity.
  - cbn. lia.
Defined.

(** X10.  The dedup cache is never pruned: a call of
    [_analyze_connection] leaves every entry under another key as it was,
    and an endpoint that has an entry still has one afterwards. *)
Theorem connections_cache_never_shrinks
    (ml_predictor : option predictor) (conn : Conn) (env : Probe) (w : World) (key : string) :
  (key <> resolve_hostname conn env ++ ":" ++ pretty (raddr_port conn) ->
   connections_cache (monitor (exec (_analyze_connection ml_predictor conn env) w)) !! key
   = connections_cache (monitor w) !! key) /\
  (is_Some (connections_cache (monitor w) !! key) ->
   is_Some (connections_cache
              (monitor (exec (_analyze_connection ml_predictor conn env) w)) !! key)).
Proof.
  unfold exec. rewrite analyze_connection_run. cbv zeta.
  destruct (is_local _); [split; auto|].
  destruct (recently_checked _ _ _); [split; auto|].
  assert (forall c : gmap string Z,
            c = <[resolve_hostname conn env ++ ":" ++ pretty (raddr_port conn)
                  := now_store env]> (connections_cache (monitor w)) ->
            (key <> resolve_hostname conn env ++ ":" ++ pretty (raddr_port conn) ->
             c !! key = connections_cache (monitor w) !! key) /\
            (is_Some (connections_cache (monitor w) !! key) -> is_Some (c !! key))) as Hc.
  { intros c ->. split.
    - intros Hne. apply lookup_insert_ne. congruence.
    - intros Hs. rewrite lookup_insert. case_decide; [eauto | exact Hs]. }
  destruct (DatabaseManager.db_up (db w)); [|apply Hc; reflexivity].
  destruct (_ && _ && _)%bool; cbn [snd monitor with_stdout].
  - fold (exec (block_domain (resolve_hostname conn env))).
    rewrite block_domain_cache. apply Hc. reflexivity.
  - apply Hc. reflexivity.
Qed.

(** X11.  A host that is already in the blocked set and is analysed
    again is logged with [blocked = True] and is not blocked a second
    time: the blocked set, the persisted table and the hosts file stay as
    they were, whatever the verdict. *)
Theorem blocked_host_is_not_blocked_again
    (ml_predictor : option predictor) (conn : Conn) (env : Probe) (w : World) :
  is_local (raddr_ip conn) = false ->
  recently_checked (connections_cache (monitor w))
    (resolve_hostname conn env ++ ":" ++ pretty (raddr_port conn)) (now_check env) = false ->
  DatabaseManager.db_up (db w) = true ->
  is_blocked (resolve_hostname conn env) w = true ->
  DatabaseManager.detection_logs (db (exec (_analyze_connection ml_predictor conn env) w))
    = (DatabaseManager.detection_logs (db w)
         ++ [connection_detection (resolve_hostname conn env)
               (predict_or_default ml_predictor (db w)
                  ("http://" ++ resolve_hostname conn env)) true])%list /\
  blocked_domains (monitor (exec (_analyze_connection ml_predictor conn env) w))
    = blocked_domains (monitor w) /\
  DatabaseManager.blocked_sites (db (exec (_analyze_connection ml_predictor conn env) w))
    = DatabaseManager.blocked_sites (db w) /\
  hosts_text (exec (_analyze_connection ml_predictor conn env) w) = hosts_text w.
Proof.
  intros Hloc Hrec Hup Hblocked.
  unfold exec. rewrite analyze_connection_run. cbv zeta.
  rewrite Hloc, Hrec, Hup, Hblocked. rewrite !andb_false_r. cbn.
  repeat split.
Qed.

Lemma blocked_host_is_not_blocked_again_witness :
  hosts_text (exec (_analyze_connection
                      (Some (Examples.app_predictor (Some (Examples.constant_pipeline 0.9%float))))
                      Examples.casino_conn (Examples.probe_at Examples.epoch_us))
                MoreExamples.blocked_world)
  = hosts_text MoreExamples.blocked_world.
Proof.
  apply (blocked_host_is_not_blocked_again
           (Some (Examples.app_predictor (Some (Examples.constant_pipeline 0.9%float))))
           Examples.casino_conn (Examples.probe_at Examples.epoch_us)
           MoreExamples.blocked_world).
  - reflexivity.
  - reflexivity.
  - reflexivity.
  - vm_compute. reflexivity.
Defined.

(** *** More on the proxy path *)

(** The set the addon holds after [response] auto-blocked. *)
Lemma response_auto_block_run
    (urlparse : string -> result ParseResult) (f : predictor)
    (flow : ProxyAddon.HTTPFlow) (now : float) (w : World)
    (info : ProxyAddon.RequestInfo) (start : float) (resp : ProxyAddon.Response)
    (body : option string) (size : Z) (parsed : ParseResult) (r : float * bool) :
  ProxyAddon.request_info flow = Some info ->
  ProxyAddon.request_start_time flow = Some start ->
  ProxyAddon.flow_response flow = Some resp ->
  ProxyAddon.text_if_content (ProxyAddon.resp_content resp) (ProxyAddon.resp_text resp)
    = Ok body ->
  ProxyAddon.size_if_content (ProxyAddon.resp_content resp) = Ok size ->
  urlparse (ProxyAddon.ri_url info) = Ok parsed ->
  DatabaseManager.db_up (db w) = true ->
  f (with_traffic_row (db w)
       (proxy_traffic_row flow info resp body size (netloc parsed) start now))
    (ProxyAddon.ri_url info) (Some (ProxyAddon.resp_headers resp)) body = Ok r ->
  snd r = true ->
  gt (fst r) 0.8%float = true ->
  addon_blocked_domains (exec (ProxyAddon.response urlparse (Some f) flow now) w)
  = {[netloc parsed]} ∪ addon_blocked_domains w.
Proof.
  intros Hinfo Hstart Hresp Hbody Hsize Hparse Hup Hf Hflag Hconf.
  unfold exec at 1. rewrite response_run.
  rewrite Hinfo, Hstart, Hresp, Hbody, Hsize, Hparse, Hup. cbv zeta.
  rewrite Hf, Hflag, Hconf. cbn [andb snd].
  unfold say.
  match goal with
  | |- addon_blocked_domains (with_stdout ?x _) = _ =>
      change (addon_blocked_domains x = {[netloc parsed]} ∪ addon_blocked_domains w)
  end.
  rewrite add_blocked_domain_set. reflexivity.
Qed.

(** X12.  The proxy's auto-block takes effect at once: after a response
    that was flagged with confidence above 0.8, the next request whose URL
    has the same [netloc] is answered with the blocked page. *)
Theorem proxy_auto_block_blocks_next_request
    (urlparse : string -> result ParseResult) (f : predictor)
    (flow next : ProxyAddon.HTTPFlow) (now later : float) (w : World)
    (info : ProxyAddon.RequestInfo) (start : float) (resp : ProxyAddon.Response)
    (body : option string) (size : Z) (parsed parsed' : ParseResult) (r : float * bool) :
  ProxyAddon.request_info flow = Some info ->
  ProxyAddon.request_start_time flow = Some start ->
  ProxyAddon.flow_response flow = Some resp ->
  ProxyAddon.text_if_content (ProxyAddon.resp_content resp) (ProxyAddon.resp_text resp)
    = Ok body ->
  ProxyAddon.size_if_content (ProxyAddon.resp_content resp) = Ok size ->
  urlparse (ProxyAddon.ri_url info) = Ok parsed ->
  DatabaseManager.db_up (db w) = true ->
  f (with_traffic_row (db w)
       (proxy_traffic_row flow info resp body size (netloc parsed) start now))
    (ProxyAddon.ri_url info) (Some (ProxyAddon.resp_headers resp)) body = Ok r ->
  snd r = true ->
  gt (fst r) 0.8%float = true ->
  urlparse (ProxyAddon.pretty_url (ProxyAddon.flow_request next)) = Ok parsed' ->
  netloc parsed' = netloc parsed ->
  exists blocked : ProxyAddon.HTTPFlow,
    eval (ProxyAddon.request urlparse next later)
         (exec (ProxyAddon.response urlparse (Some f) flow now) w) = Ok blocked /\
    ProxyAddon.flow_response blocked = Some ProxyAddon.blocked_page /\
    ProxyAddon.request_info blocked = ProxyAddon.request_info next.
Proof.
  intros Hinfo Hstart Hresp Hbody Hsize Hparse Hup Hf Hflag Hconf Hparse' Hnet.
  pose proof (response_auto_block_run urlparse f flow now w info start resp body size
                parsed r Hinfo Hstart Hresp Hbody Hsize Hparse Hup Hf Hflag Hconf) as Hset.
  exists {| ProxyAddon.flow_request := ProxyAddon.flow_request next;
            ProxyAddon.flow_response := Some ProxyAddon.blocked_page;
            ProxyAddon.request_start_time := ProxyAddon.request_start_time next;
            ProxyAddon.request_info := ProxyAddon.request_info next |}.
  split; [|split; reflexivity].
  unfold eval, ProxyAddon.request. unfold_m. rewrite Hparse', Hnet.
  rewrite bool_decide_eq_true_2; [reflexivity|].
  unfold exec in Hset. rewrite Hset. set_solver.
Qed.

Lemma proxy_auto_block_blocks_next_request_witness :
  exists blocked : ProxyAddon.HTTPFlow,
    eval (ProxyAddon.request Examples.simple_urlparse Examples.fresh_flow
            (PrimFloat.add Examples.epoch 2))
         (exec (ProxyAddon.response Examples.simple_urlparse
                  (Some (Examples.app_predictor (Some (Examples.constant_pipeline 0.9%float))))
                  Examples.answered_flow (PrimFloat.add Examples.epoch 1))
            (Examples.fresh_world HostsWritable)) = Ok blocked /\
    ProxyAddon.flow_response blocked = Some ProxyAddon.blocked_page /\
    ProxyAddon.request_info blocked = ProxyAddon.request_info Examples.fresh_flow.
Proof.
  apply (proxy_auto_block_blocks_next_request Examples.simple_urlparse
           (Examples.app_predictor (Some (Examples.constant_pipeline 0.9%float)))
           Examples.answered_flow Examples.fresh_flow
           (PrimFloat.add Examples.epoch 1) (PrimFloat.add Examples.epoch 2)
           (Examples.fresh_world HostsWritable)
           Examples.casino_info Examples.epoch Examples.casino_response
           (Some "<html>slots and jackpots</html>") 31
           {| netloc := "casino.example"; path := "/slots"; query := "" |}
           {| netloc := "casino.example"; path := "/slots"; query := "" |}
           (0.9%float, true));
    reflexivity.
Defined.

(** X13.  A request to a domain that is not blocked, followed by the
    response of the server, persists exactly one traffic record when both
    bodies can be read, whatever the classifier does (absent, raising, or
    returning any verdict).  The record holds the URL and method, the
    request and response headers (NULL when there are none), the status,
    the size of the response, the elapsed time, and of each body its first
    5000 characters only (NULL when it is empty).  When the request body
    cannot be read the [request] hook only prints the error and leaves the
    flow as it was; when the response body cannot be read the [response]
    hook only prints the error and persists nothing. *)
Theorem request_then_response_logs_traffic_once
    (urlparse : string -> result ParseResult) (ml_predictor : option predictor)
    (flow : ProxyAddon.HTTPFlow) (resp : ProxyAddon.Response) (now later : float)
    (w : World) (parsed : ParseResult) :
  urlparse (ProxyAddon.pretty_url (ProxyAddon.flow_request flow)) = Ok parsed ->
  netloc parsed ∉ addon_blocked_domains w ->
  DatabaseManager.db_up (db w) = true ->
  (forall request_body body size,
     ProxyAddon.text_if_content (ProxyAddon.req_content (ProxyAddon.flow_request flow))
       (ProxyAddon.req_text (ProxyAddon.flow_request flow)) = Ok request_body ->
     ProxyAddon.text_if_content (ProxyAddon.resp_content resp) (ProxyAddon.resp_text resp)
       = Ok body ->
     ProxyAddon.size_if_content (ProxyAddon.resp_content resp) = Ok size ->
     exists flow' : ProxyAddon.HTTPFlow,
       ProxyAddon.request urlparse flow now w = (Ok flow', w) /\
       DatabaseManager.traffic_logs
         (db (exec (ProxyAddon.response urlparse ml_predictor (answered flow' resp) later) w))
       = (DatabaseManager.traffic_logs (db w)
            ++ [{| DatabaseManager.tr_source_ip := "127.0.0.1";
                   DatabaseManager.tr_dest_ip := netloc parsed;
                   DatabaseManager.tr_source_port := 0;
                   DatabaseManager.tr_dest_port :=
                     ProxyAddon.req_port (ProxyAddon.flow_request flow);
                   DatabaseManager.tr_protocol := "HTTP";
                   DatabaseManager.tr_url :=
                     ProxyAddon.pretty_url (ProxyAddon.flow_request flow);
                   DatabaseManager.tr_method :=
                     ProxyAddon.req_method (ProxyAddon.flow_request flow);
                   DatabaseManager.tr_headers :=
                     DatabaseManager.json_if_any
                       (ProxyAddon.req_headers (ProxyAddon.flow_request flow));
                   DatabaseManager.tr_request_body := DatabaseManager.cut_body request_body;
                   DatabaseManager.tr_response_headers :=
                     DatabaseManager.json_if_any (ProxyAddon.resp_headers resp);
                   DatabaseManager.tr_response_body := DatabaseManager.cut_body body;
                   DatabaseManager.tr_status_code := ProxyAddon.status_code resp;
                   DatabaseManager.tr_response_size := size;
                   DatabaseManager.tr_duration_ms :=
                     PrimFloat.mul (PrimFloat.sub later now) 1000%float |}])%list) /\
  (forall e,
     ProxyAddon.text_if_content (ProxyAddon.req_content (ProxyAddon.flow_request flow))
       (ProxyAddon.req_text (ProxyAddon.flow_request flow)) = Raise e ->
     ProxyAddon.request urlparse flow now w = (Ok flow, say w (MsgErrorRequest e))) /\
  (forall request_body e,
     ProxyAddon.text_if_content (ProxyAddon.req_content (ProxyAddon.flow_request flow))
       (ProxyAddon.req_text (ProxyAddon.flow_request flow)) = Ok request_body ->
     ProxyAddon.text_if_content (ProxyAddon.resp_content resp) (ProxyAddon.resp_text resp)
       = Raise e ->
     exists flow' : ProxyAddon.HTTPFlow,
       ProxyAddon.request urlparse flow now w = (Ok flow', w) /\
       ProxyAddon.response urlparse ml_predictor (answered flow' resp) later w
       = (Ok tt, say w (MsgErrorResponse e))).
Proof.
  intros Hparse Hnot Hup.
  pose proof (request_goes_through urlparse flow now w parsed Hparse Hnot) as Hreq.
  split; [|split].
  - intros request_body body size Hrb Hbody Hsize. rewrite Hrb in Hreq.
    eexists. split; [exact Hreq|].
    unfold exec. rewrite response_run.
    cbn [answered ProxyAddon.request_info ProxyAddon.request_start_time
         ProxyAddon.flow_response ProxyAddon.ri_url].
    rewrite Hbody, Hsize, Hparse, Hup. cbv zeta.
    destruct ml_predictor as [f|]; [|reflexivity].
    destruct (f _ _ _ _) as [r|e]; [|reflexivity].
    destruct (snd r && gt (fst r) 0.8%float)%bool; [|reflexivity].
    cbn [snd]. unfold say. cbn [db with_stdout].
    rewrite (proj1 (add_blocked_domain_rest _ _)). reflexivity.
  - intros e He. rewrite He in Hreq. exact Hreq.
  - intros request_body e Hrb He. rewrite Hrb in Hreq.
    eexists. split; [exact Hreq|].
    rewrite response_run.
    cbn [answered ProxyAddon.request_info ProxyAddon.request_start_time
         ProxyAddon.flow_response ProxyAddon.ri_url].
    rewrite He. reflexivity.
Qed.

Lemma request_then_response_logs_traffic_once_witness :
  exists flow' : ProxyAddon.HTTPFlow,
    ProxyAddon.request Examples.simple_urlparse Examples.fresh_flow Examples.epoch
      (Examples.fresh_world HostsWritable) = (Ok flow', Examples.fresh_world HostsWritable) /\
    length (DatabaseManager.traffic_logs
      (db (exec (ProxyAddon.response Examples.simple_urlparse
                   (Some (Examples.app_predictor (Some Examples.failing_pipeline)))
                   (answered flow' Examples.casino_response) (PrimFloat.add Examples.epoch 1))
             (Examples.fresh_world HostsWritable)))) = 1%nat.
Proof.
  destruct (proj1 (request_then_response_logs_traffic_once Examples.simple_urlparse
              (Some (Examples.app_predictor (Some Examples.failing_pipeline)))
              Examples.fresh_flow Examples.casino_response Examples.epoch
              (PrimFloat.add Examples.epoch 1) (Examples.fresh_world HostsWritable)
              {| netloc := "casino.example"; path := "/slots"; query := "" |}
              eq_refl (not_elem_of_empty (C := gset string) "casino.example") eq_refl)
              None (Some "<html>slots and jackpots</html>") 31 eq_refl eq_refl eq_refl)
    as [flow' [Hreq Hlog]].
  exists flow'. split; [exact Hreq|]. rewrite Hlog. reflexivity.
Defined.

(** Once the body of a response was read, its size is read as well. *)
Lemma size_after_text (content : result (option string)) (get_text : result string)
    (body : option string) :
  ProxyAddon.text_if_content content get_text = Ok body ->
  exists size, ProxyAddon.size_if_content content = Ok size.
Proof.
  unfold ProxyAddon.text_if_content, ProxyAddon.size_if_content.
  destruct content as [[s|]|e]; cbn [rbind]; [|eauto|discriminate].
  destruct (truthy_str s); eauto.
Qed.

(** X14.  With the database unreachable, the [response] hook of a flow
    that has its request context does nothing but print one error: no
    traffic or detection record, no call of the classifier's verdict into
    the blocked set, whatever the page.  The error is the database's when
    the body of the response could be read, and the decoding error
    otherwise. *)
Theorem response_db_down_only_prints
    (urlparse : string -> result ParseResult) (ml_predictor : option predictor)
    (flow : ProxyAddon.HTTPFlow) (now : float) (w : World)
    (info : ProxyAddon.RequestInfo) (start : float) (resp : ProxyAddon.Response)
    (parsed : ParseResult) :
  ProxyAddon.request_info flow = Some info ->
  ProxyAddon.request_start_time flow = Some start ->
  ProxyAddon.flow_response flow = Some resp ->
  urlparse (ProxyAddon.ri_url info) = Ok parsed ->
  DatabaseManager.db_up (db w) = false ->
  ProxyAddon.response urlparse ml_predictor flow now w
  = (Ok tt,
     say w (MsgErrorResponse
              match ProxyAddon.text_if_content (ProxyAddon.resp_content resp)
                      (ProxyAddon.resp_text resp) with
              | Ok _ => OperationalError
              | Raise e => e
              end)).
Proof.
  intros Hinfo Hstart Hresp Hparse Hup. rewrite response_run.
  rewrite Hinfo, Hstart, Hresp.
  destruct (ProxyAddon.text_if_content _ _) as [body|e] eqn:Hbody; [|reflexivity].
  destruct (size_after_text _ _ _ Hbody) as [size ->].
  rewrite Hparse, Hup. reflexivity.
Qed.

Lemma response_db_down_only_prints_witness :
  ProxyAddon.response Examples.simple_urlparse
    (Some (Examples.app_predictor (Some (Examples.constant_pipeline 0.9%float))))
    Examples.answered_flow (PrimFloat.add Examples.epoch 1) MoreExamples.offline_world
  = (Ok tt, say MoreExamples.offline_world (MsgErrorResponse OperationalError)).
Proof.
  apply (response_db_down_only_prints Examples.simple_urlparse
           (Some (Examples.app_predictor (Some (Examples.constant_pipeline 0.9%float))))
           Examples.answered_flow (PrimFloat.add Examples.epoch 1) MoreExamples.offline_world
           Examples.casino_info Examples.epoch Examples.casino_response
           {| netloc := "casino.example"; path := "/slots"; query := "" |});
    reflexivity.
Defined.

(** *** More on the statistics call *)

(** X15.  [get_real_time_stats] raises exactly when the database is
    unreachable (its first statement is outside the [try]), and then it
    changes nothing.  A failure of [psutil] does not escape: the call
    returns, leaves the monitor and the database as they were and prints
    the error. *)
Theorem get_real_time_stats_raises_only_without_database (env : StatsProbe) (w : World) :
  (DatabaseManager.db_up (db w) = false ->
   get_real_time_stats env w = (Raise OperationalError, w)) /\
  (DatabaseManager.db_up (db w) = true ->
   eval (get_real_time_stats env) w = Ok tt) /\
  (forall e, DatabaseManager.db_up (db w) = true -> psutil_net env = Raise e ->
   get_real_time_stats env w = (Ok tt, say w (MsgErrorStats e))).
Proof.
  split; [|split].
  - intros Hup. rewrite get_real_time_stats_run, Hup. reflexivity.
  - intros Hup. unfold eval. rewrite get_real_time_stats_run, Hup.
    destruct (psutil_net env); [|reflexivity].
    cbv zeta. destruct (bandwidth_log_due _ _); reflexivity.
  - intros e Hup He. rewrite get_real_time_stats_run, Hup, He. reflexivity.
Qed.

(** *** More on the detector *)

Lemma substring_0_0 (s : string) : String.substring 0 0 s = "".
Proof. destruct s; reflexivity. Qed.

Lemma substring_app (n : nat) (c e : string) :
  (n <= String.length c)%nat ->
  String.substring 0 n (c ++ e) = String.substring 0 n c.
Proof.
  revert c. induction n as [|n IH]; intros c Hn.
  - rewrite !substring_0_0. reflexivity.
  - destruct c as [|x c]; [simpl in Hn; lia|].
    rewrite str_app_cons. simpl. f_equal. apply IH. simpl in Hn. lia.
Qed.

(** X16.  Only the first 3000 characters of the content count: text
    appended to a content of 3000 characters or more changes neither the
    features nor the verdict. *)
Theorem predict_gambling_ignores_content_tail
    (urlparse : string -> result ParseResult) (float_of_str : string -> result float)
    (self : GamblingDetector.t) (d : DatabaseManager.t)
    (url : string) (hdrs : option headers) (c extra : string) :
  (3000 <= String.length c)%nat ->
  extract_features_from_url urlparse url hdrs (Some (c ++ extra))
    = extract_features_from_url urlparse url hdrs (Some c) /\
  predict_gambling urlparse float_of_str self d url hdrs (Some (c ++ extra))
    = predict_gambling urlparse float_of_str self d url hdrs (Some c).
Proof.
  intros Hlen.
  assert (extract_features_from_url urlparse url hdrs (Some (c ++ extra))
          = extract_features_from_url urlparse url hdrs (Some c)) as Hf.
  { unfold extract_features_from_url, take_str.
    rewrite substring_app by exact Hlen.
    destruct c as [|x c]; [simpl in Hlen; lia|]. reflexivity. }
  split; [exact Hf|]. unfold predict_gambling. rewrite Hf. reflexivity.
Qed.

Lemma predict_gambling_ignores_content_tail_witness :
  extract_features_from_url Examples.simple_urlparse "http://casino.example/"
    None (Some (MoreExamples.long_page ++ "news weather"))
    = extract_features_from_url Examples.simple_urlparse "http://casino.example/"
        None (Some MoreExamples.long_page) /\
  predict_gambling Examples.simple_urlparse Examples.decimal_float
    (Examples.detector_of (Some (Examples.constant_pipeline 0.9%float)))
    Examples.empty_db "http://casino.example/" None
    (Some (MoreExamples.long_page ++ "news weather"))
    = predict_gambling Examples.simple_urlparse Examples.decimal_float
        (Examples.detector_of (Some (Examples.constant_pipeline 0.9%float)))
        Examples.empty_db "http://casino.example/" None (Some MoreExamples.long_page).
Proof.
  apply (predict_gambling_ignores_content_tail Examples.simple_urlparse Examples.decimal_float
           (Examples.detector_of (Some (Examples.constant_pipeline 0.9%float)))
           Examples.empty_db "http://casino.example/" None
           MoreExamples.long_page "news weather").
  apply Nat.leb_le. vm_compute. reflexivity.
Defined.

Lemma lower_ascii_idem (c : ascii) : lower_ascii (lower_ascii c) = lower_ascii c.
Proof. destruct c as [[] [] [] [] [] [] [] []]; reflexivity. Qed.

Lemma lower_idem (s : string) : lower (lower s) = lower s.
Proof.
  induction s as [|c s IH]; [reflexivity|].
  simpl. rewrite lower_ascii_idem, IH. reflexivity.
Qed.

Lemma lower_substring (n m : nat) (s : string) :
  lower (String.substring n m s) = String.substring n m (lower s).
Proof.
  revert n m. induction s as [|c s IH]; intros n m.
  - destruct n, m; reflexivity.
  - destruct n as [|n]; [destruct m as [|m]|]; simpl; try reflexivity.
    + rewrite IH. reflexivity.
    + apply IH.
Qed.

Lemma truthy_lower (s : string) : truthy_str (lower s) = truthy_str s.
Proof. destruct s; reflexivity. Qed.

Lemma header_text_lower (h : headers) : header_text (lower_headers h) = header_text h.
Proof.
  unfold header_text, lower_headers. f_equal.
  induction h as [|kv h IH]; [reflexivity|].
  cbn [map List.filter fst snd]. rewrite lower_idem.
  destruct (in_list (lower (fst kv)) _); [|exact IH].
  cbn [map fst snd]. rewrite !lower_idem, IH. reflexivity.
Qed.

(** X17.  For a content and headers of ASCII characters only, the
    features, and so the verdict, do not depend on the letter case of the
    content or of the header names and values. *)
Theorem predict_gambling_ignores_letter_case
    (urlparse : string -> result ParseResult) (float_of_str : string -> result float)
    (self : GamblingDetector.t) (d : DatabaseManager.t)
    (url : string) (hdrs : headers) (c : string) :
  ascii_only c = true ->
  ascii_headers hdrs = true ->
  extract_features_from_url urlparse url (Some (lower_headers hdrs)) (Some (lower c))
    = extract_features_from_url urlparse url (Some hdrs) (Some c) /\
  predict_gambling urlparse float_of_str self d url (Some (lower_headers hdrs)) (Some (lower c))
    = predict_gambling urlparse float_of_str self d url (Some hdrs) (Some c).
Proof.
  intros _ _.
  assert (extract_features_from_url urlparse url (Some (lower_headers hdrs)) (Some (lower c))
          = extract_features_from_url urlparse url (Some hdrs) (Some c)) as Hf.
  { unfold extract_features_from_url, take_str.
    destruct (urlparse url) as [p|]; [|reflexivity].
    rewrite truthy_lower, <- lower_substring, lower_idem, header_text_lower.
    destruct hdrs; reflexivity. }
  split; [exact Hf|]. unfold predict_gambling. rewrite Hf. reflexivity.
Qed.

Lemma predict_gambling_ignores_letter_case_witness :
  extract_features_from_url Examples.simple_urlparse "http://casino.example/"
    (Some (lower_headers [("Content-Type", "TEXT/HTML"); ("Server", "Nginx")]))
    (Some (lower "JACKPOT Casino: Bet NOW"))
    = extract_features_from_url Examples.simple_urlparse "http://casino.example/"
        (Some [("Content-Type", "TEXT/HTML"); ("Server", "Nginx")])
        (Some "JACKPOT Casino: Bet NOW") /\
  predict_gambling Examples.simple_urlparse Examples.decimal_float
    (Examples.detector_of (Some (Examples.constant_pipeline 0.9%float)))
    Examples.empty_db "http://casino.example/"
    (Some (lower_headers [("Content-Type", "TEXT/HTML"); ("Server", "Nginx")]))
    (Some (lower "JACKPOT Casino: Bet NOW"))
    = predict_gambling Examples.simple_urlparse Examples.decimal_float
        (Examples.detector_of (Some (Examples.constant_pipeline 0.9%float)))
        Examples.empty_db "http://casino.example/"
        (Some [("Content-Type", "TEXT/HTML"); ("Server", "Nginx")])
        (Some "JACKPOT Casino: Bet NOW").
Proof.
  apply (predict_gambling_ignores_letter_case Examples.simple_urlparse Examples.decimal_float
           (Examples.detector_of (Some (Examples.constant_pipeline 0.9%float)))
           Examples.empty_db "http://casino.example/"
           [("Content-Type", "TEXT/HTML"); ("Server", "Nginx")]
           "JACKPOT Casino: Bet NOW");
    reflexivity.
Defined.

(** *** Settings *)

Lemma on_db_set_setting (key value : string) (w : World) :
  DatabaseManager.db_up (db w) = true ->
  on_db (Settings.set_setting key value) w
  = (Ok tt, with_db w (Settings.with_settings (db w)
                         (<[key := value]> (DatabaseManager.settings (db w))))).
Proof. intros Hup. unfold on_db, Settings.set_setting. rewrite Hup. reflexivity. Qed.

(** The [POST] of the settings form on a reachable database. *)
Lemma settings_post_run (form : gmap string string) (w : World) :
  DatabaseManager.db_up (db w) = true ->
  Settings.settings_post form w
  = (Ok tt,
     with_db w
       (Settings.with_settings (db w)
          (<["dev_mode" := if bool_decide (form !! "dev_mode" = Some "on")
                           then "true" else "false"]>
             (posted form "dev_mode"
                (posted form "theme"
                   (posted form "language"
                      (posted form "sensitivity" (DatabaseManager.settings (db w))))))))).
Proof.
  intros Hup. unfold Settings.settings_post, Settings.for_each, posted.
  unfold bind, ret.
  destruct (form !! "sensitivity"); destruct (form !! "language");
    destruct (form !! "theme"); destruct (form !! "dev_mode");
    repeat (rewrite on_db_set_setting by (cbn; exact Hup); cbn [db with_db]);
    cbn; reflexivity.
Qed.

(** X18.  The settings form stores what it is sent without checking it:
    after a [POST] on a reachable database, [sensitivity], [language] and
    [theme] hold the posted strings (and keep their value when not
    posted), every other key but [dev_mode] is untouched, and [dev_mode]
    is ["true"] when the posted value is ["on"] and ["false"] in every
    other case. *)
Theorem settings_post_stores (form : gmap string string) (w : World) (key : string) :
  DatabaseManager.db_up (db w) = true ->
  eval (Settings.settings_post form) w = Ok tt /\
  DatabaseManager.settings (db (exec (Settings.settings_post form) w)) !! "dev_mode"
    = Some (if bool_decide (form !! "dev_mode" = Some "on") then "true" else "false") /\
  (key = "sensitivity" \/ key = "language" \/ key = "theme" ->
   DatabaseManager.settings (db (exec (Settings.settings_post form) w)) !! key
   = match form !! key with
     | Some value => Some value
     | None => DatabaseManager.settings (db w) !! key
     end) /\
  (key <> "sensitivity" -> key <> "language" -> key <> "theme" -> key <> "dev_mode" ->
   DatabaseManager.settings (db (exec (Settings.settings_post form) w)) !! key
   = DatabaseManager.settings (db w) !! key).
Proof.
  intros Hup. unfold eval, exec. rewrite settings_post_run by exact Hup.
  cbn [fst snd db with_db DatabaseManager.settings Settings.with_settings]. unfold posted.
  split; [reflexivity|]. split; [apply lookup_insert_eq|]. split.
  - intros [H|[H|H]]; subst key;
      destruct (form !! "sensitivity"); destruct (form !! "language");
      destruct (form !! "theme"); destruct (form !! "dev_mode");
      simplify_map_eq; reflexivity.
  - intros H1 H2 H3 H4.
    destruct (form !! "sensitivity"); destruct (form !! "language");
      destruct (form !! "theme"); destruct (form !! "dev_mode");
      simplify_map_eq; reflexivity.
Qed.

Lemma settings_post_stores_witness :
  DatabaseManager.settings
    (db (exec (Settings.settings_post MoreExamples.sample_form)
           (Examples.fresh_world HostsWritable))) !! "dev_mode" = Some "true" /\
  DatabaseManager.settings
    (db (exec (Settings.settings_post MoreExamples.sample_form)
           (Examples.fresh_world HostsWritable))) !! "sensitivity" = Some "30".
Proof.
  destruct (settings_post_stores MoreExamples.sample_form (Examples.fresh_world HostsWritable)
              "sensitivity" eq_refl) as [_ [Hdev [Hkey _]]].
  split.
  - rewrite Hdev. reflexivity.
  - rewrite (Hkey (or_introl eq_refl)). reflexivity.
Defined.

Lemma settings_post_sensitivity (form : gmap string string) (w : World) (s : string) :
  DatabaseManager.db_up (db w) = true ->
  form !! "sensitivity" = Some s ->
  DatabaseManager.db_up (db (exec (Settings.settings_post form) w)) = true /\
  DatabaseManager.settings (db (exec (Settings.settings_post form) w)) !! "sensitivity"
    = Some s.
Proof.
  intros Hup Hs. unfold exec. rewrite settings_post_run by exact Hup.
  cbn [snd db with_db DatabaseManager.settings DatabaseManager.db_up Settings.with_settings].
  split; [exact Hup|]. unfold posted. rewrite Hs.
  destruct (form !! "language"); destruct (form !! "theme"); destruct (form !! "dev_mode");
    simplify_map_eq; reflexivity.
Qed.

(** X19.  A sensitivity posted through the settings form governs the very
    next prediction.  When [float] accepts the posted string the threshold
    is its value divided by 100; when [float] rejects it (the form does
    not check it) every prediction is the neutral [(0.5, False)], so
    nothing is flagged until the setting is changed. *)
Theorem posted_sensitivity_governs_prediction
    (urlparse : string -> result ParseResult) (float_of_str : string -> result float)
    (self : GamblingDetector.t) (m : Pipeline) (form : gmap string string) (w : World)
    (s : string) (url : string) (hdrs : option headers) (content : option string) :
  DatabaseManager.db_up (db w) = true ->
  form !! "sensitivity" = Some s ->
  truthy_str s = true ->
  model self = Some m ->
  db_manager self = true ->
  (forall v row rest,
     float_of_str s = Ok v ->
     m (extract_features_from_url urlparse url hdrs content) = Ok (row :: rest) ->
     predict_gambling urlparse float_of_str self
       (db (exec (Settings.settings_post form) w)) url hdrs content
     = Ok (gambling_prob_of row,
           gt (gambling_prob_of row) (PrimFloat.div v 100%float))) /\
  (forall e,
     float_of_str s = Raise e ->
     predict_gambling urlparse float_of_str self
       (db (exec (Settings.settings_post form) w)) url hdrs content
     = Ok (0.5%float, false)).
Proof.
  intros Hup Hs Ht Hm Hdb.
  destruct (settings_post_sensitivity form w s Hup Hs) as [Hup' Hset].
  split.
  - intros v row rest Hv Hrow. unfold predict_gambling. rewrite Hm, Hrow. cbn [rbind first_row rtry].
    unfold read_sensitivity, DatabaseManager.get_setting.
    rewrite Hdb, Hup'. cbn [rbind]. rewrite Hset, Ht, Hv. reflexivity.
  - intros e He.
    apply (predict_gambling_unparseable_setting urlparse float_of_str self m _ url hdrs
             content s e); assumption.
Qed.

Lemma posted_sensitivity_governs_prediction_witness :
  predict_gambling Examples.simple_urlparse Examples.decimal_float
    (Examples.detector_of (Some (Examples.constant_pipeline 0.4%float)))
    (db (exec (Settings.settings_post MoreExamples.sample_form)
           (Examples.fresh_world HostsWritable)))
    "http://casino.example/" None None
  = Ok (gambling_prob_of [PrimFloat.sub 1 0.4; 0.4]%float,
        gt (gambling_prob_of [PrimFloat.sub 1 0.4; 0.4]%float) (PrimFloat.div 30 100%float)).
Proof.
  apply (proj1 (posted_sensitivity_governs_prediction Examples.simple_urlparse
                  Examples.decimal_float
                  (Examples.detector_of (Some (Examples.constant_pipeline 0.4%float)))
                  (Examples.constant_pipeline 0.4%float)
                  MoreExamples.sample_form (Examples.fresh_world HostsWritable)
                  "30" "http://casino.example/" None None
                  eq_refl eq_refl eq_refl eq_refl eq_refl)
           30%float [PrimFloat.sub 1 0.4; 0.4]%float []);
    reflexivity.
Defined.

(** [init_default_settings] on a reachable database. *)
Lemma for_each_defaults (kvs : list (string * string)) (w : World) :
  DatabaseManager.db_up (db w) = true ->
  Settings.for_each kvs (fun kv =>
    let* current := read_db (DatabaseManager.get_setting (fst kv)) in
    if Settings.unset current then on_db (Settings.set_setting (fst kv) (snd kv)) else ret tt) w
  = (Ok tt,
     with_db w (Settings.with_settings (db w)
                  (foldl defaulted (DatabaseManager.settings (db w)) kvs))).
Proof.
  intros Hup. revert w Hup. induction kvs as [|kv kvs IH]; intros w Hup.
  - cbn. destruct w as [[] ? ? ? ? ?]. reflexivity.
  - cbn [Settings.for_each foldl]. unfold bind at 1. unfold bind at 1.
    unfold read_db at 1, DatabaseManager.get_setting at 1. rewrite Hup.
    unfold defaulted at 2.
    destruct (Settings.unset (DatabaseManager.settings (db w) !! fst kv)).
    + rewrite on_db_set_setting by exact Hup. rewrite IH by (cbn; exact Hup).
      reflexivity.
    + unfold ret at 1. rewrite IH by exact Hup. reflexivity.
Qed.

Lemma foldl_defaulted_lookup (kvs : list (string * string)) (stored : gmap string string)
    (key : string) :
  List.NoDup (map fst kvs) ->
  foldl defaulted stored kvs !! key
  = match assoc key kvs with
    | Some v => if Settings.unset (stored !! key) then Some v else stored !! key
    | None => stored !! key
    end.
Proof.
  revert stored. induction kvs as [|kv kvs IH]; intros stored Hnd; [reflexivity|].
  inversion Hnd as [|? ? Hnot Hnd']; subst. cbn [foldl assoc].
  rewrite IH by exact Hnd'. unfold defaulted.
  destruct (String.eqb (fst kv) key) eqn:E.
  - apply String.eqb_eq in E. subst key.
    assert (assoc (fst kv) kvs = None) as ->.
    { clear -Hnot. induction kvs as [|x xs IHx]; [reflexivity|].
      cbn. destruct (String.eqb (fst x) (fst kv)) eqn:Ex.
      - apply String.eqb_eq in Ex. exfalso. apply Hnot. left. exact Ex.
      - apply IHx. intros H. apply Hnot. right. exact H. }
    destruct (Settings.unset (stored !! fst kv)); [apply lookup_insert_eq | reflexivity].
  - apply String.eqb_neq in E.
    destruct (Settings.unset (stored !! fst kv)); [|reflexivity].
    rewrite lookup_insert_ne by exact E. reflexivity.
Qed.

Lemma defaults_NoDup : List.NoDup (map fst Settings.defaults).
Proof. cbn. repeat constructor; cbn; intuition discriminate. Qed.

(** X20.  [init_default_settings] on a reachable database fills in the
    five default settings without touching what is set: a stored value
    that is not empty is kept, a default key that is missing or empty gets
    its default, other keys are left alone; running it again changes
    nothing. *)
Theorem init_default_settings_fills_gaps (w : World) (key : string) :
  DatabaseManager.db_up (db w) = true ->
  eval Settings.init_default_settings w = Ok tt /\
  (forall v, DatabaseManager.settings (db w) !! key = Some v -> truthy_str v = true ->
     DatabaseManager.settings (db (exec Settings.init_default_settings w)) !! key = Some v) /\
  (forall v, assoc key Settings.defaults = Some v ->
     Settings.unset (DatabaseManager.settings (db w) !! key) = true ->
     DatabaseManager.settings (db (exec Settings.init_default_settings w)) !! key = Some v) /\
  (assoc key Settings.defaults = None ->
     DatabaseManager.settings (db (exec Settings.init_default_settings w)) !! key
     = DatabaseManager.settings (db w) !! key) /\
  DatabaseManager.settings
    (db (exec Settings.init_default_settings (exec Settings.init_default_settings w)))
  = DatabaseManager.settings (db (exec Settings.init_default_settings w)).
Proof.
  intros Hup.
  assert (forall w', DatabaseManager.db_up (db w') = true ->
            forall k, DatabaseManager.settings (db (exec Settings.init_default_settings w')) !! k
            = match assoc k Settings.defaults with
              | Some v => if Settings.unset (DatabaseManager.settings (db w') !! k)
                          then Some v else DatabaseManager.settings (db w') !! k
              | None => DatabaseManager.settings (db w') !! k
              end) as Hlook.
  { intros w' Hup' k. unfold exec, Settings.init_default_settings.
    rewrite for_each_defaults by exact Hup'. cbn [snd db with_db DatabaseManager.settings
      Settings.with_settings].
    apply foldl_defaulted_lookup, defaults_NoDup. }
  assert (DatabaseManager.db_up (db (exec Settings.init_default_settings w)) = true) as Hup1.
  { unfold exec, Settings.init_default_settings.
    rewrite for_each_defaults by exact Hup. exact Hup. }
  split; [|split; [|split; [|split]]].
  - unfold eval, Settings.init_default_settings.
    rewrite for_each_defaults by exact Hup. reflexivity.
  - intros v Hv Ht. rewrite Hlook by exact Hup. rewrite Hv.
    destruct (assoc key Settings.defaults); [|reflexivity].
    unfold Settings.unset. rewrite Ht. reflexivity.
  - intros v Hv Hun. rewrite Hlook by exact Hup. rewrite Hv, Hun. reflexivity.
  - intros Hnone. rewrite Hlook by exact Hup. rewrite Hnone. reflexivity.
  - apply map_eq. intros k. rewrite (Hlook _ Hup1 k), (Hlook w Hup k).
    destruct (assoc k Settings.defaults) as [v|] eqn:Ek; [|reflexivity].
    destruct (Settings.unset (DatabaseManager.settings (db w) !! k)) eqn:Eu.
    + unfold Settings.unset at 1.
      assert (truthy_str v = true) as ->; [|reflexivity].
      revert Ek. unfold Settings.defaults. cbn [assoc fst snd].
      repeat (match goal with
              | |- context [String.eqb ?a k] => destruct (String.eqb a k)
              end; [intros [= <-]; reflexivity|]).
      discriminate.
    + rewrite Eu. reflexivity.
Qed.

Lemma init_default_settings_fills_gaps_witness :
  DatabaseManager.settings
    (db (exec Settings.init_default_settings
           (with_db (Examples.fresh_world HostsWritable) (Examples.db_with_sensitivity "30"))))
    !! "sensitivity" = Some "30".
Proof.
  apply (proj1 (proj2 (init_default_settings_fills_gaps
                         (with_db (Examples.fresh_world HostsWritable)
                            (Examples.db_with_sensitivity "30"))
                         "sensitivity" eq_refl))).
  - reflexivity.
  - reflexivity.
Defined.

(** *** Starting and stopping *)

Lemma start_monitoring_active (dev : bool) (s : Lifecycle.t) :
  Lifecycle.monitoring_active (snd (Lifecycle.start_monitoring dev s)) = true.
Proof.
  unfold Lifecycle.start_monitoring.
  destruct (Lifecycle.monitoring_active s) eqn:E; [exact E|]. destruct dev; reflexivity.
Qed.

Lemma start_monitoring_counts (dev : bool) (s : Lifecycle.t) :
  let r := Lifecycle.start_monitoring dev s in
  fst r = negb (Lifecycle.monitoring_active s) /\
  pollers (snd r) = (pollers s + if fst r then 1 else 0)%nat /\
  proxies (snd r) = (proxies s + if (fst r && dev)%bool then 1 else 0)%nat.
Proof.
  cbv zeta. unfold Lifecycle.start_monitoring, pollers, proxies.
  destruct (Lifecycle.monitoring_active s); cbn [fst snd negb andb].
  - repeat split; lia.
  - destruct dev; cbn [fst snd Lifecycle.started andb];
      rewrite ?List.filter_app, ?length_app; cbn; repeat split; lia.
Qed.

(** X21.  Over any run of calls to [start_monitoring] and
    [stop_monitoring]: a poller thread is created exactly once per call of
    [start_monitoring] that returned [True], a proxy thread at most as
    often, and the calls that returned [True] are at most one more than
    the calls of [stop_monitoring] (none more when the run began with the
    monitor active).  In particular a [start_monitoring] that follows
    another one returns [False] and changes nothing, whatever its
    [dev_mode]. *)
Theorem start_stop_threads (cs : list call) (s : Lifecycle.t) (dev dev' : bool) :
  pollers (snd (run_calls cs s)) = (pollers s + successes (fst (run_calls cs s)))%nat /\
  (proxies (snd (run_calls cs s)) <= proxies s + successes (fst (run_calls cs s)))%nat /\
  (successes (fst (run_calls cs s))
   <= stops cs + if Lifecycle.monitoring_active s then 0 else 1)%nat /\
  Lifecycle.start_monitoring dev' (snd (Lifecycle.start_monitoring dev s))
    = (false, snd (Lifecycle.start_monitoring dev s)).
Proof.
  split; [|split; [|split]].
  - revert s. induction cs as [|[d|] cs IH]; intros s.
    + cbn. lia.
    + cbn [run_calls].
      pose proof (start_monitoring_counts d s) as [Hr [Hp _]]. cbv zeta in *.
      destruct (Lifecycle.start_monitoring d s) as [ok s1]. cbn [fst snd] in *.
      specialize (IH s1). destruct (run_calls cs s1) as [oks s2]. cbn [fst snd] in *.
      unfold successes in *. cbn [List.filter]. destruct ok; cbn [length]; lia.
    + cbn [run_calls]. rewrite IH. reflexivity.
  - revert s. induction cs as [|[d|] cs IH]; intros s.
    + cbn. lia.
    + cbn [run_calls].
      pose proof (start_monitoring_counts d s) as [Hr [_ Hp]]. cbv zeta in *.
      destruct (Lifecycle.start_monitoring d s) as [ok s1]. cbn [fst snd] in *.
      specialize (IH s1). destruct (run_calls cs s1) as [oks s2]. cbn [fst snd] in *.
      unfold successes in *. cbn [List.filter].
      destruct ok, d; cbn [length andb] in *; lia.
    + cbn [run_calls]. exact (IH (Lifecycle.stop_monitoring s)).
  - revert s. induction cs as [|[d|] cs IH]; intros s.
    + cbn. lia.
    + cbn [run_calls].
      pose proof (start_monitoring_counts d s) as [Hr _].
      pose proof (start_monitoring_active d s) as Ha. cbv zeta in *.
      destruct (Lifecycle.start_monitoring d s) as [ok s1]. cbn [fst snd] in *.
      specialize (IH s1). rewrite Ha in IH.
      destruct (run_calls cs s1) as [oks s2]. cbn [fst snd] in *.
      unfold successes, stops in *. cbn [List.filter].
      destruct (Lifecycle.monitoring_active s); subst ok; cbn [negb length] in *; lia.
    + cbn [run_calls]. specialize (IH (Lifecycle.stop_monitoring s)).
      unfold stops in *. cbn [List.filter length Lifecycle.stop_monitoring
        Lifecycle.monitoring_active] in *.
      destruct (Lifecycle.monitoring_active s); lia.
  - pose proof (start_monitoring_active dev s) as Ha.
    unfold Lifecycle.start_monitoring at 1. rewrite Ha. reflexivity.
Qed.

(** X22.  [toggle_monitoring] answers [Traffic monitor not available]
    and changes nothing, not only when no monitor object exists but also
    when it is asked to enable a monitor that exists and is already
    running. *)
Theorem toggle_monitoring_not_available
    (traffic_monitor enable dev_mode_arg : bool) (a : Lifecycle.App) :
  DatabaseManager.db_up (db (Lifecycle.world a)) = true ->
  traffic_monitor = false
  \/ (enable = true /\ Lifecycle.monitoring_active (Lifecycle.life a) = true) ->
  fst (Lifecycle.toggle_monitoring traffic_monitor enable dev_mode_arg a)
    = Ok Lifecycle.NotAvailable /\
  Lifecycle.world (snd (Lifecycle.toggle_monitoring traffic_monitor enable dev_mode_arg a))
    = Lifecycle.world a /\
  Lifecycle.life (snd (Lifecycle.toggle_monitoring traffic_monitor enable dev_mode_arg a))
    = Lifecycle.life a.
Proof.
  intros Hup H. unfold Lifecycle.toggle_monitoring, DatabaseManager.get_setting.
  rewrite Hup. cbn [rbind].
  destruct H as [->|[-> Ha]].
  - rewrite !andb_false_r. destruct dev_mode_arg; repeat split.
  - destruct traffic_monitor.
    + cbn [andb negb]. unfold Lifecycle.start_monitoring. rewrite Ha.
      destruct dev_mode_arg; repeat split.
    + cbn [andb negb]. destruct dev_mode_arg; repeat split.
Qed.

Lemma toggle_monitoring_not_available_witness :
  fst (Lifecycle.toggle_monitoring true true false MoreExamples.running_app)
    = Ok Lifecycle.NotAvailable /\
  Lifecycle.world (snd (Lifecycle.toggle_monitoring true true false MoreExamples.running_app))
    = Lifecycle.world MoreExamples.running_app /\
  Lifecycle.life (snd (Lifecycle.toggle_monitoring true true false MoreExamples.running_app))
    = Lifecycle.life MoreExamples.running_app.
Proof.
  apply (toggle_monitoring_not_available true true false MoreExamples.running_app).
  - reflexivity.
  - right. split; reflexivity.
Defined.

(** *** The model file *)

(** X23.  [load_or_create_model] on a detector that has no model returns
    [True] exactly when the detector has a model afterwards.  A file that
    [joblib.load] rejects makes it return [False] and leaves the detector
    without a model, so that [predict_gambling] answers the neutral
    [(0.5, False)] for every input; and when there is no file and the new
    model cannot be saved, it still returns [True], with the model in
    memory and no file on disk. *)
Theorem load_or_create_model_outcomes
    (create_basic_model : result Pipeline) (self : GamblingDetector.t)
    (disk : ModelFiles.Disk) :
  model self = None ->
  (fst (fst (ModelFiles.load_or_create_model create_basic_model self disk)) = true
   <-> model (snd (fst (ModelFiles.load_or_create_model create_basic_model self disk)))
       <> None) /\
  (ModelFiles.file disk = ModelFiles.CorruptFile ->
   ModelFiles.load_or_create_model create_basic_model self disk = (false, self, disk) /\
   forall urlparse float_of_str d url hdrs content,
     predict_gambling urlparse float_of_str self d url hdrs content = Ok (0.5%float, false)) /\
  (forall m, ModelFiles.file disk = ModelFiles.NoFile ->
     ModelFiles.writable disk = false ->
     create_basic_model = Ok m ->
     ModelFiles.load_or_create_model create_basic_model self disk
     = (true, ModelFiles.with_model self (Some m), disk)).
Proof.
  intros Hnone. unfold ModelFiles.load_or_create_model. split; [|split].
  - destruct (ModelFiles.file disk); cbn.
    + destruct create_basic_model; cbn; [split; congruence | rewrite Hnone; split; congruence].
    + split; congruence.
    + rewrite Hnone. split; congruence.
  - intros ->. split; [reflexivity|]. intros. unfold predict_gambling. rewrite Hnone.
    reflexivity.
  - intros m -> Hw ->. unfold ModelFiles.save_model. cbn. rewrite Hw. reflexivity.
Qed.

Lemma load_or_create_model_outcomes_witness :
  ModelFiles.load_or_create_model (Ok (Examples.constant_pipeline 0.9%float))
    MoreExamples.unloaded MoreExamples.readonly_disk
  = (true,
     ModelFiles.with_model MoreExamples.unloaded (Some (Examples.constant_pipeline 0.9%float)),
     MoreExamples.readonly_disk).
Proof.
  apply (proj2 (proj2 (load_or_create_model_outcomes
                         (Ok (Examples.constant_pipeline 0.9%float))
                         MoreExamples.unloaded MoreExamples.readonly_disk eq_refl))
           (Examples.constant_pipeline 0.9%float));
    reflexivity.
Defined.

(** X24.  A model saved with [save_model] on a writable disk is the one
    that [load_or_create_model] loads afterwards, into any detector and
    without building a new model; the file is left as it is. *)
Theorem save_then_load_model
    (create_basic_model : result Pipeline) (self other : GamblingDetector.t)
    (disk : ModelFiles.Disk) (m : Pipeline) :
  model self = Some m ->
  ModelFiles.writable disk = true ->
  fst (ModelFiles.save_model self disk) = true /\
  ModelFiles.load_or_create_model create_basic_model other
    (snd (ModelFiles.save_model self disk))
  = (true, ModelFiles.with_model other (Some m), snd (ModelFiles.save_model self disk)).
Proof.
  intros Hm Hw. unfold ModelFiles.save_model. rewrite Hm, Hw. cbn. split; reflexivity.
Qed.

Lemma save_then_load_model_witness :
  fst (ModelFiles.save_model
         (Examples.detector_of (Some (Examples.constant_pipeline 0.9%float)))
         MoreExamples.empty_disk) = true /\
  ModelFiles.load_or_create_model (Raise OtherException) MoreExamples.unloaded
    (snd (ModelFiles.save_model
            (Examples.detector_of (Some (Examples.constant_pipeline 0.9%float)))
            MoreExamples.empty_disk))
  = (true,
     ModelFiles.with_model MoreExamples.unloaded (Some (Examples.constant_pipeline 0.9%float)),
     snd (ModelFiles.save_model
            (Examples.detector_of (Some (Examples.constant_pipeline 0.9%float)))
            MoreExamples.empty_disk)).
Proof.
  apply (save_then_load_model (Raise OtherException)
           (Examples.detector_of (Some (Examples.constant_pipeline 0.9%float)))
           MoreExamples.unloaded MoreExamples.empty_disk
           (Examples.constant_pipeline 0.9%float));
    reflexivity.
Defined.

(** X25.  [retrain_model] returns [False], changing nothing, for an empty
    training set and for a detector without a model.  Otherwise the
    pipeline is refitted on the features of the URLs alone, with label 1
    for gambling and 0 for safe; when the refit succeeds the detector
    holds the refitted pipeline whether or not it could be saved, so a
    [False] from a failed save does not mean the old model is still in
    use. *)
Theorem retrain_model_outcomes
    (urlparse : string -> result ParseResult)
    (fit : Pipeline -> list string -> list Z -> ModelFiles.fit_outcome)
    (self : GamblingDetector.t) (disk : ModelFiles.Disk)
    (sample : string * bool) (more : list (string * bool)) :
  ModelFiles.retrain_model urlparse fit self [] disk = (false, self, disk) /\
  (model self = None ->
   ModelFiles.retrain_model urlparse fit self (sample :: more) disk = (false, self, disk)) /\
  (forall m m',
     model self = Some m ->
     fit m
       (map (fun d : string * bool => extract_features_from_url urlparse (fst d) None None)
            (sample :: more))
       (map (fun d : string * bool => if snd d then 1 else 0) (sample :: more))
     = ModelFiles.Fitted m' ->
     ModelFiles.retrain_model urlparse fit self (sample :: more) disk
     = (ModelFiles.writable disk,
        ModelFiles.with_model self (Some m'),
        if ModelFiles.writable disk
        then {| ModelFiles.file := ModelFiles.PickledModel m';
                ModelFiles.writable := ModelFiles.writable disk |}
        else disk)).
Proof.
  split; [reflexivity|]. split.
  - intros Hnone. unfold ModelFiles.retrain_model. rewrite Hnone. reflexivity.
  - intros m m' Hm Hfit. unfold ModelFiles.retrain_model. rewrite Hm, Hfit.
    unfold ModelFiles.save_model. cbn [model ModelFiles.with_model].
    destruct (ModelFiles.writable disk); reflexivity.
Qed.

Lemma retrain_model_outcomes_witness :
  ModelFiles.retrain_model Examples.simple_urlparse
    (MoreExamples.refit_to (Examples.constant_pipeline 0.2%float))
    (Examples.detector_of (Some (Examples.constant_pipeline 0.9%float)))
    [("http://casino.example/", false)] MoreExamples.readonly_disk
  = (false,
     ModelFiles.with_model (Examples.detector_of (Some (Examples.constant_pipeline 0.9%float)))
       (Some (Examples.constant_pipeline 0.2%float)),
     MoreExamples.readonly_disk).
Proof.
  apply (proj2 (proj2 (retrain_model_outcomes Examples.simple_urlparse
                         (MoreExamples.refit_to (Examples.constant_pipeline 0.2%float))
                         (Examples.detector_of (Some (Examples.constant_pipeline 0.9%float)))
                         MoreExamples.readonly_disk
                         ("http://casino.example/", false) []))
           (Examples.constant_pipeline 0.9%float) (Examples.constant_pipeline 0.2%float));
    reflexivity.
Defined.

(** *** What the detection log keeps of a page *)

Lemma length_substring_0 (n : nat) (s : string) :
  String.length (String.substring 0 n s) = Nat.min n (String.length s).
Proof.
  revert s. induction n as [|n IH]; intros s.
  - rewrite substring_0_0. reflexivity.
  - destruct s as [|c s]; [reflexivity|]. simpl. rewrite IH. reflexivity.
Qed.

(** X26.  On a reachable database [log_detection] appends one record.
    Its snippet is the first 1000 characters of the content it was given,
    never more, and it holds no snippet at all when that content is absent
    or empty. *)
Theorem detection_snippet_is_cut
    (url : string) (confidence : float) (is_gambling : bool) (hdrs : option headers)
    (content : option string) (blocked : bool) (method : option string)
    (status_code response_size : option Z) (d : DatabaseManager.t) :
  DatabaseManager.db_up d = true ->
  exists row,
    DatabaseManager.detection_logs
      (snd (DatabaseManager.log_detection url confidence is_gambling hdrs content blocked
              method status_code response_size d))
    = (DatabaseManager.detection_logs d ++ [row])%list /\
    match content, DatabaseManager.det_content_snippet row with
    | Some c, Some snippet =>
        c <> "" /\ snippet = String.substring 0 1000 c /\
        String.length snippet = Nat.min 1000 (String.length c)
    | Some c, None => c = ""
    | None, Some _ => False
    | None, None => True
    end.
Proof.
  intros Hup. unfold DatabaseManager.log_detection. rewrite Hup. cbn [snd].
  eexists. split; [reflexivity|]. cbn [DatabaseManager.det_content_snippet].
  destruct content as [c|]; [|exact I].
  destruct c as [|x c]; [reflexivity|]. cbn [truthy_str].
  split; [discriminate|]. split; [reflexivity|]. apply length_substring_0.
Qed.

Lemma detection_snippet_is_cut_witness :
  exists row,
    DatabaseManager.detection_logs
      (snd (DatabaseManager.log_detection "http://casino.example/" 0.9%float true None
              (Some MoreExamples.long_page) false (Some "GET") (Some 200) None
              Examples.empty_db))
    = (DatabaseManager.detection_logs Examples.empty_db ++ [row])%list /\
    match Some MoreExamples.long_page, DatabaseManager.det_content_snippet row with
    | Some c, Some snippet =>
        c <> "" /\ snippet = String.substring 0 1000 c /\
        String.length snippet = Nat.min 1000 (String.length c)
    | Some c, None => c = ""
    | None, Some _ => False
    | None, None => True
    end.
Proof.
  apply (detection_snippet_is_cut "http://casino.example/" 0.9%float true None
           (Some MoreExamples.long_page) false (Some "GET") (Some 200) None
           Examples.empty_db).
  reflexivity.
Defined.
